(** * SoulWallet SDK: the UserOperation lifecycle engine

    A shallow embedding of [SoulWallet] (packages/soulwallet-sdk, the
    Result-returning generation of [soulWallet.ts]) together with the older
    exception-throwing generation and [DeployFactory] (utils/deployFactory),
    and the properties of the on-chain configuration cache, prefund
    computation, gas estimation, submission, execute-operation builder,
    construction, deployment operation and factory deployment.

    Layout: the JavaScript values and the data model; the collaborators, the
    outside world and the state; the monad of [async] methods; the methods
    of both generations and of [DeployFactory]; the vocabulary of the
    statements and a concrete world; then the proofs, component by
    component, and the statements evaluated on the concrete world.

    Conventions of the embedding:
    - a JavaScript [bigint] is a [Z]; [%] on bigints truncates towards zero
      and is [Z.rem];
    - a JavaScript string is a [string] of ASCII characters (every string
      the SDK handles is a hex string, a decimal number or a fixed message);
    - an [async] method is a state transformer that completes either
      normally with a value or abruptly with a thrown value;
    - the answers of the JSON-RPC node, of the bundler and of the contracts
      during one call are given by an [Env]; every request is logged in the
      [trace] of the state. *)

From Stdlib Require Import ZArith String Ascii List Lia.
From Stdlib Require Import HexadecimalString DecimalString.
From Stdlib Require Import HexadecimalPos HexadecimalN DecimalN.
From stdpp Require Import base option gmap strings pretty.

Open Scope Z_scope.
Open Scope string_scope.

(** ** JavaScript values used by the SDK *)

(** [Result<T, E>] of @soulwallet/result. *)
Inductive Result (T E : Type) : Type :=
| Ok (v : T)
| Err (e : E).
Arguments Ok {T E} v.
Arguments Err {T E} e.

Definition isErr {T E} (r : Result T E) : bool :=
  match r with Ok _ => false | Err _ => true end.

(** A JavaScript [Error] (or a subclass such as [SyntaxError]). *)
Record Error : Type := mkError { message : string }.

(** What a [throw] carries: an [Error] instance, or some other object. The
    SDK itself throws such an object at one place, [throw new Err(...)] in
    [preFund]: an [Err] of @soulwallet/result wrapping an [Error], which is
    not an [Error] itself. *)
Inductive Thrown : Type :=
| ThrownError (e : Error)
| ThrownErr (e : Error).

Definition instanceof_Error (t : Thrown) : bool :=
  match t with ThrownError _ => true | ThrownErr _ => false end.

(** The state of a promise once it has settled. *)
Inductive Settled (A : Type) : Type :=
| Resolved (a : A)
| Rejected (t : Thrown).
Arguments Resolved {A} a.
Arguments Rejected {A} t.

(** *** Strings *)

Definition lower_ascii (c : ascii) : ascii :=
  let n := N_of_ascii c in
  if ((65 <=? n) && (n <=? 90))%N then ascii_of_N (n + 32) else c.

(** [String.prototype.toLowerCase] on ASCII strings. *)
Fixpoint toLowerCase (s : string) : string :=
  match s with
  | EmptyString => EmptyString
  | String c r => String (lower_ascii c) (toLowerCase r)
  end.

(** [Array.prototype.join()] with the default separator. *)
Definition join (l : list string) : string := String.concat "," l.

(** [hay.indexOf(needle) === -1]. *)
Definition indexOf_is_minus1 (hay needle : string) : bool :=
  match String.index 0 needle hay with
  | Some _ => false
  | None => true
  end.

(** *** Big integers *)

(** [BigInt.prototype.toString(16)]. *)
Definition hex_of_N (n : N) : string :=
  HexadecimalString.NilZero.string_of_uint (N.to_hex_uint n).

Definition toString16 (z : Z) : string :=
  match z with
  | Z0 => "0"
  | Zpos p => hex_of_N (Npos p)
  | Zneg p => "-" ++ hex_of_N (Npos p)
  end.

(** [String(n)] for a number [n] that is a safe integer: plain decimal. *)
Definition Number_toString (n : Z) : string := pretty n.

(** [Number.isSafeInteger(Number(b))] for a bigint [b]. The conversion
    [Number(b)] is exact exactly when [|b| <= 2^53 - 1]; a larger [b] is
    rounded to a double of magnitude at least [2^53], which is not safe. *)
Definition Number_isSafeInteger (b : Z) : bool :=
  (Z.abs b <=? 2 ^ 53 - 1)%Z.

Definition isWhiteSpace (c : ascii) : bool :=
  let n := N_of_ascii c in
  ((9 <=? n) && (n <=? 13) || (n =? 32))%N.

Fixpoint trimStart (s : string) : string :=
  match s with
  | EmptyString => EmptyString
  | String c r => if isWhiteSpace c then trimStart r else s
  end.

Fixpoint string_rev_onto (s acc : string) : string :=
  match s with
  | EmptyString => acc
  | String c r => string_rev_onto r (String c acc)
  end.

Definition string_rev (s : string) : string := string_rev_onto s EmptyString.

Definition trim (s : string) : string :=
  string_rev (trimStart (string_rev (trimStart s))).

Definition digit_value (c : ascii) : option N :=
  let n := N_of_ascii c in
  if ((48 <=? n) && (n <=? 57))%N then Some (n - 48)%N else None.

(** Digits of a binary or octal literal, most significant first. *)
Fixpoint parse_digits (radix : N) (s : string) (acc : N) : option N :=
  match s with
  | EmptyString => Some acc
  | String c r =>
      match digit_value c with
      | Some d => if (d <? radix)%N then parse_digits radix r (acc * radix + d)%N else None
      | None => None
      end
  end.

Definition parse_nonempty (radix : N) (s : string) : option N :=
  match s with
  | EmptyString => None
  | _ => parse_digits radix s 0
  end.

Definition parse_hex (s : string) : option N :=
  match HexadecimalString.NilZero.uint_of_string (toLowerCase s) with
  | Some d => Some (N.of_hex_uint d)
  | None => None
  end.

Definition parse_decimal (s : string) : option N :=
  match DecimalString.NilZero.uint_of_string s with
  | Some d => Some (N.of_uint d)
  | None => None
  end.

(** The abstract operation StringToBigInt of ECMAScript: surrounding white
    space is ignored, the empty string is [0n], a literal is either a signed
    decimal integer or an unsigned [0x], [0o] or [0b] integer; anything else
    is a [SyntaxError] ([None]). *)
Definition StringToBigInt (s : string) : option Z :=
  match trim s with
  | EmptyString => Some 0
  | String "0" (String ("x" | "X") r) => Z.of_N <$> parse_hex r
  | String "0" (String ("o" | "O") r) => Z.of_N <$> parse_nonempty 8 r
  | String "0" (String ("b" | "B") r) => Z.of_N <$> parse_nonempty 2 r
  | String "-" r => (fun n => - Z.of_N n) <$> parse_decimal r
  | String "+" r => Z.of_N <$> parse_decimal r
  | t => Z.of_N <$> parse_decimal t
  end.

(** A [BigNumberish] field: an integral JavaScript number or a string. *)
Inductive BigNumberish : Type :=
| Num (n : Z)
| Str (s : string).

(** [BigInt(x)]; [None] when the conversion throws. *)
Definition BigInt (x : BigNumberish) : option Z :=
  match x with
  | Num n => Some n
  | Str s => StringToBigInt s
  end.

Definition BigInt_error (x : BigNumberish) : Error :=
  match x with
  | Num _ => mkError "Cannot convert the number to a BigInt"
  | Str s => mkError ("Cannot convert " ++ s ++ " to a BigInt")
  end.


(** ** Data model *)

Record onChainConfig : Type := {
  chainId : Z;
  entryPoint : string;
  soulWalletLogic : string;
}.

Record UserOperation : Type := {
  sender : string;
  nonce : BigNumberish;
  initCode : string;
  callData : string;
  callGasLimit : BigNumberish;
  verificationGasLimit : BigNumberish;
  preVerificationGas : BigNumberish;
  maxFeePerGas : BigNumberish;
  maxPriorityFeePerGas : BigNumberish;
  paymasterAndData : string;
  signature : string;
}.

Definition with_signature (sg : string) (u : UserOperation) : UserOperation :=
  {| sender := sender u; nonce := nonce u; initCode := initCode u;
     callData := callData u; callGasLimit := callGasLimit u;
     verificationGasLimit := verificationGasLimit u;
     preVerificationGas := preVerificationGas u;
     maxFeePerGas := maxFeePerGas u;
     maxPriorityFeePerGas := maxPriorityFeePerGas u;
     paymasterAndData := paymasterAndData u; signature := sg |}.

Definition with_preVerificationGas (g : BigNumberish) (u : UserOperation) : UserOperation :=
  {| sender := sender u; nonce := nonce u; initCode := initCode u;
     callData := callData u; callGasLimit := callGasLimit u;
     verificationGasLimit := verificationGasLimit u;
     preVerificationGas := g;
     maxFeePerGas := maxFeePerGas u;
     maxPriorityFeePerGas := maxPriorityFeePerGas u;
     paymasterAndData := paymasterAndData u; signature := signature u |}.

Definition with_verificationGasLimit (g : BigNumberish) (u : UserOperation) : UserOperation :=
  {| sender := sender u; nonce := nonce u; initCode := initCode u;
     callData := callData u; callGasLimit := callGasLimit u;
     verificationGasLimit := g;
     preVerificationGas := preVerificationGas u;
     maxFeePerGas := maxFeePerGas u;
     maxPriorityFeePerGas := maxPriorityFeePerGas u;
     paymasterAndData := paymasterAndData u; signature := signature u |}.

Definition with_callGasLimit (g : BigNumberish) (u : UserOperation) : UserOperation :=
  {| sender := sender u; nonce := nonce u; initCode := initCode u;
     callData := callData u; callGasLimit := g;
     verificationGasLimit := verificationGasLimit u;
     preVerificationGas := preVerificationGas u;
     maxFeePerGas := maxFeePerGas u;
     maxPriorityFeePerGas := maxPriorityFeePerGas u;
     paymasterAndData := paymasterAndData u; signature := signature u |}.

(** [Transaction] of ISoulWallet: [value], [data] and [gasLimit] are
    optional ([None] is [undefined]). *)
Record Transaction : Type := {
  to : string;
  value : option BigNumberish;
  data : option string;
  gasLimit : option BigNumberish;
}.

Record GuardHookInputData : Type := {
  hookSender : string;
  hookInputData : string;
}.

Record HookInputData : Type := {
  guardHooks : list string;
  inputData : string;
}.

(** [UserOpErrors] of IUserOpErrors: the SDK itself only builds
    [UnknownError]; any other code comes from the bundler. *)
Inductive UserOpErrorCodes : Type :=
| UnknownError
| BundlerError (code : Z).

Record UserOpErrors : Type := mkUserOpErrors {
  errorCode : UserOpErrorCodes;
  errorMessage : string;
}.

(** The answer of [eth_estimateUserOperationGas]. *)
Record UserOpGas : Type := {
  gas_preVerificationGas : BigNumberish;
  gas_verificationGasLimit : BigNumberish;
  gas_callGasLimit : BigNumberish;
}.

(** The three entry points of the wallet contract that [fromTransaction]
    encodes a call to:
    [execute(address,uint256,bytes)], [executeBatch(address[],bytes[])] and
    [executeBatch(address[],uint256[],bytes[])]. *)
Inductive FunctionCall : Type :=
| execute (dest : string) (val : string) (func : string)
| executeBatch (dest : list string) (func : list string)
| executeBatch_values (dest : list string) (vals : list string) (func : list string).

(** The return value of [preFund]. *)
Record PreFund : Type := {
  deposit : string;
  prefund : string;
  missfund : string;
}.

(** The read-only fields of a [SoulWallet] instance. *)
Record SoulWallet : Type := {
  soulWalletFactoryAddress : string;
  defalutCallbackHandlerAddress : string;
  keyStoreModuleAddress : string;
  securityControlModuleAddress : string;
}.

(** ** Collaborators outside the repository sources *)

(** The helper modules of the SDK that [soulWallet.ts] imports
    (tools/typeGuard, tools/userOpHash, tools/signature, tools/gasOverhead)
    and the ABI encoder of ethers. Each may throw. [calcGasOverhead] updates
    the operation in place: it maps the contents of the object before the
    call to its contents after it. *)
Class Collaborators : Type := {
  TypeGuard_onlyAddress : string -> Result string string;
  TypeGuard_onlyBytes : string -> Result string string;
  TypeGuard_maxToUint192 : string -> Result Z string;
  getUserOpHash : UserOperation -> string -> Z -> Settled string;
  Signature_packSignature : string -> string -> option HookInputData -> Settled string;
  Signature_semiValidSignature : Settled string;
  GasOverhead_calcGasOverhead : UserOperation -> Settled UserOperation;
  encodeFunctionData : FunctionCall -> Settled string;
}.

(** ** The outside world *)

(** A request that leaves the process. *)
Inductive Event : Type :=
| provider_getNetwork_request
| provider_getCode_request (address : string)
| staticCall_request (contract : string) (method : string) (args : list string)
| bundler_getNetwork_request
| eth_supportedEntryPoints_request
| eth_estimateUserOperationGas_request (ep : string) (op : UserOperation)
| eth_sendUserOperation_request (ep : string) (op : UserOperation).

(** How the node, the contracts and the bundler answer during one call of
    an SDK method. *)
Record Env : Type := {
  provider_getNetwork : Settled Z;
  provider_getCode : string -> Settled string;
  walletImpl : string -> Settled string;
  wallet_entryPoint : string -> Settled string;
  entryPoint_balanceOf : string -> string -> Settled Z;
  entryPoint_getNonce : string -> string -> string -> Settled Z;
  wallet_listPlugin : string -> Settled (list string);
  bundler_getNetwork : Settled Z;
  eth_supportedEntryPoints : Settled (Result (list string) Error);
  eth_estimateUserOperationGas :
    string -> UserOperation -> Settled (Result UserOpGas UserOpErrors);
  eth_sendUserOperation :
    string -> UserOperation -> Settled (Result string UserOpErrors);
}.

(** ** State *)

(** What [StorageCache] holds: configurations (written by
    [getOnChainConfig]) and booleans (written by [walletDeployed]). *)
Inductive CacheValue : Type :=
| CachedConfig (c : onChainConfig)
| CachedBool (b : bool).

(** JavaScript truthiness of a cached value; an object is truthy. *)
Definition truthy (v : option CacheValue) : bool :=
  match v with
  | Some (CachedConfig _) => true
  | Some (CachedBool b) => b
  | None => false
  end.

(** A cached value read at type [onChainConfig | undefined]. A boolean is
    never stored under a configuration key: the two writers use keys of
    different shapes. *)
Definition as_config (v : option CacheValue) : option onChainConfig :=
  match v with
  | Some (CachedConfig c) => Some c
  | _ => None
  end.

(** The process-wide [StorageCache] singleton, the two private mutable
    fields of the instance, and the log of requests issued so far. *)
Record State : Type := {
  StorageCache : gmap string CacheValue;
  _onChainConfig : option onChainConfig;
  _entryPointContract : option string;
  trace : list Event;
}.

Definition set_StorageCache (f : gmap string CacheValue -> gmap string CacheValue)
    (s : State) : State :=
  {| StorageCache := f (StorageCache s); _onChainConfig := _onChainConfig s;
     _entryPointContract := _entryPointContract s; trace := trace s |}.

Definition set_onChainConfig (c : onChainConfig) (s : State) : State :=
  {| StorageCache := StorageCache s; _onChainConfig := Some c;
     _entryPointContract := _entryPointContract s; trace := trace s |}.

Definition set_entryPointContract (a : string) (s : State) : State :=
  {| StorageCache := StorageCache s; _onChainConfig := _onChainConfig s;
     _entryPointContract := Some a; trace := trace s |}.

Definition log (e : Event) (s : State) : State :=
  {| StorageCache := StorageCache s; _onChainConfig := _onChainConfig s;
     _entryPointContract := _entryPointContract s; trace := trace s ++ [e] |}.

(** A newly constructed instance in a process whose cache holds [c]. *)
Definition fresh_instance (c : gmap string CacheValue) (t : list Event) : State :=
  {| StorageCache := c; _onChainConfig := None; _entryPointContract := None;
     trace := t |}.

(** ** The monad of [async] methods *)

Inductive Completion (A : Type) : Type :=
| Normal (a : A)
| Abrupt (t : Thrown).
Arguments Normal {A} a.
Arguments Abrupt {A} t.

Definition M (S A : Type) : Type := S -> Completion A * S.

#[global] Instance M_ret {S} : MRet (M S) := fun A a s => (Normal a, s).

#[global] Instance M_bind {S} : MBind (M S) := fun A B k m s =>
  match m s with
  | (Normal a, s') => k a s'
  | (Abrupt t, s') => (Abrupt t, s')
  end.

Definition throw {S A} (t : Thrown) : M S A := fun s => (Abrupt t, s).

Definition gets {S A} (f : S -> A) : M S A := fun s => (Normal (f s), s).

Definition modify {S} (f : S -> S) : M S unit := fun s => (Normal tt, f s).

(** [try { body } catch (error) { handler error }] *)
Definition try_catch {S A} (body : M S A) (handler : Thrown -> M S A) : M S A :=
  fun s =>
    match body s with
    | (Normal a, s') => (Normal a, s')
    | (Abrupt t, s') => handler t s'
    end.

(** [try { body } finally { fin }]: [fin] runs however [body] completes; the
    completion of [body] stands unless [fin] itself throws. *)
Definition try_finally {S A} (body : M S A) (fin : M S unit) : M S A :=
  fun s =>
    match body s with
    | (c, s') =>
        match fin s' with
        | (Normal _, s'') => (c, s'')
        | (Abrupt t, s'') => (Abrupt t, s'')
        end
    end.

(** A synchronous helper that may throw. *)
Definition settle {S A} (p : Settled A) : M S A :=
  fun s =>
    match p with
    | Resolved a => (Normal a, s)
    | Rejected t => (Abrupt t, s)
    end.

(** [await] of a request [e] answered by [p]. *)
Definition await {A} (e : Event) (p : Settled A) : M State A :=
  modify (log e);; settle p.

(** [BigInt(x)] as a statement: a failed conversion throws a [SyntaxError]. *)
Definition BigInt_ {S} (x : BigNumberish) : M S Z :=
  fun s =>
    match BigInt x with
    | Some n => (Normal n, s)
    | None => (Abrupt (ThrownError (BigInt_error x)), s)
    end.

(** Running an SDK method against an operation object owned by the caller:
    the method sees the SDK state and the object. *)
Definition zoom {U A} (m : M State A) : M (State * U) A :=
  fun su =>
    match m (fst su) with
    | (c, s') => (c, (s', snd su))
    end.

Definition read_userOp {S} : M (S * UserOperation) UserOperation := gets snd.

Definition update_userOp {S} (f : UserOperation -> UserOperation) :
    M (S * UserOperation) unit :=
  modify (fun su => (fst su, f (snd su))).

(** ** [SoulWallet]: the Result-returning generation *)

Section SoulWallet.
Context `{Collaborators} (this : SoulWallet).

(** [StorageCache.getInstance().get(key, undefined)] *)
Definition StorageCache_get (key : string) : M State (option CacheValue) :=
  gets (fun s => StorageCache s !! key).

(** [StorageCache.getInstance().set(key, v)] *)
Definition StorageCache_set (key : string) (v : CacheValue) : M State unit :=
  modify (set_StorageCache (insert key v)).

Definition onChainConfig_key (factory : string) (_chainId : Z) : string :=
  "onChainConfig_" ++ factory ++ "_" ++ Number_toString _chainId.

Definition getOnChainConfig (w : Env) : M State (Result onChainConfig Error) :=
  memo ← gets _onChainConfig;
  match memo with
  | Some c => mret (Ok c)
  | None =>
    _chainId ← await provider_getNetwork_request (provider_getNetwork w);
    if Number_isSafeInteger _chainId then
      if (_chainId =? 0)%Z then mret (Err (mkError "Invalid chainId"))
      else
        let key := onChainConfig_key (soulWalletFactoryAddress this) _chainId in
        (* read from cache *)
        cached ← StorageCache_get key;
        match as_config cached with
        | Some c => modify (set_onChainConfig c);; mret (Ok c)
        | None =>
          soulWalletLogic_ ← await
            (staticCall_request (soulWalletFactoryAddress this) "walletImpl" [])
            (walletImpl w (soulWalletFactoryAddress this));
          entryPoint_ ← await
            (staticCall_request soulWalletLogic_ "entryPoint" [])
            (wallet_entryPoint w soulWalletLogic_);
          _bundlerChainId ← await bundler_getNetwork_request (bundler_getNetwork w);
          if Number_isSafeInteger _bundlerChainId then
            if (_bundlerChainId =? 0)%Z then
              mret (Err (mkError "Invalid bundler chainId"))
            else if negb (_chainId =? _bundlerChainId)%Z then
              mret (Err (mkError "chainId !== bundler chainId"))
            else
              let c := {| chainId := _chainId; entryPoint := entryPoint_;
                          soulWalletLogic := soulWalletLogic_ |} in
              (* save to cache *)
              StorageCache_set key (CachedConfig c);;
              (* check bundler RPC *)
              ret ← await eth_supportedEntryPoints_request (eth_supportedEntryPoints w);
              match ret with
              | Err e => mret (Err e)
              | Ok l =>
                if indexOf_is_minus1 (toLowerCase (join l)) (toLowerCase entryPoint_)
                then mret (Err (mkError
                  ("Bundler network doesn't support entryPoint " ++ entryPoint_)))
                else modify (set_onChainConfig c);; mret (Ok c)
              end
          else mret (Err (mkError "bundler chainId is not a safe integer"))
        end
    else mret (Err (mkError "chainId is not a safe integer"))
  end.

(** The contract object is represented by the address it is bound to. *)
Definition getEntryPointContract (w : Env) : M State (Result string Error) :=
  c ← gets _entryPointContract;
  match c with
  | Some a => mret (Ok a)
  | None =>
    r ← getOnChainConfig w;
    match r with
    | Err e => mret (Err e)
    | Ok cfg =>
      modify (set_entryPointContract (entryPoint cfg));;
      mret (Ok (entryPoint cfg))
    end
  end.

Definition preFund (w : Env) (userOp : UserOperation) : M State (Result PreFund Error) :=
  try_catch
    (let ZERO := 0%Z in
     maxFeePerGas_ ← BigInt_ (maxFeePerGas userOp);
     preVerificationGas_ ← BigInt_ (preVerificationGas userOp);
     verificationGasLimit_ ← BigInt_ (verificationGasLimit userOp);
     callGasLimit_ ← BigInt_ (callGasLimit userOp);
     if (maxFeePerGas_ =? ZERO)%Z || (preVerificationGas_ =? ZERO)%Z
        || (verificationGasLimit_ =? ZERO)%Z then
       throw (ThrownError (mkError
         "maxFeePerGas, preVerificationGas, verificationGasLimit must > 0"))
     else
       let mul := if negb (String.eqb (paymasterAndData userOp) "0x") then 3 else 1 in
       let requiredGas := callGasLimit_ + verificationGasLimit_ * mul + preVerificationGas_ in
       let requiredPrefund := requiredGas * maxFeePerGas_ in
       r ← getOnChainConfig w;
       match r with
       | Err e => throw (ThrownErr e)
       | Ok _ =>
         _entrypointRet ← getEntryPointContract w;
         match _entrypointRet with
         | Err e => mret (Err e)
         | Ok ep =>
           _deposit ← await (staticCall_request ep "balanceOf" [sender userOp])
                            (entryPoint_balanceOf w ep (sender userOp));
           let _missfund :=
             if (_deposit <? requiredPrefund)%Z then requiredPrefund - _deposit else ZERO in
           mret (Ok {| deposit := "0x" ++ toString16 _deposit;
                       prefund := "0x" ++ toString16 requiredPrefund;
                       missfund := "0x" ++ toString16 _missfund |})
         end
       end)
    (fun error =>
       match error with
       | ThrownError e => mret (Err e)
       | _ => mret (Err (mkError "unknown error"))
       end).

Definition userOpHash (w : Env) (userOp : UserOperation) : M State (Result string Error) :=
  r ← getOnChainConfig w;
  match r with
  | Err e => mret (Err e)
  | Ok c => h ← settle (getUserOpHash userOp (entryPoint c) (chainId c)); mret (Ok h)
  end.

Definition guardHookList (w : Env) (walletAddress : string) :
    M State (Result (list string) Error) :=
  try_catch
    (_guardHookList ← await (staticCall_request walletAddress "listPlugin" ["1"])
                            (wallet_listPlugin w walletAddress);
     mret (Ok _guardHookList))
    (fun error =>
       match error with
       | ThrownError e => mret (Err e)
       | _ => mret (Err (mkError "unknown error"))
       end).

Definition packUserOpSignature (w : Env) (signature_ validationData : string)
    (guardHookInputData : option GuardHookInputData) : M State (Result string Error) :=
  match guardHookInputData with
  | Some g =>
    if isErr (TypeGuard_onlyAddress (hookSender g)) then
      throw (ThrownError (mkError ("invalid sender: " ++ hookSender g)))
    else
      guardHooksRet ← guardHookList w (hookSender g);
      match guardHooksRet with
      | Err e => mret (Err e)
      | Ok hooks =>
        p ← settle (Signature_packSignature signature_ validationData
              (Some {| guardHooks := hooks; inputData := hookInputData g |}));
        mret (Ok p)
      end
  | None =>
    p ← settle (Signature_packSignature signature_ validationData None);
    mret (Ok p)
  end.

Definition semiValid_signature : string :=
  "0xffffffffffffffffffffffffffffffffffffffffffffffffffffffffffffffffffffffffffffffffffffffffffffffffffffffffffffffffffffffffffffffffff".

Definition semiValid_validationData : Z :=
  Z.shiftl 68719476735 160 + Z.shiftl 1599999999 (160 + 48).

(** The part of [estimateUserOperationGas] after the placeholder signature
    has been installed. *)
Definition estimate_and_update (w : Env) (cfg : onChainConfig) :
    M (State * UserOperation) (Result bool UserOpErrors) :=
  userOp ← read_userOp;
  userOpGasRet ← zoom (await
    (eth_estimateUserOperationGas_request (entryPoint cfg) userOp)
    (eth_estimateUserOperationGas w (entryPoint cfg) userOp));
  match userOpGasRet with
  | Err e => mret (Err e)
  | Ok g =>
    update_userOp (with_preVerificationGas (gas_preVerificationGas g));;
    update_userOp (with_verificationGasLimit (gas_verificationGasLimit g));;
    (* Value of 'gas': Even number: automatic setting,
                       Odd number: manually specified. Do not override! *)
    userOp ← read_userOp;
    _callGasLimit ← BigInt_ (callGasLimit userOp);
    let isEven := (Z.rem _callGasLimit 2 =? 0)%Z in
    (if isEven then
       (* auto *)
       _newCallGasLimit ← BigInt_ (gas_callGasLimit g);
       let _newCallGasLimit :=
         if (Z.rem _newCallGasLimit 2 =? 1)%Z
         then (* odd number -> even number *) _newCallGasLimit + 1
         else _newCallGasLimit in
       update_userOp (with_callGasLimit (Str ("0x" ++ toString16 _newCallGasLimit)))
     else mret tt);;
    userOp ← read_userOp;
    userOp' ← settle (GasOverhead_calcGasOverhead userOp);
    update_userOp (fun _ => userOp');;
    mret (Ok true)
  end.

Definition estimateUserOperationGas (w : Env)
    (semiValidGuardHookInputData : option GuardHookInputData) :
    M (State * UserOperation) (Result bool UserOpErrors) :=
  userOp ← read_userOp;
  let invalid :=
    match semiValidGuardHookInputData with
    | Some g =>
      if negb (String.eqb (toLowerCase (hookSender g)) (toLowerCase (sender userOp))) then
        Some (mkUserOpErrors UnknownError ("invalid sender: " ++ hookSender g))
      else if String.eqb (initCode userOp) "0x" then
        Some (mkUserOpErrors UnknownError
          "cannot set semiValidGuardHookInputData when the contract wallet is not deployed")
      else None
    | None => None
    end in
  match invalid with
  | Some e => mret (Err e)
  | None =>
    let semiValidSignature := String.eqb (signature userOp) "0x" in
    _onChainConfig ← zoom (getOnChainConfig w);
    match _onChainConfig with
    | Err e => mret (Err (mkUserOpErrors UnknownError (message e)))
    | Ok cfg =>
      try_finally
        (if semiValidSignature then
           (* semiValidSignature *)
           signatureRet ← zoom (packUserOpSignature w semiValid_signature
             ("0x" ++ toString16 semiValid_validationData) semiValidGuardHookInputData);
           match signatureRet with
           | Err e => mret (Err (mkUserOpErrors UnknownError (message e)))
           | Ok sg =>
             update_userOp (with_signature sg);;
             estimate_and_update w cfg
           end
         else estimate_and_update w cfg)
        (if semiValidSignature then update_userOp (with_signature "0x") else mret tt)
    end
  end.

Definition sendUserOperation (w : Env) (userOp : UserOperation) :
    M State (Result bool UserOpErrors) :=
  _onChainConfig ← getOnChainConfig w;
  match _onChainConfig with
  | Err e => mret (Err (mkUserOpErrors UnknownError (message e)))
  | Ok cfg =>
    sendUserOpRet ← await
      (eth_sendUserOperation_request (entryPoint cfg) userOp)
      (eth_sendUserOperation w (entryPoint cfg) userOp);
    match sendUserOpRet with
    | Err e => mret (Err e)
    | Ok h =>
      userOPHashLocal ← userOpHash w userOp;
      match userOPHashLocal with
      | Err e => mret (Err (mkUserOpErrors UnknownError (message e)))
      | Ok hLocal =>
        if negb (String.eqb (toLowerCase h) (toLowerCase hLocal)) then
          throw (ThrownError (mkError "userOpHash !== userOPHashLocal"))
        else mret (Ok true)
      end
    end
  end.

Definition getNonce (w : Env) (walletAddr : string) (key : option string) :
    M State (Result string Error) :=
  let continue (_key : string) : M State (Result string Error) :=
    _entrypointRet ← getEntryPointContract w;
    match _entrypointRet with
    | Err e => mret (Err e)
    | Ok ep =>
      try_catch
        (_nonce ← await (staticCall_request ep "getNonce" [walletAddr; _key])
                        (entryPoint_getNonce w ep walletAddr _key);
         mret (Ok ("0x" ++ toString16 _nonce)))
        (fun error =>
           match error with
           | ThrownError e => mret (Err e)
           | _ => mret (Err (mkError "unknown error"))
           end)
    end in
  match key with
  | Some k =>
    match TypeGuard_maxToUint192 k with
    | Err e => mret (Err (mkError e))
    | Ok n => continue ("0x" ++ toString16 n)
    end
  | None => continue "0x0"
  end.

Definition walletDeployed_key (walletAddress : string) (_chainId : Z) : string :=
  walletAddress ++ "-" ++ Number_toString _chainId.

Definition walletDeployed (w : Env) (walletAddress : string) : M State (Result bool Error) :=
  _onChainConfig ← getOnChainConfig w;
  match _onChainConfig with
  | Err e => mret (Err e)
  | Ok cfg =>
    let key := walletDeployed_key walletAddress (chainId cfg) in
    cached ← StorageCache_get key;
    if truthy cached then mret (Ok true)
    else
      try_catch
        (code ← await (provider_getCode_request walletAddress)
                      (provider_getCode w walletAddress);
         let deployed := negb (String.eqb code "0x") in
         (if deployed then StorageCache_set key (CachedBool true) else mret tt);;
         mret (Ok deployed))
        (fun error =>
           match error with
           | ThrownError e => mret (Err e)
           | _ => mret (Err (mkError "unknown error"))
           end)
  end.

(** The first loop of [fromTransaction], entered with the running total. *)
Fixpoint sum_gasLimit (txs : list Transaction) (callGasLimit_ : Z) : M State Z :=
  match txs with
  | [] => mret callGasLimit_
  | tx :: rest =>
    match gasLimit tx with
    | None => mret 0%Z
    | Some g => n ← BigInt_ g; sum_gasLimit rest (callGasLimit_ + n)
    end
  end.

(** The arrays [to], [value], [data] and the flag [hasValue] of the second
    loop of [fromTransaction]. *)
Record Batch : Type := {
  batch_to : list string;
  batch_value : list string;
  batch_data : list string;
  hasValue : bool;
}.

Fixpoint collect_batch (txs : list Transaction) (b : Batch) : M State (Result Batch Error) :=
  match txs with
  | [] => mret (Ok b)
  | tx :: rest =>
    let _to := to tx in
    if isErr (TypeGuard_onlyAddress _to) then
      mret (Err (mkError ("invalid to: " ++ join (batch_to b))))
    else
      _value ← match value tx with
               | None => mret "0x0"
               | Some v => n ← BigInt_ v; mret ("0x" ++ toString16 n)
               end;
      let hasValue_ := if negb (String.eqb _value "0x0") then true else hasValue b in
      let _data := match data tx with None => "0x" | Some d => d end in
      if isErr (TypeGuard_onlyBytes _data) then
        mret (Err (mkError ("invalid data: " ++ _data)))
      else
        collect_batch rest
          {| batch_to := batch_to b ++ [_to];
             batch_value := batch_value b ++ [_value];
             batch_data := batch_data b ++ [_data];
             hasValue := hasValue_ |}
  end.

(** The call that [fromTransaction] encodes. Index 0 of the arrays exists
    because the method has returned already when [txs] is empty; reading it
    from an empty array would give [undefined], which the encoder rejects. *)
Definition select_call (n : nat) (b : Batch) : M State FunctionCall :=
  if (1 <? n)%nat then
    if hasValue b
    then mret (executeBatch_values (batch_to b) (batch_value b) (batch_data b))
    else mret (executeBatch (batch_to b) (batch_data b))
  else
    match batch_to b, batch_value b, batch_data b with
    | t :: _, v :: _, d :: _ => mret (execute t v d)
    | _, _, _ => throw (ThrownError (mkError "invalid argument"))
    end.

Definition fromTransaction (w : Env) (maxFeePerGas_ maxPriorityFeePerGas_ : string)
    (from : string) (txs : list Transaction) (nonceKey : option string) :
    M State (Result UserOperation Error) :=
  if (length txs =? 0)%nat then mret (Err (mkError "txs.length === 0"))
  else if isErr (TypeGuard_onlyAddress from) then
    mret (Err (mkError ("invalid from: " ++ from)))
  else
    _walletDeployed ← walletDeployed w from;
    match _walletDeployed with
    | Err e => mret (Err e)
    | Ok _ =>
      callGasLimit_ ← sum_gasLimit txs 0;
      let callGasLimit_ :=
        if (Z.rem callGasLimit_ 2 =? 1)%Z
        then (* odd number -> even number *) callGasLimit_ + 1
        else callGasLimit_ in
      nonceRet ← getNonce w from nonceKey;
      match nonceRet with
      | Err e => mret (Err e)
      | Ok nonce_ =>
        b ← collect_batch txs
              {| batch_to := []; batch_value := []; batch_data := []; hasValue := false |};
        match b with
        | Err e => mret (Err e)
        | Ok b =>
          call ← select_call (length txs) b;
          callData_ ← settle (encodeFunctionData call);
          fee ← BigInt_ (Str maxFeePerGas_);
          priorityFee ← BigInt_ (Str maxPriorityFeePerGas_);
          mret (Ok {| sender := from;
                      nonce := Str nonce_;
                      initCode := "0x";
                      callData := callData_;
                      callGasLimit := Str ("0x" ++ toString16 callGasLimit_);
                      verificationGasLimit := Num 0;
                      preVerificationGas := Num 0;
                      maxFeePerGas := Str ("0x" ++ toString16 fee);
                      maxPriorityFeePerGas := Str ("0x" ++ toString16 priorityFee);
                      paymasterAndData := "0x";
                      signature := "0x" |})
        end
      end
    end.

End SoulWallet.

(** ** [SoulWallet]: construction and the deployment operation *)

(** The helpers that only the constructor and the deployment path use:
    [TypeGuard.httpOrHttps] (tools/typeGuard), [Hex.paddingZero] (tools/hex),
    [Signature.packUserOpHash] (tools/signature) and three encodings of
    ethers: [AbiCoder.encode] at the types [bytes32, bytes32, uint64], and
    [encodeFunctionData] for [initialize] and [createWallet]. Each of the
    encoders may throw. *)
Class DeployCollaborators : Type := {
  TypeGuard_httpOrHttps : string -> Result string string;
  Hex_paddingZero : BigNumberish -> Z -> Settled string;
  AbiCoder_encode_keyStore : string -> string -> Z -> Settled string;
  encode_initialize : string -> string -> list string -> list string -> Settled string;
  encode_createWallet : string -> string -> Settled string;
  Signature_packUserOpHash : string -> option Z -> option Z -> Settled (string * string);
}.

(** The node with the one contract read of the deployment path,
    [getWalletAddress(bytes,bytes32)] of the wallet factory. *)
Record DeployEnv : Type := {
  node :> Env;
  factory_getWalletAddress : string -> string -> string -> Settled string;
}.

(** A constructor argument of type [string | ethers.JsonRpcProvider]. *)
Inductive ProviderArg : Type :=
| ProviderUrl (url : string)
| ProviderObject.

(** [s.substring(start)] *)
Fixpoint substring (start : nat) (s : string) : string :=
  match start, s with
  | O, _ => s
  | S n, String _ rest => substring n rest
  | S _, EmptyString => EmptyString
  end.

Definition days : Z := 86400.
Definition defalutInitialGuardianSafePeriod : Z := 2 * days.
Definition preVerificationGasDeploy : Z := 10000000.

Section Deploy.
Context `{Collaborators} `{DeployCollaborators}.

(** The constructor: the instance, or the [Error] it throws. The provider
    and the bundler that it stores answer through the [Env] of each later
    call; of the two arguments only the validation of a URL is kept. *)
Definition new_SoulWallet (_provider _bundler : ProviderArg)
    (_soulWalletFactoryAddress _defalutCallbackHandlerAddress
     _keyStoreModuleAddress _securityControlModuleAddress : string) :
    Completion SoulWallet :=
  let bad_url (p : ProviderArg) : bool :=
    match p with
    | ProviderUrl url => isErr (TypeGuard_httpOrHttps url)
    | ProviderObject => false
    end in
  if bad_url _provider then Abrupt (ThrownError (mkError "invalid provider"))
  else if bad_url _bundler then Abrupt (ThrownError (mkError "invalid bundler"))
  else if isErr (TypeGuard_onlyAddress _soulWalletFactoryAddress) then
    Abrupt (ThrownError (mkError "invalid soulWalletFactoryAddress"))
  else if isErr (TypeGuard_onlyAddress _defalutCallbackHandlerAddress) then
    Abrupt (ThrownError (mkError "invalid defalutCallbackHandlerAddress"))
  else if isErr (TypeGuard_onlyAddress _keyStoreModuleAddress) then
    Abrupt (ThrownError (mkError "invalid keyStoreModuleAddress"))
  else if isErr (TypeGuard_onlyAddress _securityControlModuleAddress) then
    Abrupt (ThrownError (mkError "invalid securityControlModuleAddress"))
  else
    Normal {| soulWalletFactoryAddress := _soulWalletFactoryAddress;
              defalutCallbackHandlerAddress := _defalutCallbackHandlerAddress;
              keyStoreModuleAddress := _keyStoreModuleAddress;
              securityControlModuleAddress := _securityControlModuleAddress |}.

Context (this : SoulWallet).

(** The method [entryPoint()]; the field of [onChainConfig] has the name. *)
Definition SoulWallet_entryPoint (w : Env) : M State (Result string Error) :=
  _onChainConfig ← getOnChainConfig this w;
  match _onChainConfig with
  | Err e => mret (Err e)
  | Ok cfg => mret (Ok (entryPoint cfg))
  end.

Definition initializeData (w : Env) (initialKey initialGuardianHash : string)
    (initialGuardianSafePeriod : option Z) : M State (Result string Error) :=
  let initialGuardianSafePeriod :=
    default defalutInitialGuardianSafePeriod initialGuardianSafePeriod in
  (* default dely time is 2 days *)
  padded ← settle (Hex_paddingZero (Num defalutInitialGuardianSafePeriod) 32);
  let securityControlModuleAndData :=
    toLowerCase (securityControlModuleAddress this ++ substring 2 padded) in
  _initialKey ← settle (Hex_paddingZero (Str initialKey) 32);
  keyStoreInitData ← settle
    (AbiCoder_encode_keyStore _initialKey initialGuardianHash initialGuardianSafePeriod);
  let keyStoreModuleAndData :=
    toLowerCase (keyStoreModuleAddress this ++ substring 2 keyStoreInitData) in
  _onChainConfig ← getOnChainConfig this w;
  match _onChainConfig with
  | Err e => mret (Err e)
  | Ok _ =>
    initializeData_ ← settle
      (encode_initialize initialKey (defalutCallbackHandlerAddress this)
         [securityControlModuleAndData; keyStoreModuleAndData] []);
    mret (Ok initializeData_)
  end.

Definition calcWalletAddress (w : DeployEnv) (index : Z)
    (initialKey initialGuardianHash : string) (initialGuardianSafePeriod : option Z) :
    M State (Result string Error) :=
  _initializeDataRet ← initializeData w initialKey initialGuardianHash
                          initialGuardianSafePeriod;
  match _initializeDataRet with
  | Err e => mret (Err e)
  | Ok initializer =>
    (* number to bytes32 string *)
    _salt ← settle (Hex_paddingZero (Num index) 32);
    _walletAddress ← await
      (staticCall_request (soulWalletFactoryAddress this) "getWalletAddress"
         [initializer; _salt])
      (factory_getWalletAddress w (soulWalletFactoryAddress this) initializer _salt);
    mret (Ok _walletAddress)
  end.

Definition createUnsignedDeployWalletUserOp (w : DeployEnv) (index : Z)
    (initialKey initialGuardianHash : string) (callData_ : option string)
    (initialGuardianSafePeriod : option Z) : M State (Result UserOperation Error) :=
  let callData_ := default "0x" callData_ in
  match TypeGuard_onlyBytes callData_ with
  | Err e => mret (Err (mkError e))
  | Ok _ =>
    _initializeData ← initializeData w initialKey initialGuardianHash
                        initialGuardianSafePeriod;
    match _initializeData with
    | Err e => mret (Err e)
    | Ok initializer =>
      _salt ← settle (Hex_paddingZero (Num index) 32);
      createWallet ← settle (encode_createWallet initializer _salt);
      let initCode_ :=
        toLowerCase (soulWalletFactoryAddress this ++ substring 2 createWallet) in
      senderRet ← calcWalletAddress w index initialKey initialGuardianHash
                    initialGuardianSafePeriod;
      match senderRet with
      | Err e => mret (Err e)
      | Ok sender_ =>
        mret (Ok {| sender := sender_;
                    nonce := Num 0;
                    initCode := initCode_;
                    callData := callData_;
                    callGasLimit := Num 0;
                    verificationGasLimit := Num 0;
                    preVerificationGas := Num preVerificationGasDeploy;
                    maxFeePerGas := Num 0;
                    maxPriorityFeePerGas := Num 0;
                    paymasterAndData := "0x";
                    signature := "0x" |})
      end
    end
  end.

Definition packUserOpHash (w : Env) (userOp : UserOperation)
    (validAfter validUntil : option Z) : M State (Result (string * string) Error) :=
  userOPHashRet ← userOpHash this w userOp;
  match userOPHashRet with
  | Err e => mret (Err e)
  | Ok h =>
    packed ← settle (Signature_packUserOpHash h validAfter validUntil);
    mret (Ok packed)
  end.

End Deploy.

(** ** [SoulWallet]: the exception-throwing generation

    The older [soulWallet.ts] of the package. Its methods return plain
    values and throw; its bundler facade answers [{succ, result, errors}],
    read here as a [Result]. It has no per-instance fields: the only state
    is [StorageCache]. *)

Module Legacy.
Section SoulWallet.
Context `{Collaborators} (this : SoulWallet).

(** [JSON.stringify] of a thrown value that carries no message. *)
Variable JSON_stringify : Thrown -> string.

Definition getOnChainConfig (w : Env) : M State onChainConfig :=
  let key := "onChainConfig_" ++ soulWalletFactoryAddress this in
  (* read from cache *)
  cached ← gets (fun s => StorageCache s !! key);
  match as_config cached with
  | Some c => mret c
  | None =>
    soulWalletLogic_ ← await
      (staticCall_request (soulWalletFactoryAddress this) "walletImpl" [])
      (walletImpl w (soulWalletFactoryAddress this));
    entryPoint_ ← await
      (staticCall_request soulWalletLogic_ "entryPoint" [])
      (wallet_entryPoint w soulWalletLogic_);
    _chainId ← await provider_getNetwork_request (provider_getNetwork w);
    if Number_isSafeInteger _chainId then
      if (_chainId =? 0)%Z then throw (ThrownError (mkError "Invalid chainId"))
      else
        _bundlerChainId ← await bundler_getNetwork_request (bundler_getNetwork w);
        if Number_isSafeInteger _bundlerChainId then
          if (_bundlerChainId =? 0)%Z then throw (ThrownError (mkError "Invalid chainId"))
          else if negb (_chainId =? _bundlerChainId)%Z then
            throw (ThrownError (mkError "chainId mismatch"))
          else
            let c := {| chainId := _chainId; entryPoint := entryPoint_;
                        soulWalletLogic := soulWalletLogic_ |} in
            (* save to cache *)
            modify (set_StorageCache (insert key (CachedConfig c)));;
            (* check bundler RPC *)
            ret ← await eth_supportedEntryPoints_request (eth_supportedEntryPoints w);
            match ret with
            | Err _ => throw (ThrownError (mkError "Bundler RPC error"))
            | Ok l =>
              if indexOf_is_minus1 (toLowerCase (join l)) (toLowerCase entryPoint_)
              then throw (ThrownError (mkError
                ("Bundler network doesn't support entryPoint " ++ entryPoint_)))
              else mret c
            end
        else throw (ThrownError (mkError "chainId is not a safe integer"))
    else throw (ThrownError (mkError "chainId is not a safe integer"))
  end.

Definition preFund (w : Env) (userOp : UserOperation) : M State PreFund :=
  let ZERO := 0%Z in
  maxFeePerGas_ ← BigInt_ (maxFeePerGas userOp);
  preVerificationGas_ ← BigInt_ (preVerificationGas userOp);
  verificationGasLimit_ ← BigInt_ (verificationGasLimit userOp);
  callGasLimit_ ← BigInt_ (callGasLimit userOp);
  if (maxFeePerGas_ =? ZERO)%Z || (preVerificationGas_ =? ZERO)%Z
     || (verificationGasLimit_ =? ZERO)%Z then
    throw (ThrownError (mkError
      "maxFeePerGas, preVerificationGas, verificationGasLimit must > 0"))
  else
    let mul := if negb (String.eqb (paymasterAndData userOp) "0x") then 3 else 1 in
    let requiredGas := callGasLimit_ + verificationGasLimit_ * mul + preVerificationGas_ in
    let requiredPrefund := requiredGas * maxFeePerGas_ in
    _onChainConfig ← getOnChainConfig w;
    _deposit ← await
      (staticCall_request (entryPoint _onChainConfig) "balanceOf" [sender userOp])
      (entryPoint_balanceOf w (entryPoint _onChainConfig) (sender userOp));
    let _missfund :=
      if (_deposit <? requiredPrefund)%Z then requiredPrefund - _deposit else ZERO in
    mret {| deposit := "0x" ++ toString16 _deposit;
            prefund := "0x" ++ toString16 requiredPrefund;
            missfund := "0x" ++ toString16 _missfund |}.

Definition userOpHash (w : Env) (userOp : UserOperation) : M State string :=
  _onChainConfig ← getOnChainConfig w;
  settle (getUserOpHash userOp (entryPoint _onChainConfig) (chainId _onChainConfig)).

(** The [catch] clause shared by [estimateUserOperationGas] and
    [sendUserOperation]: the message of the thrown value when it has a
    non-empty one, its JSON text otherwise. *)
Definition caught (error : Thrown) : UserOpErrors :=
  let errmsg :=
    match error with
    | ThrownError e =>
        if String.eqb (message e) "" then JSON_stringify error else message e
    | ThrownErr _ => JSON_stringify error
    end in
  mkUserOpErrors UnknownError errmsg.

(** [undefined] is [None]. *)
Definition estimateUserOperationGas (w : Env) :
    M (State * UserOperation) (option UserOpErrors) :=
  userOp ← read_userOp;
  let semiValidSignature := String.eqb (signature userOp) "0x" in
  try_finally
    (try_catch
       (_onChainConfig ← zoom (getOnChainConfig w);
        (if semiValidSignature then
           if negb (String.eqb (initCode userOp) "0x") then
             (* deploy: no need guardHook input data *)
             sg ← settle Signature_semiValidSignature;
             update_userOp (with_signature sg)
           else throw (ThrownError (mkError "not implement now!"))
         else mret tt);;
        userOp ← read_userOp;
        userOpGasRet ← zoom (await
          (eth_estimateUserOperationGas_request (entryPoint _onChainConfig) userOp)
          (eth_estimateUserOperationGas w (entryPoint _onChainConfig) userOp));
        match userOpGasRet with
        | Err e => mret (Some e)
        | Ok g =>
          update_userOp (with_preVerificationGas (gas_preVerificationGas g));;
          update_userOp (with_verificationGasLimit (gas_verificationGasLimit g));;
          update_userOp (with_callGasLimit (gas_callGasLimit g));;
          userOp ← read_userOp;
          userOp' ← settle (GasOverhead_calcGasOverhead userOp);
          update_userOp (fun _ => userOp');;
          mret None
        end)
       (fun error => mret (Some (caught error))))
    (if semiValidSignature then update_userOp (with_signature "0x") else mret tt).

Definition sendUserOperation (w : Env) (userOp : UserOperation) :
    M State (option UserOpErrors) :=
  try_catch
    (_onChainConfig ← getOnChainConfig w;
     sendUserOpRet ← await
       (eth_sendUserOperation_request (entryPoint _onChainConfig) userOp)
       (eth_sendUserOperation w (entryPoint _onChainConfig) userOp);
     match sendUserOpRet with
     | Err e => mret (Some e)
     | Ok h =>
       userOPHashLocal ← userOpHash w userOp;
       if negb (String.eqb (toLowerCase h) (toLowerCase userOPHashLocal)) then
         throw (ThrownError (mkError "userOpHash !== userOPHashLocal"))
       else mret None
     end)
    (fun error => mret (Some (caught error))).

End SoulWallet.
End Legacy.

(** ** [DeployFactory] (utils/deployFactory.js) *)

Module DeployFactory.

(** What the file takes from ethers (v5) and from the contract tables of
    the package: the constant [bytes32_zero], the [data] of
    [ContractFactory.getDeployTransaction] for the wallet factory,
    [keccak256], [getCreate2Address], the encoding of the singleton
    factory's [deploy(bytes,bytes32)] and [BigNumber.from(n).toHexString()].
    Those that validate their arguments may throw. *)
Class Ethers : Type := {
  bytes32_zero : string;
  getDeployTransaction_data : string -> string -> Settled string;
  keccak256 : string -> Settled string;
  getCreate2Address : string -> string -> string -> Settled string;
  encodeFunctionData_deploy : string -> string -> Settled string;
  BigNumber_toHexString : Z -> string;
}.

(** The transaction that [deploy] hands to the signer. *)
Record DeployTx : Type := {
  deploy_to : string;
  deploy_data : string;
  deploy_gasLimit : string;
}.

(** A request that leaves the process. *)
Inductive Request : Type :=
| getCode_request (address : string)
| sendTransaction_request (tx : DeployTx)
| wait_request.

(** The provider and the signer: each answer may depend on the requests
    made so far. A transaction response carries the outcome of its
    [wait()]. *)
Record Chain : Type := {
  etherProvider_getCode : list Request -> string -> Settled string;
  signer_sendTransaction : list Request -> DeployTx -> Settled (Settled unit);
}.

(** [await] of the request [e], answered from the history. *)
Definition request {A} (e : Request) (answer : list Request -> Settled A) :
    M (list Request) A :=
  fun t =>
    match answer t with
    | Resolved a => (Normal a, (t ++ [e])%list)
    | Rejected x => (Abrupt x, (t ++ [e])%list)
    end.

(** The return value of [getFactory]. *)
Record Factory : Type := {
  factoryAddress : string;
  initCodeWithArgs : string;
}.

Definition hex_digit (c : ascii) : bool :=
  let n := N_of_ascii c in
  (((48 <=? n) && (n <=? 57)) || ((97 <=? n) && (n <=? 102))
   || ((65 <=? n) && (n <=? 70)))%N.

Fixpoint hex_digits (n : nat) (s : string) : bool :=
  match n, s with
  | O, EmptyString => true
  | S m, String c r => hex_digit c && hex_digits m r
  | _, _ => false
  end.

(** [/^0x[0-9a-fA-F]{64}$/.test(salt)] *)
Definition is_bytes32 (salt : string) : bool :=
  match salt with
  | String "0" (String "x" r) => hex_digits 64 r
  | _ => false
  end.

Section DeployFactory.
Context `{Ethers} (_singletonFactory : string).

(** [salt || bytes32_zero]: an absent or empty salt is replaced. *)
Definition salt_or_zero (salt : option string) : string :=
  match salt with
  | Some s => if String.eqb s "" then bytes32_zero else s
  | None => bytes32_zero
  end.

Definition getFactory {S} (logicContractAddress : string) (salt : option string)
    (ver : option Z) : M S Factory :=
  let salt := salt_or_zero salt in
  let ver := default 1%Z ver in
  if negb (ver =? 1)%Z then throw (ThrownError (mkError "version not support"))
  else
    (* check salt is bytes32 *)
    if negb (is_bytes32 salt) then throw (ThrownError (mkError "salt is not bytes32"))
    else
      walletFactoryInitCodeWithArgs ← settle
        (getDeployTransaction_data logicContractAddress _singletonFactory);
      walletFactoryInitCodeHash ← settle (keccak256 walletFactoryInitCodeWithArgs);
      walletFactoryAddress ← settle
        (getCreate2Address _singletonFactory salt walletFactoryInitCodeHash);
      mret {| factoryAddress := walletFactoryAddress;
              initCodeWithArgs := walletFactoryInitCodeWithArgs |}.

Definition getAddress {S} (logicContractAddress : string) (salt : option string)
    (ver : option Z) : M S string :=
  f ← getFactory logicContractAddress salt ver;
  mret (factoryAddress f).

Definition deploy (c : Chain) (logicContractAddress : string) (salt : option string)
    (ver : option Z) : M (list Request) string :=
  f ← getFactory logicContractAddress salt ver;
  let salt := salt_or_zero salt in
  code ← request (getCode_request (factoryAddress f))
                 (fun t => etherProvider_getCode c t (factoryAddress f));
  if negb (String.eqb code "0x") then mret (factoryAddress f)
  else
    calldata ← settle (encodeFunctionData_deploy (initCodeWithArgs f) salt);
    let gasLimit := BigNumber_toHexString 2000000 in
    (* send tx *)
    let tx := {| deploy_to := _singletonFactory; deploy_data := calldata;
                 deploy_gasLimit := gasLimit |} in
    signedTx ← request (sendTransaction_request tx)
                       (fun t => signer_sendTransaction c t tx);
    request wait_request (fun _ => signedTx);;
    code ← request (getCode_request (factoryAddress f))
                   (fun t => etherProvider_getCode c t (factoryAddress f));
    if String.eqb code "0x" then throw (ThrownError (mkError "deploy factory failed"))
    else mret (factoryAddress f).

End DeployFactory.

(** The transactions among a list of requests. *)
Fixpoint sent (l : list Request) : list DeployTx :=
  match l with
  | [] => []
  | sendTransaction_request tx :: r => tx :: sent r
  | _ :: r => sent r
  end.

End DeployFactory.

(** ** Vocabulary of the specification *)

(** Rounding up to an even number, as both gas computations do it. *)
Definition even_up (z : Z) : Z := if Z.odd z then z + 1 else z.

(** No character of [s] is white space. *)
Fixpoint no_space (s : string) : bool :=
  match s with
  | EmptyString => true
  | String c r => negb (isWhiteSpace c) && no_space r
  end.

(** [c] occurs in [s]. *)
Fixpoint occurs (c : ascii) (s : string) : bool :=
  match s with
  | EmptyString => false
  | String a r => if Ascii.eqb a c then true else occurs c r
  end.

(** The configuration that a resolution builds. *)
Definition resolved_config (n : Z) (logic ep : string) : onChainConfig :=
  {| chainId := n; entryPoint := ep; soulWalletLogic := logic |}.

(** What the bundler's list of entry points says about [ep]. *)
Definition supports (l : list string) (ep : string) : bool :=
  negb (indexOf_is_minus1 (toLowerCase (join l)) (toLowerCase ep)).

Definition bundler_check_fails (w : Env) (ep : string) : Prop :=
  (exists e, eth_supportedEntryPoints w = Resolved (Err e)) \/
  (exists l, eth_supportedEntryPoints w = Resolved (Ok l) /\ supports l ep = false).

(** [extends s s']: the state [s'] keeps the configuration and the entry
    point contract that the instance holds in [s], keeps every truthy entry
    of [StorageCache] truthy, and only adds requests to the trace. *)
Definition extends (s s' : State) : Prop :=
  (forall c, _onChainConfig s = Some c -> _onChainConfig s' = Some c) /\
  (forall a, _entryPointContract s = Some a -> _entryPointContract s' = Some a) /\
  (forall k, truthy (StorageCache s !! k) = true ->
             truthy (StorageCache s' !! k) = true) /\
  (exists t, trace s' = (trace s ++ t)%list).

(** The invariant of [OnChainConfig]: the chain id is a non-zero integer
    that a JavaScript number represents exactly. *)
Definition valid_config (c : onChainConfig) : Prop :=
  Number_isSafeInteger (chainId c) = true /\ chainId c <> 0%Z.

(** A state as the SDK builds it: every configuration it holds, on the
    instance or in [StorageCache], is valid, and the entry point contract of
    the instance is bound to the entry point of its configuration. *)
Definition well_formed (s : State) : Prop :=
  (forall c, _onChainConfig s = Some c -> valid_config c) /\
  (forall k c, StorageCache s !! k = Some (CachedConfig c) -> valid_config c) /\
  (forall a, _entryPointContract s = Some a ->
     exists c, _onChainConfig s = Some c /\ a = entryPoint c).

Definition keeps_well_formed (s s' : State) : Prop :=
  well_formed s -> well_formed s'.

(** A computation [m] over a state with a [view] on the SDK state moves the
    SDK state along the relation [R]. *)
Definition respects {S A} (R : State -> State -> Prop) (view : S -> State)
    (m : M S A) : Prop :=
  forall s, R (view s) (view (snd (m s))).

(** Eight of the thirteen public methods of the instance, as a caller
    invokes them: the methods that resolve the configuration and handle
    user operations. The five methods of the deployment path are added by
    [PublicCall] below. The operation object that [estimateUserOperationGas]
    updates belongs to the caller. *)
Inductive ApiCall : Type :=
| call_getOnChainConfig
| call_preFund (userOp : UserOperation)
| call_userOpHash (userOp : UserOperation)
| call_packUserOpSignature (sg validationData : string)
    (guardHookInputData : option GuardHookInputData)
| call_estimateUserOperationGas (userOp : UserOperation)
    (semiValidGuardHookInputData : option GuardHookInputData)
| call_sendUserOperation (userOp : UserOperation)
| call_getNonce (walletAddr : string) (key : option string)
| call_fromTransaction (maxFeePerGas_ maxPriorityFeePerGas_ from : string)
    (txs : list Transaction) (nonceKey : option string).

Section Calls.
Context `{Collaborators} (this : SoulWallet).

(** The SDK state after one call, whatever the call returned. *)
Definition run_call (c : ApiCall) (w : Env) (s : State) : State :=
  match c with
  | call_getOnChainConfig => snd (getOnChainConfig this w s)
  | call_preFund u => snd (preFund this w u s)
  | call_userOpHash u => snd (userOpHash this w u s)
  | call_packUserOpSignature sg v g => snd (packUserOpSignature w sg v g s)
  | call_estimateUserOperationGas u g =>
      fst (snd (estimateUserOperationGas this w g (s, u)))
  | call_sendUserOperation u => snd (sendUserOperation this w u s)
  | call_getNonce a k => snd (getNonce this w a k s)
  | call_fromTransaction mf mpf from txs k =>
      snd (fromTransaction this w mf mpf from txs k s)
  end.

Fixpoint run_calls (calls : list (ApiCall * Env)) (s : State) : State :=
  match calls with
  | [] => s
  | (c, w) :: rest => run_calls rest (run_call c w s)
  end.

(** A relation on SDK states that every state change of the SDK follows:
    logging a request, running [getOnChainConfig], binding the entry point
    contract to the entry point of the configuration, recording a deployed
    wallet. *)
Class Stable (R : State -> State -> Prop) : Prop := {
  stable_preorder :: PreOrder R;
  stable_log e s : R s (log e s);
  stable_getOnChainConfig w s : R s (snd (getOnChainConfig this w s));
  stable_entryPointContract s cfg :
    _onChainConfig s = Some cfg -> _entryPointContract s = None ->
    R s (set_entryPointContract (entryPoint cfg) s);
  stable_deployed k s :
    R s (set_StorageCache (insert k (CachedBool true)) s);
}.

End Calls.

(** Every public method of the instance: the eight of [ApiCall] and the five
    of the deployment path, [entryPoint], [initializeData],
    [calcWalletAddress], [createUnsignedDeployWalletUserOp] and
    [packUserOpHash]. *)
Inductive PublicCall : Type :=
| call_api (c : ApiCall)
| call_entryPoint
| call_initializeData (initialKey initialGuardianHash : string)
    (initialGuardianSafePeriod : option Z)
| call_calcWalletAddress (index : Z) (initialKey initialGuardianHash : string)
    (initialGuardianSafePeriod : option Z)
| call_createUnsignedDeployWalletUserOp (index : Z)
    (initialKey initialGuardianHash : string) (callData_ : option string)
    (initialGuardianSafePeriod : option Z)
| call_packUserOpHash (userOp : UserOperation) (validAfter validUntil : option Z).

Section PublicCalls.
Context `{Collaborators} `{DeployCollaborators} (this : SoulWallet).

(** The SDK state after one call, whatever the call returned; the world
    also answers the factory's [getWalletAddress]. *)
Definition run_public_call (c : PublicCall) (w : DeployEnv) (s : State) : State :=
  match c with
  | call_api c => run_call this c w s
  | call_entryPoint => snd (SoulWallet_entryPoint this w s)
  | call_initializeData k g p => snd (initializeData this w k g p s)
  | call_calcWalletAddress i k g p => snd (calcWalletAddress this w i k g p s)
  | call_createUnsignedDeployWalletUserOp i k g cd p =>
      snd (createUnsignedDeployWalletUserOp this w i k g cd p s)
  | call_packUserOpHash u va vu => snd (packUserOpHash this w u va vu s)
  end.

Fixpoint run_public_calls (calls : list (PublicCall * DeployEnv)) (s : State) : State :=
  match calls with
  | [] => s
  | (c, w) :: rest => run_public_calls rest (run_public_call c w s)
  end.

End PublicCalls.

(** The message of the validation error of [preFund]. *)
Definition validation_message : string :=
  "maxFeePerGas, preVerificationGas, verificationGasLimit must > 0".

(** The operation after the answer [g] of the bundler has been written into
    [sent], the operation that was submitted for estimation; [cgl] is the
    value of [callGasLimit] before the call and [new] the value of the
    bundler's [callGasLimit]. *)
Definition with_estimate (g : UserOpGas) (cgl new : Z) (sent : UserOperation) :
    UserOperation :=
  let u := with_verificationGasLimit (gas_verificationGasLimit g)
             (with_preVerificationGas (gas_preVerificationGas g) sent) in
  if Z.even cgl
  then with_callGasLimit
         (Str ("0x" ++ toString16 (if (Z.rem new 2 =? 1)%Z then new + 1 else new))) u
  else u.

(** The value of a transaction as [fromTransaction] reads it: an absent
    value counts as zero; [None] when the conversion throws. *)
Definition tx_value (tx : Transaction) : option Z :=
  match value tx with
  | None => Some 0%Z
  | Some v => BigInt v
  end.

Definition tx_data (tx : Transaction) : string := default "0x" (data tx).

(** The gas limit a transaction supplies, as a bigint. *)
Definition tx_gasLimit (tx : Transaction) (n : Z) : Prop :=
  exists g, gasLimit tx = Some g /\ BigInt g = Some n.

Definition hex (n : Z) : string := "0x" ++ toString16 n.

Definition Zsum (l : list Z) : Z := foldr Z.add 0%Z l.

Definition empty_batch : Batch :=
  {| batch_to := []; batch_value := []; batch_data := []; hasValue := false |}.

(** The key that [getNonce] passes to the entry point: ['0x0'] when the
    caller gives none, the caller's key in hexadecimal otherwise. *)
Definition nonce_key `{Collaborators} (key : option string) : string :=
  match key with
  | Some k =>
    match TypeGuard_maxToUint192 k with
    | Ok n => hex n
    | Err _ => "0x0"
    end
  | None => "0x0"
  end.

(** The world [w] with the code [code] at every address. *)
Definition with_code (code : string) (w : Env) : Env := {|
  provider_getNetwork := provider_getNetwork w;
  provider_getCode := fun _ => Resolved code;
  walletImpl := walletImpl w;
  wallet_entryPoint := wallet_entryPoint w;
  entryPoint_balanceOf := entryPoint_balanceOf w;
  entryPoint_getNonce := entryPoint_getNonce w;
  wallet_listPlugin := wallet_listPlugin w;
  bundler_getNetwork := bundler_getNetwork w;
  eth_supportedEntryPoints := eth_supportedEntryPoints w;
  eth_estimateUserOperationGas := eth_estimateUserOperationGas w;
  eth_sendUserOperation := eth_sendUserOperation w;
|}.

(** ** A concrete world

    One instance, its collaborators and a world in which every request
    succeeds; the examples below vary it. *)

Fixpoint all_hex (s : string) : bool :=
  match s with
  | EmptyString => true
  | String c r =>
      let n := N_of_ascii (lower_ascii c) in
      (((48 <=? n) && (n <=? 57)) || ((97 <=? n) && (n <=? 102)))%N && all_hex r
  end.

Definition demo_onlyBytes (s : string) : Result string string :=
  match s with
  | String "0" (String "x" r) =>
      if all_hex r && Nat.even (String.length r) then Ok s else Err "not bytes"
  | _ => Err "not bytes"
  end.

Definition demo_onlyAddress (s : string) : Result string string :=
  match s with
  | String "0" (String "x" r) =>
      if all_hex r && (String.length r =? 40)%nat then Ok s else Err "not an address"
  | _ => Err "not an address"
  end.

Definition demo_calcGasOverhead (u : UserOperation) : Settled UserOperation :=
  match BigInt (preVerificationGas u) with
  | Some n => Resolved (with_preVerificationGas (Str (hex (n + 5000))) u)
  | None => Rejected (ThrownError (BigInt_error (preVerificationGas u)))
  end.

Definition demo_encodeFunctionData (c : FunctionCall) : Settled string :=
  Resolved
    match c with
    | execute d v f => "execute(" ++ d ++ "," ++ v ++ "," ++ f ++ ")"
    | executeBatch d f => "executeBatch([" ++ join d ++ "],[" ++ join f ++ "])"
    | executeBatch_values d v f =>
        "executeBatch([" ++ join d ++ "],[" ++ join v ++ "],[" ++ join f ++ "])"
    end.

Definition demo_tools : Collaborators := {|
  TypeGuard_onlyAddress := demo_onlyAddress;
  TypeGuard_onlyBytes := demo_onlyBytes;
  TypeGuard_maxToUint192 := fun k =>
    match StringToBigInt k with
    | Some n => if (0 <=? n)%Z && (n <? 2 ^ 192)%Z then Ok n else Err "out of range"
    | None => Err "not a number"
    end;
  getUserOpHash := fun u ep c => Resolved ("0xabcdef" ++ toString16 c);
  Signature_packSignature := fun sg v _ => Resolved (v ++ String.substring 2 (String.length sg) sg);
  Signature_semiValidSignature := Resolved semiValid_signature;
  GasOverhead_calcGasOverhead := demo_calcGasOverhead;
  encodeFunctionData := demo_encodeFunctionData;
|}.

Definition demo_factory : string := "0x1111111111111111111111111111111111111111".
Definition demo_logic : string := "0x2222222222222222222222222222222222222222".
Definition demo_entryPoint : string := "0x5FF137D4b0FDCD49DcA30c7CF57E578a026d2789".
Definition demo_sender : string := "0x3333333333333333333333333333333333333333".
Definition demo_target : string := "0x4444444444444444444444444444444444444444".

Definition demo_wallet : SoulWallet := {|
  soulWalletFactoryAddress := demo_factory;
  defalutCallbackHandlerAddress := "0x5555555555555555555555555555555555555555";
  keyStoreModuleAddress := "0x6666666666666666666666666666666666666666";
  securityControlModuleAddress := "0x7777777777777777777777777777777777777777";
|}.

Definition demo_config : onChainConfig :=
  resolved_config 5 demo_logic demo_entryPoint.

Definition demo_gas : UserOpGas := {|
  gas_preVerificationGas := Str "0xb000";
  gas_verificationGasLimit := Str "0x20000";
  gas_callGasLimit := Str "0x5209";
|}.

(** The world: chain 5 on both sides; the bundler lists the entry point in
    lower case, reports [bundlerHash] for a submission and [code] at every
    address. *)
Definition demo_env (entryPoints : list string) (code bundlerHash : string) : Env := {|
  provider_getNetwork := Resolved 5;
  provider_getCode := fun _ => Resolved code;
  walletImpl := fun _ => Resolved demo_logic;
  wallet_entryPoint := fun _ => Resolved demo_entryPoint;
  entryPoint_balanceOf := fun _ _ => Resolved 7;
  entryPoint_getNonce := fun _ _ _ => Resolved 3;
  wallet_listPlugin := fun _ => Resolved [];
  bundler_getNetwork := Resolved 5;
  eth_supportedEntryPoints := Resolved (Ok entryPoints);
  eth_estimateUserOperationGas := fun _ _ => Resolved (Ok demo_gas);
  eth_sendUserOperation := fun _ _ => Resolved (Ok bundlerHash);
|}.

Definition demo_world : Env :=
  demo_env [toLowerCase demo_entryPoint] "0x6080" "0xABCDEF5".

(** The state of a process that has just constructed the instance. *)
Definition demo_state : State := fresh_instance ∅ [].

(** The operation of the prefund examples of the specification. *)
Definition demo_op (paymaster : string) (fee : BigNumberish) : UserOperation := {|
  sender := demo_sender;
  nonce := Num 0;
  initCode := "0x";
  callData := "0x";
  callGasLimit := Num 10;
  verificationGasLimit := Num 5;
  preVerificationGas := Num 2;
  maxFeePerGas := fee;
  maxPriorityFeePerGas := Num 1;
  paymasterAndData := paymaster;
  signature := "0x";
|}.

Definition demo_tx (v g : option BigNumberish) : Transaction :=
  {| to := demo_target; value := v; data := None; gasLimit := g |}.

(** The same world with another answer to the gas estimation request. *)
Definition demo_world_estimate (answer : Settled (Result UserOpGas UserOpErrors)) : Env := {|
  provider_getNetwork := provider_getNetwork demo_world;
  provider_getCode := provider_getCode demo_world;
  walletImpl := walletImpl demo_world;
  wallet_entryPoint := wallet_entryPoint demo_world;
  entryPoint_balanceOf := entryPoint_balanceOf demo_world;
  entryPoint_getNonce := entryPoint_getNonce demo_world;
  wallet_listPlugin := wallet_listPlugin demo_world;
  bundler_getNetwork := bundler_getNetwork demo_world;
  eth_supportedEntryPoints := eth_supportedEntryPoints demo_world;
  eth_estimateUserOperationGas := fun _ _ => answer;
  eth_sendUserOperation := eth_sendUserOperation demo_world;
|}.

(** A bundler that does not list the entry point. *)
Definition demo_world_unsupported : Env := demo_env [] "0x6080" "0xABCDEF5".

(** A bundler that reports another hash. *)
Definition demo_world_mismatch : Env :=
  demo_env [toLowerCase demo_entryPoint] "0x6080" "0xabcdef6".

(** A chain on which the wallet has no code yet. *)
Definition demo_world_undeployed : Env :=
  demo_env [toLowerCase demo_entryPoint] "0x" "0xABCDEF5".

(** The state after the instance has resolved its configuration. *)
Definition demo_resolved : State :=
  snd (getOnChainConfig demo_wallet demo_world demo_state).

(** A bundler on another chain. *)
Definition demo_world_other_chain : Env := {|
  provider_getNetwork := provider_getNetwork demo_world;
  provider_getCode := provider_getCode demo_world;
  walletImpl := walletImpl demo_world;
  wallet_entryPoint := wallet_entryPoint demo_world;
  entryPoint_balanceOf := entryPoint_balanceOf demo_world;
  entryPoint_getNonce := entryPoint_getNonce demo_world;
  wallet_listPlugin := wallet_listPlugin demo_world;
  bundler_getNetwork := Resolved 1;
  eth_supportedEntryPoints := eth_supportedEntryPoints demo_world;
  eth_estimateUserOperationGas := eth_estimateUserOperationGas demo_world;
  eth_sendUserOperation := eth_sendUserOperation demo_world;
|}.

(** Some calls, in worlds that differ. *)
Definition demo_calls : list (ApiCall * Env) :=
  [(call_sendUserOperation (demo_op "0x" (Num 3)), demo_world_mismatch);
   (call_getOnChainConfig, demo_world_other_chain);
   (call_fromTransaction "0x10" "1" demo_sender
      [demo_tx None (Some (Num 3))] None, demo_world_undeployed);
   (call_estimateUserOperationGas (demo_op "0x" (Num 3)) None, demo_world)].

(** The placeholder signature as the collaborator packs it. *)
Definition demo_placeholder : string :=
  hex semiValid_validationData
  ++ String.substring 2 (String.length semiValid_signature) semiValid_signature.

(** Runs on the concrete world. *)

Section ConcreteRuns.
#[local] Existing Instance demo_tools.

Definition demo_estimate :=
  estimateUserOperationGas demo_wallet demo_world None
    (demo_state, demo_op "0x" (Num 3)).

Definition demo_estimate_rejected :=
  estimateUserOperationGas demo_wallet
    (demo_world_estimate (Rejected (ThrownError (mkError "network error")))) None
    (demo_state, demo_op "0x" (Num 3)).

(** The failing operation of the specification, and an operation whose only
    zero is [callGasLimit]. *)
Definition demo_zero_fee : UserOperation := {|
  sender := demo_sender; nonce := Num 0; initCode := "0x"; callData := "0x";
  callGasLimit := Str "0x0"; verificationGasLimit := Str "0x1";
  preVerificationGas := Str "0x1"; maxFeePerGas := Str "0x0";
  maxPriorityFeePerGas := Str "0x0"; paymasterAndData := "0x"; signature := "0x";
|}.


(** Two transactions with gas limits 3 and 4 and no value. *)
Definition demo_txs : list Transaction :=
  [demo_tx None (Some (Num 3)); demo_tx (Some (Str "0")) (Some (Str "4"))].

Definition demo_build :=
  fromTransaction demo_wallet demo_world "0x10" "1" demo_sender demo_txs None demo_state.

Definition demo_built : UserOperation :=
  match fst demo_build with
  | Normal (Ok op) => op
  | _ => demo_op "0x" (Num 0)
  end.

Definition demo_deploy (w : Env) :=
  walletDeployed demo_wallet w demo_sender demo_state.

End ConcreteRuns.

(** Runs of the older generation on the concrete world. *)

Section LegacyRuns.
#[local] Existing Instance demo_tools.

Definition demo_JSON_stringify (t : Thrown) : string := "{}".

Definition legacy_resolved : State :=
  snd (Legacy.getOnChainConfig demo_wallet demo_world demo_state).

(** An operation that deploys its wallet and pins an odd call gas limit. *)
Definition demo_pinned_op : UserOperation := {|
  sender := demo_sender; nonce := Num 0; initCode := "0x1111"; callData := "0x";
  callGasLimit := Num 21001; verificationGasLimit := Num 0;
  preVerificationGas := Num 0; maxFeePerGas := Num 3;
  maxPriorityFeePerGas := Num 1; paymasterAndData := "0x"; signature := "0x";
|}.

Definition legacy_estimate :=
  Legacy.estimateUserOperationGas demo_wallet demo_JSON_stringify demo_world
    (demo_state, demo_pinned_op).

End LegacyRuns.

(** The deployment path and [DeployFactory] on the concrete world. *)

(** A node that cannot be reached: every read of the provider fails. *)
Definition demo_world_offline : Env := {|
  provider_getNetwork := Rejected (ThrownError (mkError "could not detect network"));
  provider_getCode := fun _ => Rejected (ThrownError (mkError "timeout"));
  walletImpl := walletImpl demo_world;
  wallet_entryPoint := wallet_entryPoint demo_world;
  entryPoint_balanceOf := entryPoint_balanceOf demo_world;
  entryPoint_getNonce := fun _ _ _ => Rejected (ThrownError (mkError "timeout"));
  wallet_listPlugin := fun _ => Rejected (ThrownErr (mkError "timeout"));
  bundler_getNetwork := bundler_getNetwork demo_world;
  eth_supportedEntryPoints := eth_supportedEntryPoints demo_world;
  eth_estimateUserOperationGas := eth_estimateUserOperationGas demo_world;
  eth_sendUserOperation := eth_sendUserOperation demo_world;
|}.

(** Stand-ins for the helpers of the deployment path: values are padded on
    the left with zeros; the encoders concatenate their arguments. *)
Fixpoint zeros (n : nat) : string :=
  match n with
  | O => ""
  | S m => String "0" (zeros m)
  end.

Definition demo_paddingZero (v : BigNumberish) (bytes : Z) : Settled string :=
  let digits := match v with Num n => toString16 n | Str s => substring 2 s end in
  let width := (2 * Z.to_nat bytes)%nat in
  if (String.length digits <=? width)%nat
  then Resolved ("0x" ++ zeros (width - String.length digits) ++ digits)
  else Rejected (ThrownError (mkError "value out of range")).

Definition demo_deploy_tools : DeployCollaborators := {|
  TypeGuard_httpOrHttps := fun url =>
    if String.prefix "http://" url || String.prefix "https://" url
    then Ok url else Err "not a URL";
  Hex_paddingZero := demo_paddingZero;
  AbiCoder_encode_keyStore := fun k g p =>
    match demo_paddingZero (Num p) 32 with
    | Resolved x => Resolved (k ++ substring 2 g ++ substring 2 x)
    | Rejected t => Rejected t
    end;
  encode_initialize := fun k handler modules plugins =>
    Resolved ("0xA1" ++ substring 2 k ++ substring 2 handler
              ++ substring 2 (join modules) ++ join plugins);
  encode_createWallet := fun initializer salt =>
    Resolved ("0xB2" ++ substring 2 initializer ++ substring 2 salt);
  Signature_packUserOpHash := fun h _ _ => Resolved (h, "0x0");
|}.

(** A factory that answers [demo_sender] for every wallet, and one whose
    read fails. *)
Definition demo_deploy_world : DeployEnv :=
  {| node := demo_world; factory_getWalletAddress := fun _ _ _ => Resolved demo_sender |}.

Definition demo_deploy_world_failing : DeployEnv :=
  {| node := demo_world;
     factory_getWalletAddress := fun _ _ _ =>
       Rejected (ThrownError (mkError "call revert exception")) |}.

(** A hook whose sender is not an address, and an operation of that
    sender that deploys its wallet. *)
Definition demo_bad_hook : GuardHookInputData :=
  {| hookSender := "0xnot-an-address"; hookInputData := "0x" |}.

Definition demo_bad_op : UserOperation := {|
  sender := "0xNOT-AN-ADDRESS"; nonce := Num 0; initCode := "0x1111"; callData := "0x";
  callGasLimit := Num 0; verificationGasLimit := Num 0;
  preVerificationGas := Num 0; maxFeePerGas := Num 3;
  maxPriorityFeePerGas := Num 1; paymasterAndData := "0x"; signature := "0x";
|}.

Definition demo_key : string := "0x01".
Definition demo_guardianHash : string :=
  "0x00000000000000000000000000000000000000000000000000000000000000aa".

Section DeployRuns.
#[local] Existing Instance demo_tools.
#[local] Existing Instance demo_deploy_tools.

Definition demo_initializeData :=
  initializeData demo_wallet demo_world demo_key demo_guardianHash None demo_state.

Definition demo_initializer : string :=
  match fst demo_initializeData with
  | Normal (Ok d) => d
  | _ => ""
  end.

Definition demo_create :=
  createUnsignedDeployWalletUserOp demo_wallet demo_deploy_world 1 demo_key
    demo_guardianHash None None demo_state.

Definition demo_created : UserOperation :=
  match fst demo_create with
  | Normal (Ok op) => op
  | _ => demo_op "0x" (Num 0)
  end.

End DeployRuns.

(** ethers and a chain on which the wallet factory appears once a
    transaction has been sent. *)
Definition demo_ethers : DeployFactory.Ethers := {|
  DeployFactory.bytes32_zero := "0x" ++ zeros 64;
  DeployFactory.getDeployTransaction_data := fun logic singleton =>
    Resolved ("0x6080" ++ substring 2 logic ++ substring 2 singleton);
  DeployFactory.keccak256 := fun d => Resolved ("0x" ++ zeros 62 ++ "c5");
  DeployFactory.getCreate2Address := fun _ _ _ => Resolved demo_factory;
  DeployFactory.encodeFunctionData_deploy := fun code salt =>
    Resolved ("0xC3" ++ substring 2 code ++ substring 2 salt);
  DeployFactory.BigNumber_toHexString := hex;
|}.

Definition demo_singleton : string := "0xce0042B868300000d44A59004Da54A005ffdcf9f".

Definition demo_chain : DeployFactory.Chain := {|
  DeployFactory.etherProvider_getCode := fun t _ =>
    Resolved (match DeployFactory.sent t with [] => "0x" | _ => "0x6080" end);
  DeployFactory.signer_sendTransaction := fun _ _ => Resolved (Resolved tt);
|}.

Definition demo_deploy_factory (t : list DeployFactory.Request) :=
  DeployFactory.deploy (H := demo_ethers) demo_singleton demo_chain demo_logic None None t.

(** Worlds and calls of the later examples. *)

(** Provider and bundler on chain 1. *)
Definition demo_world_chain1 : Env := {|
  provider_getNetwork := Resolved 1;
  provider_getCode := provider_getCode demo_world;
  walletImpl := walletImpl demo_world;
  wallet_entryPoint := wallet_entryPoint demo_world;
  entryPoint_balanceOf := entryPoint_balanceOf demo_world;
  entryPoint_getNonce := entryPoint_getNonce demo_world;
  wallet_listPlugin := wallet_listPlugin demo_world;
  bundler_getNetwork := Resolved 1;
  eth_supportedEntryPoints := eth_supportedEntryPoints demo_world;
  eth_estimateUserOperationGas := eth_estimateUserOperationGas demo_world;
  eth_sendUserOperation := eth_sendUserOperation demo_world;
|}.

(** An estimate whose call gas limit, 0x9999, differs from every limit of
    the examples. *)
Definition demo_gas_high : UserOpGas := {|
  gas_preVerificationGas := Str "0xb000";
  gas_verificationGasLimit := Str "0x20000";
  gas_callGasLimit := Str "0x9999";
|}.

Section LegacyRunsHigh.
#[local] Existing Instance demo_tools.

Definition legacy_estimate_high :=
  Legacy.estimateUserOperationGas demo_wallet demo_JSON_stringify
    (demo_world_estimate (Resolved (Ok demo_gas_high)))
    (demo_state, demo_pinned_op).

End LegacyRunsHigh.

(** A world made of [w] and a factory that answers [demo_sender]. *)
Definition demo_with_factory (w : Env) : DeployEnv :=
  {| node := w; factory_getWalletAddress := fun _ _ _ => Resolved demo_sender |}.

(** Calls of every kind, in worlds that differ. *)
Definition demo_public_calls : list (PublicCall * DeployEnv) :=
  (map (fun cw => (call_api (fst cw), demo_with_factory (snd cw))) demo_calls
   ++ [(call_createUnsignedDeployWalletUserOp 1 demo_key demo_guardianHash None None,
        demo_deploy_world_failing);
       (call_entryPoint, demo_with_factory demo_world_other_chain);
       (call_calcWalletAddress 2 demo_key demo_guardianHash (Some 3600),
        demo_deploy_world);
       (call_packUserOpHash (demo_op "0x" (Num 3)) None None, demo_deploy_world);
       (call_initializeData demo_key demo_guardianHash None,
        demo_with_factory demo_world_offline)])%list.

(** Another instance of the same factory, in the process of [demo_resolved]. *)
Definition demo_wallet_again : SoulWallet := {|
  soulWalletFactoryAddress := demo_factory;
  defalutCallbackHandlerAddress := "0x8888888888888888888888888888888888888888";
  keyStoreModuleAddress := "0x9999999999999999999999999999999999999999";
  securityControlModuleAddress := "0xaaaaaaaaaaaaaaaaaaaaaaaaaaaaaaaaaaaaaaaa";
|}.

Definition demo_again : State := fresh_instance (StorageCache demo_resolved) [].

(** ** Facts about the JavaScript primitives *)

Lemma rem2_even (z : Z) : (Z.rem z 2 =? 0)%Z = Z.even z.
Proof.
  rewrite Zeven_mod. destruct (Z.eqb_spec (Z.rem z 2) 0) as [E|E];
    destruct (Z.eqb_spec (z mod 2) 0) as [E'|E']; try reflexivity.
  - apply Z.rem_mod_eq_0 in E; [contradiction | lia].
  - apply Z.rem_mod_eq_0 in E'; [contradiction | lia].
Qed.

Lemma rem2_odd (z : Z) : (0 <= z)%Z -> (Z.rem z 2 =? 1)%Z = Z.odd z.
Proof.
  intros Hz. rewrite Z.rem_mod_nonneg by lia. rewrite Zmod_odd.
  destruct (Z.odd z); reflexivity.
Qed.

Lemma even_up_even z : Z.even (even_up z) = true.
Proof.
  unfold even_up. destruct (Z.odd z) eqn:E.
  - rewrite Z.even_add. rewrite <- Z.negb_odd, E. reflexivity.
  - rewrite <- Z.negb_odd, E. reflexivity.
Qed.

Lemma even_up_least z e : Z.even e = true -> (z <= e)%Z -> (z <= even_up z <= e)%Z.
Proof.
  unfold even_up. intros He Hle. destruct (Z.odd z) eqn:E; [|lia].
  assert (z <> e) by (intros ->; rewrite <- Z.negb_odd, E in He; discriminate).
  lia.
Qed.

Lemma hex_of_N_pos_ne_0 p : hex_of_N (Npos p) <> "0".
Proof.
  unfold hex_of_N. intros E.
  assert (Hn : N.to_hex_uint (Npos p) <> Hexadecimal.Nil)
    by apply HexadecimalPos.Unsigned.to_uint_nonnil.
  pose proof (HexadecimalString.NilZero.usu _ Hn) as U.
  rewrite E in U. cbn in U. injection U as U.
  exact (HexadecimalPos.Unsigned.to_uint_nonzero p (eq_sym U)).
Qed.

Lemma toString16_0 z : toString16 z = "0" <-> z = 0%Z.
Proof.
  split; [|intros ->; reflexivity].
  destruct z as [|p|p]; cbn; intros E; [reflexivity| |].
  - destruct (hex_of_N_pos_ne_0 p E).
  - discriminate E.
Qed.

Lemma toLowerCase_hex d :
  toLowerCase (HexadecimalString.NilEmpty.string_of_uint d)
  = HexadecimalString.NilEmpty.string_of_uint d.
Proof. induction d; cbn; try rewrite IHd; reflexivity. Qed.

Lemma parse_hex_of_N n : parse_hex (hex_of_N n) = Some n.
Proof.
  unfold parse_hex, hex_of_N.
  assert (Hn : N.to_hex_uint n <> Hexadecimal.Nil).
  { destruct n; [discriminate|]. apply HexadecimalPos.Unsigned.to_uint_nonnil. }
  assert (L : toLowerCase (HexadecimalString.NilZero.string_of_uint (N.to_hex_uint n))
              = HexadecimalString.NilZero.string_of_uint (N.to_hex_uint n)).
  { unfold HexadecimalString.NilZero.string_of_uint.
    destruct (N.to_hex_uint n); [reflexivity|..]; apply toLowerCase_hex. }
  rewrite L, (HexadecimalString.NilZero.usu _ Hn).
  now rewrite HexadecimalN.Unsigned.of_to.
Qed.


(** *** Reading back a printed bigint *)

Lemma string_rev_onto_twice s a b :
  string_rev_onto (string_rev_onto s a) b = string_rev_onto a (s ++ b).
Proof.
  revert a b. induction s as [|c r IH]; intros a b; [reflexivity|].
  cbn [string_rev_onto]. rewrite IH. reflexivity.
Qed.

Lemma string_rev_involutive s : string_rev (string_rev s) = s.
Proof.
  unfold string_rev. rewrite string_rev_onto_twice. cbn.
  induction s as [|c r IH]; [reflexivity|].
  change (String c r ++ "") with (String c (r ++ "")). now rewrite IH.
Qed.

Lemma no_space_rev_onto s acc :
  no_space (string_rev_onto s acc) = no_space s && no_space acc.
Proof.
  revert acc. induction s as [|c r IH]; intros acc; [reflexivity|].
  cbn [string_rev_onto no_space]. rewrite IH. cbn [no_space].
  destruct (isWhiteSpace c), (no_space r); reflexivity.
Qed.

Lemma trimStart_no_space s : no_space s = true -> trimStart s = s.
Proof.
  destruct s as [|c r]; [reflexivity|]. cbn.
  destruct (isWhiteSpace c); [discriminate|reflexivity].
Qed.

Lemma trim_no_space s : no_space s = true -> trim s = s.
Proof.
  intros N. unfold trim. rewrite (trimStart_no_space s N).
  rewrite trimStart_no_space, string_rev_involutive; [reflexivity|].
  unfold string_rev. now rewrite no_space_rev_onto, N.
Qed.

Lemma no_space_hex d :
  no_space (HexadecimalString.NilEmpty.string_of_uint d) = true.
Proof. induction d; cbn; try rewrite IHd; reflexivity. Qed.

Lemma no_space_hex_of_N n : no_space (hex_of_N n) = true.
Proof.
  unfold hex_of_N, HexadecimalString.NilZero.string_of_uint.
  destruct (N.to_hex_uint n); [reflexivity|..]; apply no_space_hex.
Qed.

(** A non-negative bigint printed as ['0x' + n.toString(16)] converts back to
    itself. *)
Lemma BigInt_hex z : (0 <= z)%Z -> BigInt (Str (hex z)) = Some z.
Proof.
  intros Hz. cbn [BigInt]. unfold StringToBigInt, hex.
  assert (T : toString16 z = hex_of_N (Z.to_N z)).
  { destruct z as [|p|p]; [reflexivity|reflexivity|lia]. }
  rewrite T, trim_no_space.
  - change ("0x" ++ hex_of_N (Z.to_N z))
      with (String "0" (String "x" (hex_of_N (Z.to_N z)))).
    cbv beta iota. rewrite parse_hex_of_N. cbn. f_equal. lia.
  - change ("0x" ++ hex_of_N (Z.to_N z))
      with (String "0" (String "x" (hex_of_N (Z.to_N z)))).
    cbn [no_space]. rewrite no_space_hex_of_N. reflexivity.
Qed.

(** *** Cache keys *)

Lemma occurs_app c s t : occurs c (s ++ t) = occurs c s || occurs c t.
Proof.
  induction s as [|a s IH]; [reflexivity|].
  change (String a s ++ t) with (String a (s ++ t)). cbn.
  destruct (Ascii.eqb a c); [reflexivity | exact IH].
Qed.

Lemma pretty_N_go_no_underscore x s :
  occurs "_" s = false -> occurs "_" (pretty_N_go x s) = false.
Proof.
  revert s. induction (N.lt_wf_0 x) as [x _ IH]; intros s Hs.
  destruct (N.eq_dec x 0%N) as [->|Hx]; [now rewrite pretty_N_go_0|].
  rewrite pretty_N_go_step by lia. apply IH; [apply N.div_lt; lia|].
  assert (D : Ascii.eqb (pretty_N_char (x `mod` 10)) "_" = false)
    by (unfold pretty_N_char; repeat case_match; reflexivity).
  cbn. now rewrite D.
Qed.

Lemma Number_toString_no_underscore z : occurs "_" (Number_toString z) = false.
Proof.
  assert (P : forall n : N, occurs "_" (pretty n) = false).
  { intros n. unfold pretty, pretty_N. case_decide; [reflexivity|].
    now apply pretty_N_go_no_underscore. }
  destruct z; cbn; [reflexivity|apply P|apply P].
Qed.

(** A string is split in one way only at its last underscore. *)
Lemma split_last_underscore s1 s2 t1 t2 :
  occurs "_" t1 = false -> occurs "_" t2 = false ->
  s1 ++ "_" ++ t1 = s2 ++ "_" ++ t2 -> s1 = s2 /\ t1 = t2.
Proof.
  intros H1 H2. revert s2.
  induction s1 as [|a s1 IH]; intros [|b s2] E; unfold String.append in E; fold String.append in E.
  - injection E as E. auto.
  - injection E as <- E. rewrite E, occurs_app in H1. cbn in H1.
    rewrite orb_true_r in H1. discriminate.
  - injection E as -> E. rewrite <- E, occurs_app in H2. cbn in H2.
    rewrite orb_true_r in H2. discriminate.
  - injection E as -> E. destruct (IH _ E) as [-> ->]. auto.
Qed.

Lemma onChainConfig_key_inj f c f' c' :
  onChainConfig_key f c = onChainConfig_key f' c' -> f = f' /\ c = c'.
Proof.
  unfold onChainConfig_key. intros E.
  apply (String.app_inj "onChainConfig_") in E.
  apply split_last_underscore in E; auto using Number_toString_no_underscore.
  destruct E as [-> E]. split; [reflexivity|]. now apply (inj pretty).
Qed.

(** ** Reasoning about runs *)

Ltac unfold_M :=
  unfold await, BigInt_, read_userOp, update_userOp, StorageCache_get,
    StorageCache_set in *;
  unfold settle, zoom, try_catch, try_finally, throw, gets, modify in *;
  unfold mbind, M_bind, mret, M_ret in *.

Ltac case_match_in H :=
  match type of H with
  | context [match ?x with _ => _ end] =>
      lazymatch x with
      | context [match _ with _ => _ end] => fail
      | _ => destruct x eqn:?
      end
  end.

Ltac simpl_state :=
  cbn [StorageCache _onChainConfig _entryPointContract trace log
       set_StorageCache set_onChainConfig set_entryPointContract fst snd] in *.

(** Every path through a run recorded in [H]. *)
Ltac run_cases H :=
  repeat (cbn in H; first [ discriminate H | case_match_in H ]).

Section Config.
Context `{Collaborators} (this : SoulWallet).

Lemma getOnChainConfig_memo w s c :
  _onChainConfig s = Some c -> getOnChainConfig this w s = (Normal (Ok c), s).
Proof. intros E. unfold getOnChainConfig. unfold_M. now rewrite E. Qed.

Lemma getOnChainConfig_Ok_memo w s c s' :
  getOnChainConfig this w s = (Normal (Ok c), s') -> _onChainConfig s' = Some c.
Proof.
  unfold getOnChainConfig. unfold_M. intros E.
  run_cases E; inversion E; subst; cbn; congruence.
Qed.

Lemma getOnChainConfig_entryPointContract w s r s' :
  getOnChainConfig this w s = (r, s') -> _entryPointContract s' = _entryPointContract s.
Proof.
  unfold getOnChainConfig. unfold_M. intros E.
  run_cases E; inversion E; subst; reflexivity.
Qed.

Lemma getOnChainConfig_Ok_cached w s c s' :
  _onChainConfig s = None ->
  getOnChainConfig this w s = (Normal (Ok c), s') ->
  exists n, provider_getNetwork w = Resolved n /\
    StorageCache s' !! onChainConfig_key (soulWalletFactoryAddress this) n
      = Some (CachedConfig c).
Proof.
  unfold getOnChainConfig. unfold_M. intros M E. rewrite M in E.
  run_cases E; inversion E; subst; eexists; (split; [reflexivity|]); cbn.
  - destruct (StorageCache s !! _) as [[]|]; cbn in *; congruence.
  - apply lookup_insert_eq.
Qed.



(** A resolution that reaches the bundler's entry-point check has already
    stored the configuration: when the check fails, the call fails and the
    entry stays. *)
Lemma getOnChainConfig_failed_check_cached w s n logic ep :
  let key := onChainConfig_key (soulWalletFactoryAddress this) n in
  _onChainConfig s = None ->
  provider_getNetwork w = Resolved n ->
  Number_isSafeInteger n = true -> n <> 0%Z ->
  as_config (StorageCache s !! key) = None ->
  walletImpl w (soulWalletFactoryAddress this) = Resolved logic ->
  wallet_entryPoint w logic = Resolved ep ->
  bundler_getNetwork w = Resolved n ->
  bundler_check_fails w ep ->
  exists e s',
    getOnChainConfig this w s = (Normal (Err e), s') /\
    _onChainConfig s' = None /\
    StorageCache s' !! key = Some (CachedConfig (resolved_config n logic ep)).
Proof.
  intros key M N Safe Nz Miss L E B Fail.
  unfold getOnChainConfig. unfold_M. rewrite M, N. cbn.
  rewrite Safe. destruct (Z.eqb_spec n 0) as [|_]; [contradiction|].
  simpl_state. fold key. rewrite Miss, L. cbn. rewrite E. cbn. rewrite B, Safe. cbn.
  destruct (Z.eqb_spec n 0) as [|_]; [contradiction|]. rewrite Z.eqb_refl. cbn.
  destruct Fail as [[e Fe]|(l & Fl & Sup)].
  - rewrite Fe. do 2 eexists. split; [reflexivity|]. cbn.
    split; [assumption|apply lookup_insert_eq].
  - rewrite Fl. unfold supports in Sup. apply negb_false_iff in Sup. rewrite Sup.
    do 2 eexists. split; [reflexivity|]. cbn.
    split; [assumption|apply lookup_insert_eq].
Qed.

(** A call that finds the configuration in [StorageCache] returns it after
    reading the chain id only: nothing is resolved or checked again. *)
Lemma getOnChainConfig_cache_hit w s n c :
  _onChainConfig s = None ->
  provider_getNetwork w = Resolved n ->
  Number_isSafeInteger n = true -> n <> 0%Z ->
  StorageCache s !! onChainConfig_key (soulWalletFactoryAddress this) n
    = Some (CachedConfig c) ->
  getOnChainConfig this w s
  = (Normal (Ok c), set_onChainConfig c (log provider_getNetwork_request s)).
Proof.
  intros M N Safe Nz Hit.
  unfold getOnChainConfig. unfold_M. rewrite M, N. cbn.
  rewrite Safe. destruct (Z.eqb_spec n 0) as [|_]; [contradiction|].
  simpl_state. now rewrite Hit.
Qed.

(** X5: the checks on the two chain ids come before the write: a resolution
    that fails one of them leaves [StorageCache] as it was. *)
Lemma getOnChainConfig_chainId_mismatch_not_cached w s n m logic ep :
  _onChainConfig s = None ->
  provider_getNetwork w = Resolved n ->
  Number_isSafeInteger n = true -> n <> 0%Z ->
  as_config (StorageCache s !! onChainConfig_key (soulWalletFactoryAddress this) n)
    = None ->
  walletImpl w (soulWalletFactoryAddress this) = Resolved logic ->
  wallet_entryPoint w logic = Resolved ep ->
  bundler_getNetwork w = Resolved m -> m <> n ->
  exists e s',
    getOnChainConfig this w s = (Normal (Err e), s') /\
    StorageCache s' = StorageCache s.
Proof.
  intros M N Safe Nz Miss L E B Ne.
  unfold getOnChainConfig. unfold_M. rewrite M, N. cbn.
  rewrite Safe. destruct (Z.eqb_spec n 0) as [|_]; [contradiction|].
  simpl_state. rewrite Miss, L. cbn. rewrite E. cbn. rewrite B. cbn.
  destruct (Number_isSafeInteger m); [|eauto].
  destruct (Z.eqb_spec m 0); [eauto|].
  destruct (Z.eqb_spec n m); [congruence|]. cbn. eauto.
Qed.

End Config.

(** *** The key of the configuration cache *)

Section ConfigReads.
Context `{Collaborators} (this : SoulWallet).

Lemma getOnChainConfig_Ok_chain w s c s' :
  _onChainConfig s = None ->
  getOnChainConfig this w s = (Normal (Ok c), s') ->
  exists n, provider_getNetwork w = Resolved n /\
    Number_isSafeInteger n = true /\ n <> 0%Z.
Proof.
  unfold getOnChainConfig. unfold_M. intros M E. rewrite M in E.
  destruct (provider_getNetwork w) as [n|]; [|discriminate E]. cbn in E.
  destruct (Number_isSafeInteger n) eqn:Safe; [|discriminate E].
  destruct (Z.eqb_spec n 0); [discriminate E|]. exists n. auto.
Qed.

(** A call that misses the cache asks the factory for the wallet
    implementation. *)
Lemma getOnChainConfig_miss_reads_chain w s m :
  _onChainConfig s = None ->
  provider_getNetwork w = Resolved m ->
  Number_isSafeInteger m = true -> m <> 0%Z ->
  as_config (StorageCache s !! onChainConfig_key (soulWalletFactoryAddress this) m)
    = None ->
  exists r s3 t,
    getOnChainConfig this w s = (r, s3) /\
    trace s3 = (trace s ++ provider_getNetwork_request
                 :: staticCall_request (soulWalletFactoryAddress this) "walletImpl" []
                 :: t)%list.
Proof.
  intros M N Safe Nz Miss.
  unfold getOnChainConfig. unfold_M. rewrite M, N. cbn.
  rewrite Safe. destruct (Z.eqb_spec m 0) as [|_]; [contradiction|].
  simpl_state. rewrite Miss.
  repeat case_match; simplify_eq; eexists _, _, _; (split; [reflexivity|]);
    simpl_state; rewrite <- ?app_assoc; reflexivity.
Qed.

End ConfigReads.

Section ConfigKey.
Context `{Collaborators} (this : SoulWallet).

(** C2: the cache key is built from the factory address and the chain id,
    and two keys are equal only for the same factory and the same chain id.
    After a call on an instance has resolved the configuration [c], the
    entry for (factory, chain id) holds [c]; every later call on that
    instance, whatever the chain and the bundler would answer, returns [c]
    and leaves the state as it is, trace included; any instance of the same
    factory on the same chain that finds the entry returns [c] after reading
    the chain id only, with no contract read and no check of the bundler;
    and when the entry is the only one, an instance of another factory or on
    another chain does not find it and asks its factory again. *)
Theorem getOnChainConfig_idempotent w s c s' :
  _onChainConfig s = None ->
  getOnChainConfig this w s = (Normal (Ok c), s') ->
  let f := soulWalletFactoryAddress this in
  exists n,
    provider_getNetwork w = Resolved n /\
    StorageCache s' !! onChainConfig_key f n = Some (CachedConfig c) /\
    (forall f1 n1 f2 n2,
       onChainConfig_key f1 n1 = onChainConfig_key f2 n2 -> f1 = f2 /\ n1 = n2) /\
    (forall w', getOnChainConfig this w' s' = (Normal (Ok c), s')) /\
    (forall this' w' s2,
       soulWalletFactoryAddress this' = f ->
       provider_getNetwork w' = Resolved n ->
       _onChainConfig s2 = None ->
       StorageCache s2 !! onChainConfig_key f n = Some (CachedConfig c) ->
       getOnChainConfig this' w' s2
       = (Normal (Ok c), set_onChainConfig c (log provider_getNetwork_request s2))) /\
    (forall this' w' s2 m,
       soulWalletFactoryAddress this' <> f \/ m <> n ->
       provider_getNetwork w' = Resolved m ->
       Number_isSafeInteger m = true -> m <> 0%Z ->
       _onChainConfig s2 = None ->
       StorageCache s2 = {[ onChainConfig_key f n := CachedConfig c ]} ->
       exists r s3 t,
         getOnChainConfig this' w' s2 = (r, s3) /\
         trace s3 = (trace s2 ++ provider_getNetwork_request
                      :: staticCall_request (soulWalletFactoryAddress this')
                           "walletImpl" []
                      :: t)%list).
Proof.
  intros M E f.
  destruct (getOnChainConfig_Ok_cached this w s c s' M E) as (n & N & C).
  destruct (getOnChainConfig_Ok_chain this w s c s' M E) as (n' & N' & Safe & Nz).
  rewrite N in N'. injection N' as <-.
  exists n. split; [exact N|]. split; [exact C|].
  split; [apply onChainConfig_key_inj|].
  split.
  { intros w'. apply getOnChainConfig_memo. eauto using getOnChainConfig_Ok_memo. }
  split.
  - intros this' w' s2 F N2 M2 Hit.
    apply (getOnChainConfig_cache_hit this' w' s2 n c); try assumption.
    rewrite F. exact Hit.
  - intros this' w' s2 m Other N2 Safe2 Nz2 M2 Only.
    apply (getOnChainConfig_miss_reads_chain this' w' s2 m); try assumption.
    rewrite Only, lookup_singleton_ne; [reflexivity|].
    intros K. apply onChainConfig_key_inj in K as [F' Mn].
    destruct Other as [O|O]; [apply O; symmetry; exact F'|apply O; symmetry; exact Mn].
Qed.

End ConfigKey.


(** ** What every call preserves *)

Section Respects.
Context {S : Type} (view : S -> State).
Context (R : State -> State -> Prop) `{!PreOrder R}.

Lemma respects_ret {A} (a : A) : respects R view (mret a).
Proof. intros s. reflexivity. Qed.

Lemma respects_throw {A} t : respects R view (throw t : M S A).
Proof. intros s. reflexivity. Qed.

Lemma respects_gets {A} (f : S -> A) : respects R view (gets f).
Proof. intros s. reflexivity. Qed.

Lemma respects_settle {A} (p : Settled A) : respects R view (settle p).
Proof. intros s. unfold settle. destruct p; reflexivity. Qed.

Lemma respects_BigInt x : respects R view (BigInt_ x).
Proof. intros s. unfold BigInt_. destruct (BigInt x); reflexivity. Qed.

Lemma respects_bind {A B} (m : M S A) (k : A -> M S B) :
  respects R view m -> (forall a, respects R view (k a)) ->
  respects R view (m ≫= k).
Proof.
  intros Hm Hk s. unfold mbind, M_bind. specialize (Hm s).
  destruct (m s) as [[a|t] s1]; [|exact Hm].
  etransitivity; [exact Hm|apply Hk].
Qed.

Lemma respects_try_catch {A} (m : M S A) (h : Thrown -> M S A) :
  respects R view m -> (forall t, respects R view (h t)) ->
  respects R view (try_catch m h).
Proof.
  intros Hm Hh s. unfold try_catch. specialize (Hm s).
  destruct (m s) as [[a|t] s1]; [exact Hm|].
  etransitivity; [exact Hm|apply Hh].
Qed.

Lemma respects_try_finally {A} (m : M S A) (f : M S unit) :
  respects R view m -> respects R view f -> respects R view (try_finally m f).
Proof.
  intros Hm Hf s. unfold try_finally. specialize (Hm s).
  destruct (m s) as [c s1]. specialize (Hf s1).
  destruct (f s1) as [[[]|t] s2]; etransitivity; eauto.
Qed.

End Respects.

Section RespectsUserOp.
Context (R : State -> State -> Prop) `{!PreOrder R}.

Lemma respects_zoom {U A} (m : M State A) :
  respects R id m -> respects R (fst : State * U -> State) (zoom m).
Proof.
  intros Hm [s u]. unfold zoom. specialize (Hm s). cbn in *.
  destruct (m s). exact Hm.
Qed.

Lemma respects_update_userOp f :
  respects R (fst : State * UserOperation -> State) (update_userOp f).
Proof. intros [s u]. reflexivity. Qed.

Lemma respects_read_userOp :
  respects R (fst : State * UserOperation -> State) read_userOp.
Proof. intros [s u]. reflexivity. Qed.

End RespectsUserOp.

Create HintDb respects.

#[local] Hint Resolve respects_ret respects_throw respects_gets respects_settle
  respects_BigInt respects_zoom respects_update_userOp respects_read_userOp
  : respects.

#[local] Hint Extern 1 (PreOrder _) => exact _ : respects.

(** One step of a proof that a method respects a relation: follow the shape
    of the program. *)
Ltac respects_step :=
  match goal with
  | |- respects _ _ (_ ≫= _) => apply respects_bind; try exact _; [|intros ?]
  | |- respects _ _ (try_catch _ _) => apply respects_try_catch; try exact _; [|intros ?]
  | |- respects _ _ (try_finally _ _) => apply respects_try_finally; try exact _
  | |- respects _ _ (match ?x with _ => _ end) => destruct x
  | |- respects _ _ (let _ := _ in _) => cbv zeta
  | |- _ => solve [auto with respects]
  end.

Section Preservation.
Context `{Collaborators} (this : SoulWallet).
Context (R : State -> State -> Prop) `{!Stable this R}.

Lemma respects_await {A} e (p : Settled A) : respects R id (await e p).
Proof.
  intros s. unfold await. unfold_M. destruct p; apply (stable_log this).
Qed.

Lemma respects_getOnChainConfig w : respects R id (getOnChainConfig this w).
Proof. intros s. apply (stable_getOnChainConfig this). Qed.

Lemma respects_StorageCache_get k : respects R id (StorageCache_get k).
Proof. intros s. reflexivity. Qed.

Lemma respects_getEntryPointContract w :
  respects R id (getEntryPointContract this w).
Proof.
  intros s. unfold id, getEntryPointContract. unfold_M.
  destruct (_entryPointContract s) eqn:C; [reflexivity|].
  pose proof (stable_getOnChainConfig this (R:=R) w s) as Hm.
  destruct (getOnChainConfig this w s) as [[[cfg|e]|t] s1] eqn:E; try exact Hm.
  cbn in *. etransitivity; [exact Hm|].
  apply (stable_entryPointContract this).
  - exact (getOnChainConfig_Ok_memo this _ _ _ _ E).
  - now rewrite (getOnChainConfig_entryPointContract this _ _ _ _ E).
Qed.

#[local] Hint Resolve respects_await respects_getOnChainConfig
  respects_StorageCache_get respects_getEntryPointContract : respects.

Lemma respects_preFund w u : respects R id (preFund this w u).
Proof. unfold preFund. repeat respects_step. Qed.

Lemma respects_userOpHash w u : respects R id (userOpHash this w u).
Proof. unfold userOpHash. repeat respects_step. Qed.

Lemma respects_guardHookList w a : respects R id (guardHookList w a).
Proof. unfold guardHookList. repeat respects_step. Qed.

#[local] Hint Resolve respects_userOpHash respects_guardHookList : respects.

Lemma respects_packUserOpSignature w sg v g :
  respects R id (packUserOpSignature w sg v g).
Proof. unfold packUserOpSignature. repeat respects_step. Qed.

#[local] Hint Resolve respects_packUserOpSignature : respects.

Lemma respects_estimate_and_update w cfg :
  respects R fst (estimate_and_update w cfg).
Proof. unfold estimate_and_update. repeat respects_step. Qed.

#[local] Hint Resolve respects_estimate_and_update : respects.

Lemma respects_estimateUserOperationGas w g :
  respects R fst (estimateUserOperationGas this w g).
Proof. unfold estimateUserOperationGas. repeat respects_step. Qed.

Lemma respects_sendUserOperation w u : respects R id (sendUserOperation this w u).
Proof. unfold sendUserOperation. repeat respects_step. Qed.

Lemma respects_getNonce w a k : respects R id (getNonce this w a k).
Proof. unfold getNonce. repeat respects_step. Qed.

Lemma respects_walletDeployed w a : respects R id (walletDeployed this w a).
Proof.
  unfold walletDeployed. repeat respects_step.
  intros s. apply (stable_deployed this).
Qed.

Lemma respects_sum_gasLimit txs acc : respects R id (sum_gasLimit txs acc).
Proof.
  revert acc. induction txs as [|tx txs IH]; intros acc; cbn; repeat respects_step.
Qed.

Lemma respects_collect_batch txs b : respects R id (collect_batch txs b).
Proof.
  revert b. induction txs as [|tx txs IH]; intros b; cbn; repeat respects_step.
Qed.

Lemma respects_select_call n b : respects R id (select_call n b).
Proof. unfold select_call. repeat respects_step. Qed.

#[local] Hint Resolve respects_getNonce respects_walletDeployed
  respects_sum_gasLimit respects_collect_batch respects_select_call : respects.

Lemma respects_fromTransaction w mf mpf from txs k :
  respects R id (fromTransaction this w mf mpf from txs k).
Proof. unfold fromTransaction. repeat respects_step. Qed.

(** Whatever a caller does next with the methods of [ApiCall], and however
    the outside world answers, the state moves along every stable
    relation. *)
Lemma run_calls_stable calls s : R s (run_calls this calls s).
Proof.
  revert s. induction calls as [|[c w] calls IH]; intros s; cbn.
  - reflexivity.
  - etransitivity; [|apply IH].
    destruct c; cbn.
    + apply (respects_getOnChainConfig w s).
    + apply (respects_preFund w userOp s).
    + apply (respects_userOpHash w userOp s).
    + apply (respects_packUserOpSignature w sg validationData guardHookInputData s).
    + apply (respects_estimateUserOperationGas w semiValidGuardHookInputData (s, userOp)).
    + apply (respects_sendUserOperation w userOp s).
    + apply (respects_getNonce w walletAddr key s).
    + apply (respects_fromTransaction w maxFeePerGas_ maxPriorityFeePerGas_ from txs nonceKey s).
Qed.

End Preservation.

(** *** The state only grows *)

#[global] Instance extends_preorder : PreOrder extends.
Proof.
  split.
  - intros s. repeat split; auto. exists []. now rewrite app_nil_r.
  - intros s1 s2 s3 (A1 & B1 & C1 & t1 & D1) (A2 & B2 & C2 & t2 & D2).
    repeat split; auto. exists (t1 ++ t2)%list. now rewrite D2, D1, app_assoc.
Qed.

Lemma extends_log e s : extends s (log e s).
Proof. repeat split; auto. now exists [e]. Qed.

Lemma extends_set_onChainConfig c s :
  _onChainConfig s = None -> extends s (set_onChainConfig c s).
Proof.
  intros N. repeat split; simpl_state; auto; [congruence|].
  exists []. now rewrite app_nil_r.
Qed.

Lemma extends_set_entryPointContract a s :
  _entryPointContract s = None -> extends s (set_entryPointContract a s).
Proof.
  intros N. repeat split; simpl_state; auto; [congruence|].
  exists []. now rewrite app_nil_r.
Qed.

Lemma extends_insert_truthy k v s :
  truthy (Some v) = true -> extends s (set_StorageCache (insert k v) s).
Proof.
  intros T. repeat split; simpl_state; auto.
  - intros k' Hk'. destruct (decide (k = k')) as [->|Ne].
    + now rewrite lookup_insert_eq.
    + now rewrite lookup_insert_ne.
  - exists []. now rewrite app_nil_r.
Qed.

Section Growth.
Context `{Collaborators} (this : SoulWallet).

Lemma getOnChainConfig_extends w s : extends s (snd (getOnChainConfig this w s)).
Proof.
  destruct (getOnChainConfig this w s) as [r s'] eqn:E. cbn.
  unfold getOnChainConfig in E. unfold_M.
  run_cases E; inversion E; subst; clear E;
    repeat first
      [ reflexivity
      | apply extends_log
      | etransitivity;
          [|first [ apply extends_set_onChainConfig; simpl_state; assumption
                  | apply extends_log
                  | apply extends_insert_truthy; reflexivity ]] ].
Qed.

#[global] Instance extends_stable : Stable this extends.
Proof.
  split.
  - exact _.
  - apply extends_log.
  - apply getOnChainConfig_extends.
  - intros s cfg _ N. now apply extends_set_entryPointContract.
  - intros k s. now apply extends_insert_truthy.
Qed.

Lemma run_calls_extends calls s : extends s (run_calls this calls s).
Proof. apply run_calls_stable. exact _. Qed.

End Growth.

(** *** Configurations stay valid *)

#[global] Instance keeps_well_formed_preorder : PreOrder keeps_well_formed.
Proof. split; unfold keeps_well_formed; [intros s; auto|intros s1 s2 s3; auto]. Qed.

Lemma well_formed_log e s : well_formed s -> well_formed (log e s).
Proof. intros W. exact W. Qed.

Lemma well_formed_no_contract s :
  well_formed s -> _onChainConfig s = None -> _entryPointContract s = None.
Proof.
  intros (_ & _ & W) N. destruct (_entryPointContract s) as [a|] eqn:E; [|reflexivity].
  destruct (W a eq_refl) as (c & C & _). congruence.
Qed.

Lemma well_formed_set_onChainConfig c s :
  well_formed s -> _onChainConfig s = None -> valid_config c ->
  well_formed (set_onChainConfig c s).
Proof.
  intros W N V. pose proof (well_formed_no_contract s W N) as E.
  destruct W as (W1 & W2 & W3). split; [|split]; simpl_state.
  - intros c' [= <-]. exact V.
  - exact W2.
  - intros a Ha. congruence.
Qed.

Lemma well_formed_insert_config k c s :
  well_formed s -> valid_config c ->
  well_formed (set_StorageCache (insert k (CachedConfig c)) s).
Proof.
  intros (W1 & W2 & W3) V. split; [exact W1|]. split; [|exact W3].
  simpl_state. intros k' c'. destruct (decide (k = k')) as [->|Ne].
  - rewrite lookup_insert_eq. intros [= <-]. exact V.
  - rewrite lookup_insert_ne by assumption. apply W2.
Qed.

Lemma well_formed_insert_bool k b s :
  well_formed s -> well_formed (set_StorageCache (insert k (CachedBool b)) s).
Proof.
  intros (W1 & W2 & W3). split; [exact W1|]. split; [|exact W3].
  simpl_state. intros k' c'. destruct (decide (k = k')) as [->|Ne].
  - rewrite lookup_insert_eq. discriminate.
  - rewrite lookup_insert_ne by assumption. apply W2.
Qed.

Section Validity.
Context `{Collaborators} (this : SoulWallet).

(** [getOnChainConfig] keeps the state well formed and returns valid
    configurations only. *)
Lemma getOnChainConfig_well_formed w s r s' :
  well_formed s -> getOnChainConfig this w s = (r, s') ->
  well_formed s' /\ (forall c, r = Normal (Ok c) -> valid_config c).
Proof.
  intros W E. unfold getOnChainConfig in E. unfold_M.
  destruct (_onChainConfig s) as [c0|] eqn:M.
  { injection E as <- <-. split; [exact W|]. intros c [= <-].
    destruct W as (W1 & _). auto. }
  destruct (provider_getNetwork w) as [n|t]; cbn in E;
    [|injection E as <- <-; split; [exact W|discriminate]].
  destruct (Number_isSafeInteger n) eqn:Safe;
    [|injection E as <- <-; split; [exact W|discriminate]].
  destruct (Z.eqb_spec n 0) as [->|Nz];
    [injection E as <- <-; split; [exact W|discriminate]|].
  simpl_state.
  destruct (StorageCache s !! onChainConfig_key (soulWalletFactoryAddress this) n)
    as [[c|b]|] eqn:Hit; cbn in E.
  { injection E as <- <-.
    assert (V : valid_config c) by (destruct W as (_ & W2 & _); eauto).
    split; [|intros c' [= <-]; exact V].
    apply (well_formed_set_onChainConfig c (log _ s)); auto. }
  all: assert (W' : forall s0 : State,
      _onChainConfig s0 = None -> well_formed s0 ->
      forall l ep, well_formed
        (set_StorageCache
           (insert (onChainConfig_key (soulWalletFactoryAddress this) n)
              (CachedConfig {| chainId := n; entryPoint := ep; soulWalletLogic := l |}))
           s0))
    by (intros s0 _ W0 l ep; apply well_formed_insert_config; [exact W0|split; assumption]).
  all: run_cases E; inversion E; subst; clear E;
    (split; [|try discriminate]);
    try exact W;
    try (apply well_formed_log, W'; [exact M|exact W]);
    try (intros c' [= <-]; split; assumption);
    try (apply (well_formed_set_onChainConfig _ (log _ (set_StorageCache _ _)));
         [apply well_formed_log, W'; [exact M|exact W] | exact M | split; assumption]).
Qed.

#[global] Instance keeps_well_formed_stable : Stable this keeps_well_formed.
Proof.
  split.
  - exact _.
  - intros e s W. exact W.
  - intros w s W. destruct (getOnChainConfig this w s) as [r s'] eqn:E.
    exact (proj1 (getOnChainConfig_well_formed w s r s' W E)).
  - intros s cfg M N (W1 & W2 & W3). split; [exact W1|]. split; [exact W2|].
    simpl_state. intros a [= <-]. eauto.
  - intros k s W. now apply well_formed_insert_bool.
Qed.

Lemma fresh_instance_well_formed t : well_formed (fresh_instance ∅ t).
Proof.
  split; [|split]; cbn.
  - discriminate.
  - intros k c. rewrite lookup_empty. discriminate.
  - discriminate.
Qed.

End Validity.

(** ** Submission *)

Section Submission.
Context `{Collaborators} (this : SoulWallet).

Lemma userOpHash_memo w userOp s c :
  _onChainConfig s = Some c ->
  userOpHash this w userOp s
  = (match getUserOpHash userOp (entryPoint c) (chainId c) with
     | Resolved h => Normal (Ok h)
     | Rejected t => Abrupt t
     end, s).
Proof.
  intros M. unfold userOpHash. unfold_M.
  rewrite (getOnChainConfig_memo this w s c M).
  destruct (getUserOpHash _ _ _); reflexivity.
Qed.

(** C3: when the bundler accepts an operation, [sendUserOperation]
    computes the hash locally and compares the two in lower case. When they
    differ, letter case aside, it throws: it completes abruptly with the
    error [userOpHash !== userOPHashLocal], after the submission request, and
    returns neither [Ok] nor [Err]. When they differ in letter case only, it
    returns [Ok true]. It completes normally only for hashes that agree. *)
Theorem sendUserOperation_hash_mismatch_throws w userOp s cfg s1 h hLocal :
  getOnChainConfig this w s = (Normal (Ok cfg), s1) ->
  eth_sendUserOperation w (entryPoint cfg) userOp = Resolved (Ok h) ->
  getUserOpHash userOp (entryPoint cfg) (chainId cfg) = Resolved hLocal ->
  let s2 := log (eth_sendUserOperation_request (entryPoint cfg) userOp) s1 in
  (toLowerCase h <> toLowerCase hLocal ->
   sendUserOperation this w userOp s
   = (Abrupt (ThrownError (mkError "userOpHash !== userOPHashLocal")), s2)) /\
  (toLowerCase h = toLowerCase hLocal ->
   sendUserOperation this w userOp s = (Normal (Ok true), s2)) /\
  (forall r s', sendUserOperation this w userOp s = (Normal r, s') ->
   toLowerCase h = toLowerCase hLocal).
Proof.
  intros C B L s2.
  assert (E : sendUserOperation this w userOp s
    = if String.eqb (toLowerCase h) (toLowerCase hLocal)
      then (Normal (Ok true), s2)
      else (Abrupt (ThrownError (mkError "userOpHash !== userOPHashLocal")), s2)).
  { unfold sendUserOperation. unfold_M. rewrite C, B.
    rewrite (userOpHash_memo w userOp _ cfg), L.
    - destruct (String.eqb (toLowerCase h) (toLowerCase hLocal)); reflexivity.
    - simpl_state. eauto using getOnChainConfig_Ok_memo. }
  rewrite E.
  destruct (String.eqb_spec (toLowerCase h) (toLowerCase hLocal)) as [Eq|Ne].
  - split; [contradiction|]. split; auto.
  - split; [reflexivity|]. split; [contradiction|]. discriminate.
Qed.

(** X6: when the bundler's hash and the local hash agree up to letter case,
    [sendUserOperation] returns [Ok true] after the submission request. *)
Lemma sendUserOperation_hash_match w userOp s cfg s1 h hLocal :
  getOnChainConfig this w s = (Normal (Ok cfg), s1) ->
  eth_sendUserOperation w (entryPoint cfg) userOp = Resolved (Ok h) ->
  getUserOpHash userOp (entryPoint cfg) (chainId cfg) = Resolved hLocal ->
  toLowerCase h = toLowerCase hLocal ->
  sendUserOperation this w userOp s
  = (Normal (Ok true),
     log (eth_sendUserOperation_request (entryPoint cfg) userOp) s1).
Proof.
  intros C B L E. unfold sendUserOperation. unfold_M. rewrite C, B.
  rewrite (userOpHash_memo w userOp _ cfg), L.
  - rewrite E, String.eqb_refl. reflexivity.
  - simpl_state. eauto using getOnChainConfig_Ok_memo.
Qed.

(** Success is reported only for an accepted operation whose two hashes
    agree. *)
Lemma sendUserOperation_Ok_inv w userOp s b s' :
  sendUserOperation this w userOp s = (Normal (Ok b), s') ->
  exists cfg h hLocal,
    eth_sendUserOperation w (entryPoint cfg) userOp = Resolved (Ok h) /\
    getUserOpHash userOp (entryPoint cfg) (chainId cfg) = Resolved hLocal /\
    toLowerCase h = toLowerCase hLocal /\ b = true.
Proof.
  unfold sendUserOperation. unfold_M. intros E.
  destruct (getOnChainConfig this w s) as [[[cfg|e]|t] s1] eqn:C; try discriminate E.
  destruct (eth_sendUserOperation w (entryPoint cfg) userOp) as [[h|e]|t] eqn:B;
    try discriminate E.
  rewrite (userOpHash_memo w userOp _ cfg) in E
    by (simpl_state; eauto using getOnChainConfig_Ok_memo).
  destruct (getUserOpHash userOp (entryPoint cfg) (chainId cfg)) as [hLocal|t] eqn:L;
    try discriminate E.
  destruct (String.eqb_spec (toLowerCase h) (toLowerCase hLocal)) as [Eq|Ne];
    cbn in E; try discriminate E.
  injection E as <- _. eauto 10.
Qed.

End Submission.

(** ** Deployment status *)

Section Deployment.
Context `{Collaborators} (this : SoulWallet).

Lemma walletDeployed_cached w a s cfg s1 :
  getOnChainConfig this w s = (Normal (Ok cfg), s1) ->
  truthy (StorageCache s1 !! walletDeployed_key a (chainId cfg)) = true ->
  walletDeployed this w a s = (Normal (Ok true), s1).
Proof.
  intros C T. unfold walletDeployed. unfold_M. rewrite C, T. reflexivity.
Qed.

Lemma walletDeployed_query w a s cfg s1 :
  getOnChainConfig this w s = (Normal (Ok cfg), s1) ->
  truthy (StorageCache s1 !! walletDeployed_key a (chainId cfg)) = false ->
  walletDeployed this w a s
  = match provider_getCode w a with
    | Resolved code =>
        if String.eqb code "0x"
        then (Normal (Ok false), log (provider_getCode_request a) s1)
        else (Normal (Ok true),
              set_StorageCache
                (insert (walletDeployed_key a (chainId cfg)) (CachedBool true))
                (log (provider_getCode_request a) s1))
    | Rejected (ThrownError e) =>
        (Normal (Err e), log (provider_getCode_request a) s1)
    | Rejected (ThrownErr _) =>
        (Normal (Err (mkError "unknown error")), log (provider_getCode_request a) s1)
    end.
Proof.
  intros C T. unfold walletDeployed. unfold_M. rewrite C, T.
  destruct (provider_getCode w a) as [code|[e|e]]; try reflexivity.
  destruct (String.eqb code "0x"); reflexivity.
Qed.

End Deployment.

Section DeploymentCache.
Context `{Collaborators} (this : SoulWallet).

(** Once the instance holds its configuration and the cache entry of a
    wallet is truthy, [walletDeployed] answers [true] without any request,
    after any further calls. *)
Lemma walletDeployed_stays_cached a cfg s calls w :
  _onChainConfig s = Some cfg ->
  truthy (StorageCache s !! walletDeployed_key a (chainId cfg)) = true ->
  let s2 := run_calls this calls s in
  walletDeployed this w a s2 = (Normal (Ok true), s2).
Proof.
  intros M T s2.
  destruct (run_calls_extends this calls s) as (Hm & _ & Ht & _). fold s2 in Hm, Ht.
  apply (walletDeployed_cached this w a s2 cfg s2); auto.
  apply getOnChainConfig_memo. auto.
Qed.

(** C10: [walletDeployed] records positive answers only. With the
    configuration resolved and no truthy cache entry for the wallet, a call
    asks the chain for the code; it writes the entry [true] exactly when the
    code is not empty, and otherwise (empty code, or a failed request) leaves
    [StorageCache] as it is, so that the next call asks again. Once the code
    was seen, every later call, after any other calls of the API and whatever
    the chain answers, returns [true] and issues no request. *)
Theorem walletDeployed_caches_positive_only w a s cfg s1 :
  getOnChainConfig this w s = (Normal (Ok cfg), s1) ->
  truthy (StorageCache s1 !! walletDeployed_key a (chainId cfg)) = false ->
  exists r s',
    walletDeployed this w a s = (r, s') /\
    trace s' = (trace s1 ++ [provider_getCode_request a])%list /\
    _onChainConfig s' = Some cfg /\
    match provider_getCode w a with
    | Resolved code =>
        if String.eqb code "0x" then
          r = Normal (Ok false) /\ StorageCache s' = StorageCache s1 /\
          (forall w', exists r' s'',
             walletDeployed this w' a s' = (r', s'') /\
             trace s'' = (trace s' ++ [provider_getCode_request a])%list)
        else
          r = Normal (Ok true) /\
          StorageCache s'
            = <[walletDeployed_key a (chainId cfg) := CachedBool true]> (StorageCache s1) /\
          (forall calls w',
             let s2 := run_calls this calls s' in
             walletDeployed this w' a s2 = (Normal (Ok true), s2))
    | Rejected t =>
        (exists e, r = Normal (Err e)) /\ StorageCache s' = StorageCache s1
    end.
Proof.
  intros C T. pose proof (getOnChainConfig_Ok_memo this _ _ _ _ C) as M.
  rewrite (walletDeployed_query this w a s cfg s1 C T).
  destruct (provider_getCode w a) as [code|[e|e]].
  - destruct (String.eqb code "0x").
    + do 2 eexists. split; [reflexivity|]. simpl_state. repeat split; auto.
      intros w'. 
      rewrite (walletDeployed_query this w' a _ cfg (log (provider_getCode_request a) s1));
        [| apply getOnChainConfig_memo; exact M | exact T].
      destruct (provider_getCode w' a) as [code'|[e|e]]; [destruct (String.eqb code' "0x")|..];
        do 2 eexists; split; reflexivity.
    + do 2 eexists. split; [reflexivity|]. simpl_state. repeat split; auto.
      intros calls w'. apply walletDeployed_stays_cached with (cfg := cfg).
      * exact M.
      * simpl_state. now rewrite lookup_insert_eq.
  - do 2 eexists. split; [reflexivity|]. simpl_state. repeat split; eauto.
  - do 2 eexists. split; [reflexivity|]. simpl_state. repeat split; eauto.
Qed.

End DeploymentCache.

(** ** Prefund *)

Section Prefund.
Context `{Collaborators} (this : SoulWallet).

Lemma getEntryPointContract_memo w s cfg :
  _onChainConfig s = Some cfg ->
  getEntryPointContract this w s
  = (Normal (Ok (default (entryPoint cfg) (_entryPointContract s))),
     match _entryPointContract s with
     | Some _ => s
     | None => set_entryPointContract (entryPoint cfg) s
     end).
Proof.
  intros M. unfold getEntryPointContract. unfold_M.
  destruct (_entryPointContract s); [reflexivity|].
  now rewrite (getOnChainConfig_memo this w s cfg M).
Qed.



(** A zero in one of the three gas fields fails the call before any
    request is made. *)
Lemma preFund_zero_gas_Err w u s :
  BigInt (maxFeePerGas u) = Some 0%Z \/
  BigInt (preVerificationGas u) = Some 0%Z \/
  BigInt (verificationGasLimit u) = Some 0%Z ->
  exists e,
    preFund this w u s = (Normal (Err e), s) /\
    (is_Some (BigInt (maxFeePerGas u)) -> is_Some (BigInt (preVerificationGas u)) ->
     is_Some (BigInt (verificationGasLimit u)) -> is_Some (BigInt (callGasLimit u)) ->
     e = mkError validation_message).
Proof.
  intros Z0. unfold preFund. unfold_M.
  destruct (BigInt (maxFeePerGas u)) as [mf|] eqn:P1;
    [|eexists; split; [reflexivity|intros [? ?]; discriminate]].
  destruct (BigInt (preVerificationGas u)) as [pvg|] eqn:P2;
    [|eexists; split; [reflexivity|intros _ [? ?]; discriminate]].
  destruct (BigInt (verificationGasLimit u)) as [vgl|] eqn:P3;
    [|eexists; split; [reflexivity|intros _ _ [? ?]; discriminate]].
  destruct (BigInt (callGasLimit u)) as [cgl|] eqn:P4;
    [|eexists; split; [reflexivity|intros _ _ _ [? ?]; discriminate]].
  assert (Hz : ((mf =? 0)%Z || (pvg =? 0)%Z || (vgl =? 0)%Z) = true).
  { destruct Z0 as [E|[E|E]]; injection E as ->; cbn;
      rewrite ?orb_true_r; reflexivity. }
  rewrite Hz. eexists. split; reflexivity.
Qed.


End Prefund.

(** ** Gas estimation *)

Section Estimation.
Context `{Collaborators} (this : SoulWallet).

Lemma estimate_and_update_Ok w cfg s u b s' u' :
  estimate_and_update w cfg (s, u) = (Normal (Ok b), (s', u')) ->
  exists g cgl new,
    eth_estimateUserOperationGas w (entryPoint cfg) u = Resolved (Ok g) /\
    BigInt (callGasLimit u) = Some cgl /\
    (Z.even cgl = true -> BigInt (gas_callGasLimit g) = Some new) /\
    GasOverhead_calcGasOverhead (with_estimate g cgl new u) = Resolved u' /\
    s' = log (eth_estimateUserOperationGas_request (entryPoint cfg) u) s /\
    b = true.
Proof.
  unfold estimate_and_update. unfold_M. cbn. intros E.
  destruct (eth_estimateUserOperationGas w (entryPoint cfg) u) as [[g|e]|t] eqn:B;
    cbn in E; try discriminate E.
  destruct (BigInt (callGasLimit u)) as [cgl|] eqn:P; cbn in E; try discriminate E.
  rewrite rem2_even in E.
  destruct (Z.even cgl) eqn:Ev.
  - destruct (BigInt (gas_callGasLimit g)) as [new|] eqn:Pn; cbn in E; try discriminate E.
    exists g, cgl, new. unfold with_estimate. rewrite Ev.
    destruct (GasOverhead_calcGasOverhead _) as [fin|t] eqn:G in E; cbn in E;
      try discriminate E.
    injection E as <- <- <-. rewrite G. auto 10.
  - cbn in E. exists g, cgl, 0%Z. unfold with_estimate. rewrite Ev.
    destruct (GasOverhead_calcGasOverhead _) as [fin|t] eqn:G in E; cbn in E;
      try discriminate E.
    injection E as <- <- <-. rewrite G. repeat split; auto. discriminate.
Qed.


(** What the bundler's answer does to the operation: the operation [sent]
    was submitted, [u] is the caller's operation, which differs from [sent]
    in the signature at most. *)
Lemma estimate_and_update_fields w cfg s sent u b s' fin :
  callGasLimit sent = callGasLimit u ->
  estimate_and_update w cfg (s, sent) = (Normal (Ok b), (s', fin)) ->
  exists g cgl new,
    let mid := with_estimate g cgl new sent in
    let new' := if (Z.rem new 2 =? 1)%Z then (new + 1)%Z else new in
    eth_estimateUserOperationGas w (entryPoint cfg) sent = Resolved (Ok g) /\
    BigInt (callGasLimit u) = Some cgl /\
    preVerificationGas mid = gas_preVerificationGas g /\
    verificationGasLimit mid = gas_verificationGasLimit g /\
    (Z.odd cgl = true -> callGasLimit mid = callGasLimit u) /\
    (Z.even cgl = true ->
       BigInt (gas_callGasLimit g) = Some new /\
       callGasLimit mid = Str ("0x" ++ toString16 new') /\
       ((0 <= new)%Z ->
          new' = even_up new /\ Z.even new' = true /\
          BigInt (callGasLimit mid) = Some (even_up new))) /\
    GasOverhead_calcGasOverhead mid = Resolved fin.
Proof.
  intros Hc R.
  apply estimate_and_update_Ok in R as (g & cgl & new & B & P & Pn & G & _ & _).
  exists g, cgl, new. cbv zeta. rewrite Hc in P. unfold with_estimate.
  split; [exact B|]. split; [exact P|].
  split; [destruct (Z.even cgl); reflexivity|].
  split; [destruct (Z.even cgl); reflexivity|].
  split; [intros Od; rewrite <- Z.negb_odd, Od; exact Hc|].
  split; [|exact G].
  intros Ev. rewrite Ev. split; [auto|]. split; [reflexivity|].
  intros Hn. rewrite rem2_odd by assumption.
  split; [reflexivity|]. split; [apply even_up_even|].
  apply BigInt_hex. unfold even_up. destruct (Z.odd new); lia.
Qed.

(** C4: whenever [estimateUserOperationGas] returns [Ok], the bundler has
    answered the estimation request for the operation [sent] (the caller's
    operation, with the placeholder signature when its own was empty) with
    some gas values [g], and the operation [mid] that is then handed to
    [GasOverhead.calcGasOverhead] has [g]'s [preVerificationGas] and
    [verificationGasLimit]; its [callGasLimit] is the caller's when that one
    is odd, and for an even one it is ['0x' + new'.toString(16)] where [new']
    is the bundler's value plus one when that value is odd: for a value
    [new >= 0] this is [new] rounded up to the next even number. *)
Theorem estimateUserOperationGas_overwrites w hook s u b s' u' :
  estimateUserOperationGas this w hook (s, u) = (Normal (Ok b), (s', u')) ->
  exists cfg sent g cgl new fin,
    let mid := with_estimate g cgl new sent in
    let new' := if (Z.rem new 2 =? 1)%Z then (new + 1)%Z else new in
    (if String.eqb (signature u) "0x"
     then exists sg, sent = with_signature sg u
     else sent = u) /\
    eth_estimateUserOperationGas w (entryPoint cfg) sent = Resolved (Ok g) /\
    BigInt (callGasLimit u) = Some cgl /\
    preVerificationGas mid = gas_preVerificationGas g /\
    verificationGasLimit mid = gas_verificationGasLimit g /\
    (Z.odd cgl = true -> callGasLimit mid = callGasLimit u) /\
    (Z.even cgl = true ->
       BigInt (gas_callGasLimit g) = Some new /\
       callGasLimit mid = Str ("0x" ++ toString16 new') /\
       ((0 <= new)%Z ->
          new' = even_up new /\ Z.even new' = true /\
          BigInt (callGasLimit mid) = Some (even_up new))) /\
    GasOverhead_calcGasOverhead mid = Resolved fin /\
    u' = (if String.eqb (signature u) "0x" then with_signature "0x" fin else fin).
Proof.
  intros E. unfold estimateUserOperationGas in E. unfold_M. cbn [fst snd] in E.
  match type of E with
  | context [match ?inv with Some e => _ | None => _ end] =>
      destruct inv as [e|]; [discriminate E|]
  end.
  cbn [fst snd] in E.
  destruct (getOnChainConfig this w s) as [[[cfg|e]|t] s1] eqn:C;
    cbn [fst snd] in E; try discriminate E.
  destruct (String.eqb (signature u) "0x") eqn:Sg; cbn [fst snd] in E.
  - destruct (packUserOpSignature w _ _ hook s1) as [[[sg|e]|t] s2] eqn:Pk;
      cbn [fst snd] in E; try discriminate E.
    destruct (estimate_and_update w cfg (s2, with_signature sg u)) as [c [s3 u3]] eqn:R.
    cbn [fst snd] in E. injection E as -> _ <-.
    destruct (estimate_and_update_fields w cfg s2 (with_signature sg u) u b s3 u3
                eq_refl R) as (g & cgl & new & F).
    exists cfg, (with_signature sg u), g, cgl, new, u3. cbv zeta in *.
    split; [eauto|]. repeat (split; [apply F|]). reflexivity.
  - destruct (estimate_and_update w cfg (s1, u)) as [c [s3 u3]] eqn:R.
    cbn [fst snd] in E. injection E as -> _ <-.
    destruct (estimate_and_update_fields w cfg s1 u u b s3 u3 eq_refl R)
      as (g & cgl & new & F).
    exists cfg, u, g, cgl, new, u3. cbv zeta in *.
    split; [reflexivity|]. repeat (split; [apply F|]). reflexivity.
Qed.

(** C5: a call of [estimateUserOperationGas] that is entered with the
    empty signature ['0x'] leaves the operation with the signature ['0x'],
    however it completes: with [Ok], with [Err], or abruptly with a thrown
    value. *)
Theorem estimateUserOperationGas_restores_signature w hook s u c s' u' :
  signature u = "0x" ->
  estimateUserOperationGas this w hook (s, u) = (c, (s', u')) ->
  signature u' = "0x".
Proof.
  intros Sg E. unfold estimateUserOperationGas in E. unfold_M. cbn [fst snd] in E.
  rewrite Sg in E. cbn [String.eqb Ascii.eqb Bool.eqb] in E.
  match type of E with
  | context [match ?inv with Some e => _ | None => _ end] =>
      destruct inv as [e|]; [injection E as _ _ <-; exact Sg|]
  end.
  cbn [fst snd] in E.
  destruct (getOnChainConfig this w s) as [[[cfg|e]|t] s1] eqn:C;
    cbn [fst snd] in E; try (injection E as _ _ <-; exact Sg).
  destruct (packUserOpSignature w _ _ hook s1) as [[[sg|e]|t] s2] eqn:Pk;
    cbn [fst snd] in E; try (injection E as _ _ <-; reflexivity).
  destruct (estimate_and_update w cfg (s2, with_signature sg u)) as [c3 [s3 u3]] eqn:R.
  cbn [fst snd] in E. injection E as _ _ <-. reflexivity.
Qed.

End Estimation.

Ltac case_overhead :=
  match goal with
  | |- context [GasOverhead_calcGasOverhead ?x] =>
      destruct (GasOverhead_calcGasOverhead x)
  end.

Section Placeholder.
Context `{Collaborators} (this : SoulWallet).

(** Whatever the bundler answers, the estimation request is the only
    request of [estimate_and_update]. *)
Lemma estimate_and_update_trace w cfg s u :
  fst (snd (estimate_and_update w cfg (s, u)))
  = log (eth_estimateUserOperationGas_request (entryPoint cfg) u) s.
Proof.
  unfold estimate_and_update. unfold_M. cbn.
  destruct (eth_estimateUserOperationGas w (entryPoint cfg) u) as [[g|e]|t];
    cbn; try reflexivity.
  destruct (BigInt (callGasLimit u)) as [cgl|]; cbn; try reflexivity.
  destruct (Z.rem cgl 2 =? 0)%Z; cbn.
  - destruct (BigInt (gas_callGasLimit g)); cbn; try reflexivity.
    case_overhead; reflexivity.
  - case_overhead; reflexivity.
Qed.

(** X7: in semi-valid mode without guard-hook input, the operation that the
    bundler is asked about carries the packed placeholder signature, and the
    caller gets the operation back with the empty one. *)
Lemma estimateUserOperationGas_sends_placeholder w s u cfg s1 sg :
  signature u = "0x" ->
  getOnChainConfig this w s = (Normal (Ok cfg), s1) ->
  Signature_packSignature semiValid_signature (hex semiValid_validationData) None
    = Resolved sg ->
  exists c s' u',
    estimateUserOperationGas this w None (s, u) = (c, (s', u')) /\
    s' = log (eth_estimateUserOperationGas_request (entryPoint cfg)
                (with_signature sg u)) s1 /\
    signature u' = "0x".
Proof.
  intros Sg C P.
  destruct (estimateUserOperationGas this w None (s, u)) as [c [s' u']] eqn:E.
  exists c, s', u'. split; [reflexivity|].
  revert E. unfold estimateUserOperationGas, packUserOpSignature. unfold_M.
  cbn [fst snd]. rewrite Sg, C. cbn [fst snd String.eqb Ascii.eqb Bool.eqb].
  unfold hex in P. rewrite P. cbn [fst snd].
  pose proof (estimate_and_update_trace w cfg s1 (with_signature sg u)) as T.
  destruct (estimate_and_update w cfg (s1, with_signature sg u)) as [c3 [s3 u3]].
  cbn [fst snd] in *. intros [= _ <- <-]. split; [exact T|reflexivity].
Qed.

End Placeholder.

(** ** Building an execute operation *)

Section Builder.
Context `{Collaborators} (this : SoulWallet).

Lemma sum_gasLimit_state txs acc s c s' :
  sum_gasLimit txs acc s = (c, s') -> s' = s.
Proof.
  revert acc. induction txs as [|tx txs IH]; intros acc; cbn; unfold_M.
  - now intros [= _ <-].
  - destruct (gasLimit tx) as [g|]; [|now intros [= _ <-]].
    destruct (BigInt g); [apply IH|now intros [= _ <-]].
Qed.

Lemma sum_gasLimit_omitted txs acc s v s' :
  sum_gasLimit txs acc s = (Normal v, s') ->
  Exists (fun tx => gasLimit tx = None) txs -> v = 0%Z.
Proof.
  intros E Ex. revert acc E. induction Ex as [tx txs N|tx txs _ IH]; intros acc; cbn; unfold_M.
  - rewrite N. now intros [= <- _].
  - destruct (gasLimit tx) as [g|]; [|now intros [= <- _]].
    destruct (BigInt g); [apply IH|discriminate].
Qed.

Lemma sum_gasLimit_all txs ns acc s :
  Forall2 tx_gasLimit txs ns ->
  sum_gasLimit txs acc s = (Normal (acc + Zsum ns)%Z, s).
Proof.
  intros F. revert acc. induction F as [|tx n txs ns (g & G & P) _ IH]; intros acc; cbn; unfold_M.
  - now rewrite Z.add_0_r.
  - rewrite G, P, IH. unfold Zsum. cbn [foldr]. f_equal. f_equal. lia.
Qed.

Lemma hex_is_zero n : String.eqb (hex n) "0x0" = (n =? 0)%Z.
Proof.
  unfold hex. destruct (Z.eqb_spec n 0) as [->|Ne]; [reflexivity|].
  apply String.eqb_neq. intros E. apply Ne, toString16_0.
  now apply (String.app_inj "0x") in E.
Qed.

Lemma collect_batch_Ok txs b s b' s' :
  collect_batch txs b s = (Normal (Ok b'), s') ->
  s' = s /\
  exists vs,
    Forall2 (fun tx v => tx_value tx = Some v) txs vs /\
    batch_to b' = (batch_to b ++ map to txs)%list /\
    batch_value b' = (batch_value b ++ map hex vs)%list /\
    batch_data b' = (batch_data b ++ map tx_data txs)%list /\
    hasValue b' = hasValue b || existsb (fun v => negb (v =? 0)%Z) vs.
Proof.
  revert b. induction txs as [|tx txs IH]; intros b; cbn; unfold_M.
  - intros [= <- <-]. split; [reflexivity|]. exists []. cbn.
    rewrite !app_nil_r, orb_false_r. auto.
  - destruct (isErr (TypeGuard_onlyAddress (to tx))); [discriminate|].
    assert (K : forall v, tx_value tx = Some v ->
      (if isErr (TypeGuard_onlyBytes (tx_data tx))
       then fun s0 : State => (Normal (Err (mkError ("invalid data: " ++ tx_data tx))), s0)
       else collect_batch txs
         {| batch_to := batch_to b ++ [to tx];
            batch_value := batch_value b ++ [hex v];
            batch_data := batch_data b ++ [tx_data tx];
            hasValue := if negb (String.eqb (hex v) "0x0") then true else hasValue b |}) s
      = (Normal (Ok b'), s') ->
      s' = s /\
      exists vs,
        Forall2 (fun tx v => tx_value tx = Some v) (tx :: txs) vs /\
        batch_to b' = (batch_to b ++ to tx :: map to txs)%list /\
        batch_value b' = (batch_value b ++ map hex vs)%list /\
        batch_data b' = (batch_data b ++ tx_data tx :: map tx_data txs)%list /\
        hasValue b' = hasValue b || existsb (fun v => negb (v =? 0)%Z) vs).
    { intros v V E. destruct (isErr (TypeGuard_onlyBytes (tx_data tx))); [discriminate|].
      apply IH in E as (-> & vs & F & T & Vs & D & Hv). cbn in *.
      split; [reflexivity|]. exists (v :: vs). cbn.
      rewrite T, Vs, D, Hv, <- !app_assoc, hex_is_zero. cbn.
      repeat split; auto.
      destruct (v =? 0)%Z, (hasValue b); reflexivity. }
    unfold tx_value, tx_data in *. destruct (value tx) as [v|].
    + destruct (BigInt v) as [n|]; [|discriminate]. apply (K n). reflexivity.
    + apply (K 0%Z). reflexivity.
Qed.


Lemma select_call_inv n b s c s' :
  select_call n b s = (Normal c, s') ->
  if (1 <? n)%nat then
    if hasValue b
    then c = executeBatch_values (batch_to b) (batch_value b) (batch_data b)
    else c = executeBatch (batch_to b) (batch_data b)
  else
    exists t v d, hd_error (batch_to b) = Some t /\ hd_error (batch_value b) = Some v /\
      hd_error (batch_data b) = Some d /\ c = execute t v d.
Proof.
  unfold select_call. unfold_M.
  destruct (1 <? n)%nat; [destruct (hasValue b); now intros [= <- _]|].
  destruct (batch_to b) as [|t ?]; [discriminate|].
  destruct (batch_value b) as [|v ?]; [discriminate|].
  destruct (batch_data b) as [|d ?]; [discriminate|].
  intros [= <- _]. eauto 10.
Qed.

(** What a successful [fromTransaction] has computed on its way. *)
Lemma fromTransaction_Ok_inv w mf mpf from txs nk s op s' :
  fromTransaction this w mf mpf from txs nk s = (Normal (Ok op), s') ->
  txs <> [] /\
  exists s1 total b call,
    sum_gasLimit txs 0 s1 = (Normal total, s1) /\
    (exists s2, collect_batch txs empty_batch s2 = (Normal (Ok b), s2)) /\
    (exists s3, select_call (length txs) b s3 = (Normal call, s3)) /\
    encodeFunctionData call = Resolved (callData op) /\
    callGasLimit op
      = Str (hex (if (Z.rem total 2 =? 1)%Z then total + 1 else total)%Z) /\
    sender op = from /\ initCode op = "0x" /\ signature op = "0x" /\
    paymasterAndData op = "0x".
Proof.
  unfold fromTransaction. fold empty_batch. intros E.
  assert (Ne : txs <> []) by (intros ->; discriminate E).
  split; [exact Ne|].
  destruct (length txs =? 0)%nat eqn:L in E;
    [apply Nat.eqb_eq, length_zero_iff_nil in L; contradiction|].
  destruct (isErr (TypeGuard_onlyAddress from)); [discriminate|].
  unfold mbind, M_bind, mret, M_ret in E.
  destruct (walletDeployed this w from s) as [[[dep|e]|t] s1]; try discriminate E.
  destruct (sum_gasLimit txs 0 s1) as [[total|t] s1'] eqn:G; try discriminate E.
  pose proof (sum_gasLimit_state _ _ _ _ _ G) as ->.
  destruct (getNonce this w from nk s1) as [[[nonce_|e]|t] s2]; try discriminate E.
  destruct (collect_batch txs empty_batch s2) as [[[b|e]|t] s2'] eqn:B; try discriminate E.
  destruct (collect_batch_Ok _ _ _ _ _ B) as [-> _].
  destruct (select_call (length txs) b s2) as [[call|t] s3] eqn:Sel; try discriminate E.
  assert (s3 = s2) as ->.
  { revert Sel. unfold select_call. unfold_M.
    repeat case_match; intros [= _ <-]; reflexivity. }
  unfold settle, BigInt_ in E.
  destruct (encodeFunctionData call) as [cd|t] eqn:Enc; try discriminate E.
  destruct (BigInt (Str mf)); try discriminate E.
  destruct (BigInt (Str mpf)); try discriminate E.
  injection E as <- <-. cbn.
  exists s1, total, b, call. eauto 12.
Qed.

(** C9: when [fromTransaction] returns an operation, its [callGasLimit] is
    ['0x' + n.toString(16)] where [n] is the sum of the gas limits rounded up
    to the next even number if every transaction supplies a gas limit (the
    limits being unsigned, the sum is not negative), and it is ['0x0'] if
    some transaction omits its gas limit. *)
Theorem fromTransaction_callGasLimit w mf mpf from txs nk s op s' :
  fromTransaction this w mf mpf from txs nk s = (Normal (Ok op), s') ->
  (forall ns, Forall2 tx_gasLimit txs ns -> (0 <= Zsum ns)%Z ->
     callGasLimit op = Str (hex (even_up (Zsum ns))) /\
     BigInt (callGasLimit op) = Some (even_up (Zsum ns)) /\
     Z.even (even_up (Zsum ns)) = true /\
     (Zsum ns <= even_up (Zsum ns) <= Zsum ns + 1)%Z) /\
  (Exists (fun tx => gasLimit tx = None) txs ->
     callGasLimit op = Str "0x0" /\ BigInt (callGasLimit op) = Some 0%Z).
Proof.
  intros E.
  apply fromTransaction_Ok_inv in E
    as (_ & s1 & total & b & call & G & _ & _ & _ & Cg & _).
  split.
  - intros ns F Pos. rewrite (sum_gasLimit_all _ _ 0 s1 F) in G.
    injection G as <-. rewrite Z.add_0_l in Cg.
    rewrite rem2_odd in Cg by assumption.
    assert (B : (Zsum ns <= even_up (Zsum ns) <= Zsum ns + 1)%Z)
      by (unfold even_up; destruct (Z.odd (Zsum ns)); lia).
    split; [exact Cg|]. split; [rewrite Cg; apply BigInt_hex; lia|].
    split; [apply even_up_even|exact B].
  - intros Ex. rewrite (sum_gasLimit_omitted _ _ _ _ _ G Ex) in Cg.
    rewrite Cg. split; reflexivity.
Qed.

(** C8: [fromTransaction] fails with [Err] for the empty list. When it
    returns an operation for [txs], whose values read as the bigints [vs] (an
    absent value reads as zero), its [callData] is the encoding of exactly one
    call: [execute(to, value, data)] for a single transaction;
    [executeBatch(address[],bytes[])] for several transactions whose values
    are all zero; [executeBatch(address[],uint256[],bytes[])] for several
    transactions of which one has a non-zero value. *)
Theorem fromTransaction_encoding w mf mpf from txs nk s :
  fromTransaction this w mf mpf from [] nk s
    = (Normal (Err (mkError "txs.length === 0")), s) /\
  forall op s',
    fromTransaction this w mf mpf from txs nk s = (Normal (Ok op), s') ->
    exists vs call,
      Forall2 (fun tx v => tx_value tx = Some v) txs vs /\
      encodeFunctionData call = Resolved (callData op) /\
      (length txs = 1%nat ->
         exists tx v, txs = [tx] /\ vs = [v] /\
           call = execute (to tx) (hex v) (tx_data tx)) /\
      ((1 < length txs)%nat -> Forall (fun v => v = 0%Z) vs ->
         call = executeBatch (map to txs) (map tx_data txs)) /\
      ((1 < length txs)%nat -> Exists (fun v => v <> 0%Z) vs ->
         call = executeBatch_values (map to txs) (map hex vs) (map tx_data txs)).
Proof.
  split; [reflexivity|]. intros op s' E.
  apply fromTransaction_Ok_inv in E
    as (Ne & _ & _ & b & call & _ & [s2 B] & [s3 Sel] & Enc & _).
  apply collect_batch_Ok in B as (_ & vs & F & T & Vs & D & Hv). cbn in T, Vs, D, Hv.
  apply select_call_inv in Sel. rewrite T, Vs, D, Hv in Sel.
  exists vs, call. split; [exact F|]. split; [exact Enc|].
  assert (Hex : existsb (fun v => negb (v =? 0)%Z) vs = true <-> Exists (fun v => v <> 0%Z) vs).
  { rewrite existsb_exists, List.Exists_exists. split; intros (v & In & Hv'); exists v;
      (split; [exact In|]); destruct (Z.eqb_spec v 0); cbn in *; congruence. }
  split; [|split].
  - intros L. destruct txs as [|tx [|? ?]]; try discriminate L.
    inversion F as [|? v ? vs' V F']; subst. inversion F'; subst.
    cbn in Sel. destruct Sel as (t' & v' & d' & [= <-] & [= <-] & [= <-] & ->).
    eauto 10.
  - intros L Z0. apply Nat.ltb_lt in L. rewrite L in Sel.
    destruct (existsb _ vs) eqn:Ex; [|exact Sel].
    destruct Hex as [Hex _]. apply List.Exists_exists in Hex as (v & In & Nz); [|reflexivity].
    rewrite List.Forall_forall in Z0. destruct (Nz (Z0 v In)).
  - intros L Nz. apply Nat.ltb_lt in L. rewrite L in Sel.
    apply Hex in Nz. rewrite Nz in Sel. exact Sel.
Qed.

End Builder.

(** ** Further properties of the instance *)

Section Further.
Context `{Collaborators} (this : SoulWallet).

(** X3: in a well-formed state the deposit of [preFund] is read from the entry
    point of the configuration. *)
Theorem entryPointContract_is_entryPoint w s cfg s1 :
  well_formed s ->
  getOnChainConfig this w s = (Normal (Ok cfg), s1) ->
  default (entryPoint cfg) (_entryPointContract s) = entryPoint cfg /\
  fst (getEntryPointContract this w s1) = Normal (Ok (entryPoint cfg)).
Proof.
  intros (_ & _ & W3) E.
  assert (D : default (entryPoint cfg) (_entryPointContract s) = entryPoint cfg).
  { destruct (_entryPointContract s) as [a|] eqn:Ep; [|reflexivity].
    destruct (W3 a eq_refl) as (c & M & ->). cbn.
    rewrite (getOnChainConfig_memo this w s c M) in E. now injection E as <- _. }
  split; [exact D|].
  rewrite (getEntryPointContract_memo this w s1 cfg)
    by exact (getOnChainConfig_Ok_memo this _ _ _ _ E).
  cbn. now rewrite (getOnChainConfig_entryPointContract this _ _ _ _ E), D.
Qed.

Lemma collect_batch_validates txs b s b' s' :
  collect_batch txs b s = (Normal (Ok b'), s') ->
  Forall (fun tx => isErr (TypeGuard_onlyAddress (to tx)) = false /\
                    isErr (TypeGuard_onlyBytes (tx_data tx)) = false) txs.
Proof.
  revert b. induction txs as [|tx txs IH]; intros b; cbn; unfold_M; [constructor|].
  destruct (isErr (TypeGuard_onlyAddress (to tx))) eqn:A; [discriminate|].
  destruct (value tx) as [v|]; [destruct (BigInt v) as [n|]; [|discriminate]|];
    (destruct (isErr (TypeGuard_onlyBytes _)) eqn:D; [discriminate|]);
    intros E; (constructor; [split; [exact A|exact D]|eapply IH; exact E]).
Qed.

(** X4: every [to] address and every [data] string is validated: a single
    invalid entry, an invalid sender or an empty list rules out [Ok]. *)
Theorem fromTransaction_validates w mf mpf from txs nk s op s' :
  fromTransaction this w mf mpf from txs nk s = (Normal (Ok op), s') ->
  txs <> [] /\
  isErr (TypeGuard_onlyAddress from) = false /\
  Forall (fun tx => isErr (TypeGuard_onlyAddress (to tx)) = false /\
                    isErr (TypeGuard_onlyBytes (tx_data tx)) = false) txs.
Proof.
  intros E. pose proof (fromTransaction_Ok_inv this _ _ _ _ _ _ _ _ _ E)
    as (Ne & _ & _ & b & _ & _ & [s2 B] & _).
  split; [exact Ne|]. split; [|eapply collect_batch_validates; exact B].
  revert E. unfold fromTransaction.
  destruct (length txs =? 0)%nat; [discriminate|].
  destruct (isErr (TypeGuard_onlyAddress from)); [discriminate|reflexivity].
Qed.

End Further.

(** ** The exception-throwing generation *)

Section LegacyFacts.
Context `{Collaborators} (this : SoulWallet) (JSON_stringify : Thrown -> string).

(** The older cache key names the factory only: a stored configuration is
    returned whatever chain the provider is on, and without any request. *)
Lemma legacy_getOnChainConfig_cache_hit w s c :
  StorageCache s !! ("onChainConfig_" ++ soulWalletFactoryAddress this)
    = Some (CachedConfig c) ->
  Legacy.getOnChainConfig this w s = (Normal c, s).
Proof.
  intros Hit. unfold Legacy.getOnChainConfig. unfold_M. now rewrite Hit.
Qed.

(** X8: the older cache key ignores the chain: with an entry for the factory,
    the answer does not depend on the world. *)
Theorem legacy_getOnChainConfig_ignores_chain w w' s c :
  StorageCache s !! ("onChainConfig_" ++ soulWalletFactoryAddress this)
    = Some (CachedConfig c) ->
  Legacy.getOnChainConfig this w s = Legacy.getOnChainConfig this w' s /\
  Legacy.getOnChainConfig this w s = (Normal c, s).
Proof.
  intros Hit. rewrite !(legacy_getOnChainConfig_cache_hit _ s c Hit). auto.
Qed.

(** X12: the older generation stores the configuration before the bundler's
    entry-point check as well. *)
Lemma legacy_getOnChainConfig_failed_check_cached w s n logic ep :
  let key := "onChainConfig_" ++ soulWalletFactoryAddress this in
  as_config (StorageCache s !! key) = None ->
  walletImpl w (soulWalletFactoryAddress this) = Resolved logic ->
  wallet_entryPoint w logic = Resolved ep ->
  provider_getNetwork w = Resolved n ->
  Number_isSafeInteger n = true -> n <> 0%Z ->
  bundler_getNetwork w = Resolved n ->
  bundler_check_fails w ep ->
  exists t s',
    Legacy.getOnChainConfig this w s = (Abrupt t, s') /\
    StorageCache s' !! key = Some (CachedConfig (resolved_config n logic ep)).
Proof.
  intros key Miss L E N Safe Nz B Fail.
  unfold Legacy.getOnChainConfig. unfold_M. fold key. rewrite Miss, L. cbn.
  rewrite E. cbn. rewrite N, Safe. cbn.
  destruct (Z.eqb_spec n 0) as [|_]; [contradiction|].
  rewrite B, Safe. cbn.
  destruct (Z.eqb_spec n 0) as [|_]; [contradiction|]. rewrite Z.eqb_refl. cbn.
  destruct Fail as [[e Fe]|(l & Fl & Sup)].
  - rewrite Fe. do 2 eexists. split; [reflexivity|]. cbn. apply lookup_insert_eq.
  - rewrite Fl. unfold supports in Sup. apply negb_false_iff in Sup. rewrite Sup.
    do 2 eexists. split; [reflexivity|]. cbn. apply lookup_insert_eq.
Qed.

(** X9: in the older generation the hash mismatch is caught by the method's own
    [catch] clause and comes back as an ordinary [UserOpErrors] value. *)
Lemma legacy_sendUserOperation_hash_mismatch w userOp s cfg h hLocal :
  StorageCache s !! ("onChainConfig_" ++ soulWalletFactoryAddress this)
    = Some (CachedConfig cfg) ->
  eth_sendUserOperation w (entryPoint cfg) userOp = Resolved (Ok h) ->
  getUserOpHash userOp (entryPoint cfg) (chainId cfg) = Resolved hLocal ->
  toLowerCase h <> toLowerCase hLocal ->
  Legacy.sendUserOperation this JSON_stringify w userOp s
  = (Normal (Some (mkUserOpErrors UnknownError "userOpHash !== userOPHashLocal")),
     log (eth_sendUserOperation_request (entryPoint cfg) userOp) s).
Proof.
  intros Hit B L Ne. unfold Legacy.sendUserOperation, Legacy.userOpHash.
  unfold_M. rewrite (legacy_getOnChainConfig_cache_hit w s cfg Hit), B.
  rewrite (legacy_getOnChainConfig_cache_hit w _ cfg) by (simpl_state; exact Hit).
  rewrite L.
  destruct (String.eqb_spec (toLowerCase h) (toLowerCase hLocal)); [contradiction|].
  reflexivity.
Qed.

(** X11: the older generation restores the empty signature on every path too. *)
Lemma legacy_estimateUserOperationGas_restores_signature w s u c s' u' :
  signature u = "0x" ->
  Legacy.estimateUserOperationGas this JSON_stringify w (s, u) = (c, (s', u')) ->
  signature u' = "0x".
Proof.
  intros Sg E. unfold Legacy.estimateUserOperationGas in E.
  unfold read_userOp, gets, try_finally in E. unfold mbind at 1, M_bind at 1 in E.
  cbn [fst snd] in E. rewrite Sg in E. cbn [String.eqb Ascii.eqb Bool.eqb] in E.
  destruct (try_catch _ _ (s, u)) as [c1 [s1 u1]].
  unfold update_userOp, modify in E. cbn [fst snd] in E.
  injection E as _ _ <-. reflexivity.
Qed.

(** X10: the older generation takes the bundler's [callGasLimit] as it is,
    whatever the parity of the current one. *)
Lemma legacy_estimateUserOperationGas_overwrites w s u s' u' :
  Legacy.estimateUserOperationGas this JSON_stringify w (s, u) = (Normal None, (s', u')) ->
  exists cfg sent g fin,
    eth_estimateUserOperationGas w (entryPoint cfg) sent = Resolved (Ok g) /\
    GasOverhead_calcGasOverhead
      (with_callGasLimit (gas_callGasLimit g)
         (with_verificationGasLimit (gas_verificationGasLimit g)
            (with_preVerificationGas (gas_preVerificationGas g) sent)))
      = Resolved fin /\
    u' = (if String.eqb (signature u) "0x" then with_signature "0x" fin else fin).
Proof.
  intros E. unfold Legacy.estimateUserOperationGas in E. unfold_M.
  cbn [fst snd] in E.
  destruct (Legacy.getOnChainConfig this w s) as [[cfg|t] s1]; cbn [fst snd] in E.
  - destruct (String.eqb (signature u) "0x") eqn:Sg; cbn [fst snd] in E.
    + destruct (negb (String.eqb (initCode u) "0x")); cbn [fst snd] in E;
        [|discriminate E].
      destruct Signature_semiValidSignature as [sg|t]; cbn [fst snd] in E;
        [|discriminate E].
      destruct (eth_estimateUserOperationGas w (entryPoint cfg) (with_signature sg u))
        as [[g|e]|t] eqn:B; cbn [fst snd] in E; try discriminate E.
      destruct (GasOverhead_calcGasOverhead _) as [fin|t] eqn:G in E;
        cbn [fst snd] in E; try discriminate E.
      injection E as _ <-. eauto 10.
    + destruct (eth_estimateUserOperationGas w (entryPoint cfg) u)
        as [[g|e]|t] eqn:B; cbn [fst snd] in E; try discriminate E.
      destruct (GasOverhead_calcGasOverhead _) as [fin|t] eqn:G in E;
        cbn [fst snd] in E; try discriminate E.
      injection E as _ <-. eauto 10.
  - destruct (String.eqb (signature u) "0x"); discriminate E.
Qed.

End LegacyFacts.

(** ** The claims on the concrete world *)

Section Examples.
#[local] Existing Instance demo_tools.

(** The concrete world resolves to the concrete configuration. *)
Lemma demo_resolution :
  getOnChainConfig demo_wallet demo_world demo_state
  = (Normal (Ok demo_config), demo_resolved).
Proof. vm_compute. reflexivity. Qed.

(** C1, on the code: a fresh instance whose bundler does not list the entry
    point. The first call fails at the entry-point check, yet the
    configuration is in [StorageCache] afterwards; the next call reads the
    chain id, finds the entry and returns the configuration as resolved,
    without asking the bundler again. *)
Theorem getOnChainConfig_unsupported_entryPoint_stays_cached :
  let first := getOnChainConfig demo_wallet demo_world_unsupported demo_state in
  let second := getOnChainConfig demo_wallet demo_world_unsupported (snd first) in
  fst first
    = Normal (Err (mkError
        ("Bundler network doesn't support entryPoint " ++ demo_entryPoint))) /\
  StorageCache (snd first) !! onChainConfig_key demo_factory 5
    = Some (CachedConfig demo_config) /\
  fst second = Normal (Ok demo_config) /\
  trace (snd second) = (trace (snd first) ++ [provider_getNetwork_request])%list.
Proof.
  cbv zeta.
  destruct (getOnChainConfig_failed_check_cached demo_wallet demo_world_unsupported
              demo_state 5 demo_logic demo_entryPoint)
    as (e & s' & E & M & C); try reflexivity; try discriminate.
  { right. exists []. split; reflexivity. }
  rewrite E. cbn [fst snd].
  split; [revert E; vm_compute; now intros [= <- _]|].
  split; [exact C|].
  rewrite (getOnChainConfig_cache_hit demo_wallet demo_world_unsupported s' 5 demo_config);
    try reflexivity; try discriminate; try assumption.
  split; reflexivity.
Qed.

(** The configuration is stored under the key of (factory, 5); the instance
    returns it without a request, another instance of the factory on chain 5
    after reading the chain id only, and an instance on chain 1 asks the
    factory again. *)
Lemma getOnChainConfig_idempotent_witness :
  StorageCache demo_resolved !! onChainConfig_key demo_factory 5
    = Some (CachedConfig demo_config) /\
  (forall w', getOnChainConfig demo_wallet w' demo_resolved
              = (Normal (Ok demo_config), demo_resolved)) /\
  getOnChainConfig demo_wallet_again demo_world_unsupported demo_again
    = (Normal (Ok demo_config),
       set_onChainConfig demo_config (log provider_getNetwork_request demo_again)) /\
  exists r s3 t,
    getOnChainConfig demo_wallet_again demo_world_chain1 demo_again = (r, s3) /\
    trace s3 = provider_getNetwork_request
               :: staticCall_request demo_factory "walletImpl" [] :: t.
Proof.
  destruct (getOnChainConfig_idempotent demo_wallet demo_world demo_state
              demo_config demo_resolved eq_refl demo_resolution)
    as (n & N & C & _ & Again & Hit & Miss).
  injection N as <-.
  split; [exact C|]. split; [exact Again|]. split.
  - apply Hit; reflexivity.
  - apply (Miss demo_wallet_again demo_world_chain1 demo_again 1);
      try reflexivity; try discriminate.
    right. discriminate.
Defined.

(** The older generation: on chain 1 the instance is handed the
    configuration that was cached on chain 5. *)
Lemma getOnChainConfig_idempotent_counterexample :
  provider_getNetwork demo_world_chain1 = Resolved 1%Z /\
  chainId demo_config = 5%Z /\
  Legacy.getOnChainConfig demo_wallet demo_world_chain1 legacy_resolved
  = (Normal demo_config, legacy_resolved).
Proof.
  vm_compute. auto.
Qed.

(** A bundler that reports another hash makes the submission throw; a hash
    in another letter case is accepted. *)
Lemma sendUserOperation_hash_mismatch_throws_witness :
  sendUserOperation demo_wallet demo_world_mismatch (demo_op "0x" (Num 3)) demo_state
  = (Abrupt (ThrownError (mkError "userOpHash !== userOPHashLocal")),
     log (eth_sendUserOperation_request demo_entryPoint (demo_op "0x" (Num 3)))
       demo_resolved) /\
  sendUserOperation demo_wallet demo_world (demo_op "0x" (Num 3)) demo_state
  = (Normal (Ok true),
     log (eth_sendUserOperation_request demo_entryPoint (demo_op "0x" (Num 3)))
       demo_resolved).
Proof.
  split.
  - apply (sendUserOperation_hash_mismatch_throws demo_wallet demo_world_mismatch
             (demo_op "0x" (Num 3)) demo_state demo_config demo_resolved
             "0xabcdef6" "0xabcdef5");
      [vm_compute; reflexivity | reflexivity | reflexivity | vm_compute; discriminate].
  - apply (sendUserOperation_hash_mismatch_throws demo_wallet demo_world
             (demo_op "0x" (Num 3)) demo_state demo_config demo_resolved
             "0xABCDEF5" "0xabcdef5");
      [exact demo_resolution | reflexivity | reflexivity | vm_compute; reflexivity].
Defined.

(** The older generation: the mismatch comes back as a returned value. *)
Lemma sendUserOperation_hash_mismatch_throws_counterexample :
  eth_sendUserOperation demo_world_mismatch demo_entryPoint (demo_op "0x" (Num 3))
    = Resolved (Ok "0xabcdef6") /\
  getUserOpHash (demo_op "0x" (Num 3)) demo_entryPoint 5 = Resolved "0xabcdef5" /\
  fst (Legacy.sendUserOperation demo_wallet demo_JSON_stringify demo_world_mismatch
         (demo_op "0x" (Num 3)) demo_state)
  = Normal (Some (mkUserOpErrors UnknownError "userOpHash !== userOPHashLocal")).
Proof.
  vm_compute. auto.
Qed.


(** The bundler reports the odd [callGasLimit] 0x5209 for an operation whose
    own limit is even: it is stored as 0x520a. *)
Lemma estimateUserOperationGas_overwrites_witness :
  demo_estimate
    = (Normal (Ok true), (fst (snd demo_estimate), snd (snd demo_estimate))) /\
  exists sent fin,
    eth_estimateUserOperationGas demo_world demo_entryPoint sent
      = Resolved (Ok demo_gas) /\
    GasOverhead_calcGasOverhead
      (with_callGasLimit (Str "0x520a")
         (with_verificationGasLimit (Str "0x20000")
            (with_preVerificationGas (Str "0xb000") sent)))
      = Resolved fin /\
    snd (snd demo_estimate) = with_signature "0x" fin.
Proof.
  assert (E : demo_estimate
    = (Normal (Ok true), (fst (snd demo_estimate), snd (snd demo_estimate))))
    by (vm_compute; reflexivity).
  split; [exact E|].
  destruct (estimateUserOperationGas_overwrites demo_wallet demo_world None
              demo_state (demo_op "0x" (Num 3)) true _ _ E)
    as (cfg & sent & g & cgl & new & fin & _ & B & P & _ & _ & _ & Ev & G & U).
  cbv zeta in *. injection B as <-. injection P as <-.
  destruct (Ev eq_refl) as ([= <-] & _ & _).
  exists sent, fin. repeat split; assumption.
Defined.

(** The older generation: the pinned odd limit 21001 is replaced by the
    bundler's 0x9999, itself odd. *)
Lemma estimateUserOperationGas_overwrites_counterexample :
  BigInt (callGasLimit demo_pinned_op) = Some 21001%Z /\
  Z.odd 21001 = true /\
  fst legacy_estimate_high = Normal None /\
  callGasLimit (snd (snd legacy_estimate_high)) = Str "0x9999".
Proof.
  vm_compute. auto.
Qed.

(** The signature is empty again after a successful estimation and after
    one whose request is rejected. *)
Lemma estimateUserOperationGas_restores_signature_witness :
  signature (snd (snd demo_estimate)) = "0x" /\
  fst demo_estimate_rejected = Abrupt (ThrownError (mkError "network error")) /\
  signature (snd (snd demo_estimate_rejected)) = "0x".
Proof.
  split; [|split].
  - apply (estimateUserOperationGas_restores_signature demo_wallet demo_world None
             demo_state (demo_op "0x" (Num 3)) (fst demo_estimate)
             (fst (snd demo_estimate)) (snd (snd demo_estimate)));
      [reflexivity | vm_compute; reflexivity].
  - vm_compute. reflexivity.
  - apply (estimateUserOperationGas_restores_signature demo_wallet
             (demo_world_estimate (Rejected (ThrownError (mkError "network error"))))
             None demo_state (demo_op "0x" (Num 3)) (fst demo_estimate_rejected)
             (fst (snd demo_estimate_rejected)) (snd (snd demo_estimate_rejected)));
      [reflexivity | vm_compute; reflexivity].
Defined.



(** The concrete batch builds. *)
Lemma demo_build_Ok : demo_build = (Normal (Ok demo_built), snd demo_build).
Proof. vm_compute. reflexivity. Qed.

(** Gas limits 3 and 4 give the call gas limit 8. *)
Lemma fromTransaction_callGasLimit_witness :
  callGasLimit demo_built = Str "0x8".
Proof.
  apply (proj1 (fromTransaction_callGasLimit demo_wallet demo_world "0x10" "1"
                  demo_sender demo_txs None demo_state demo_built (snd demo_build)
                  demo_build_Ok) [3; 4]%Z).
  - repeat constructor; eexists; split; reflexivity.
  - vm_compute. discriminate.
Defined.

(** Two transactions without value are encoded as
    [executeBatch(address[],bytes[])]. *)
Lemma fromTransaction_encoding_witness :
  fromTransaction demo_wallet demo_world "0x10" "1" demo_sender [] None demo_state
    = (Normal (Err (mkError "txs.length === 0")), demo_state) /\
  encodeFunctionData (executeBatch [demo_target; demo_target] ["0x"; "0x"])
    = Resolved (callData demo_built).
Proof.
  destruct (fromTransaction_encoding demo_wallet demo_world "0x10" "1" demo_sender
              demo_txs None demo_state) as [Empty Enc].
  split; [exact Empty|].
  destruct (Enc demo_built (snd demo_build) demo_build_Ok)
    as (vs & call & F & E & _ & Batch & _).
  rewrite <- E. f_equal. symmetry. apply Batch.
  - cbn. lia.
  - inversion F as [|? v1 ? vs1 V1 F1]; subst. inversion F1 as [|? v2 ? vs2 V2 F2]; subst.
    inversion F2; subst. injection V1 as <-. injection V2 as <-.
    repeat constructor.
Defined.

(** Empty code is reported and not stored; code is reported, stored and
    never asked for again. *)
Lemma walletDeployed_caches_positive_only_witness :
  (fst (demo_deploy demo_world_undeployed) = Normal (Ok false) /\
   StorageCache (snd (demo_deploy demo_world_undeployed)) = StorageCache demo_resolved) /\
  (fst (demo_deploy demo_world) = Normal (Ok true) /\
   forall calls w',
     let s2 := run_calls demo_wallet calls (snd (demo_deploy demo_world)) in
     walletDeployed demo_wallet w' demo_sender s2 = (Normal (Ok true), s2)).
Proof.
  split.
  - destruct (walletDeployed_caches_positive_only demo_wallet demo_world_undeployed
                demo_sender demo_state demo_config demo_resolved)
      as (r & s' & E & _ & _ & R); [vm_compute; reflexivity | reflexivity |].
    cbn in R. destruct R as (-> & St & _). unfold demo_deploy. rewrite E. auto.
  - destruct (walletDeployed_caches_positive_only demo_wallet demo_world
                demo_sender demo_state demo_config demo_resolved)
      as (r & s' & E & _ & _ & R); [vm_compute; reflexivity | reflexivity |].
    cbn in R. destruct R as (-> & _ & Later). unfold demo_deploy. rewrite E. auto.
Defined.

End Examples.

Section LegacyExamples.
#[local] Existing Instance demo_tools.

Lemma legacy_getOnChainConfig_ignores_chain_witness :
  Legacy.getOnChainConfig demo_wallet demo_world_unsupported legacy_resolved
  = (Normal demo_config, legacy_resolved).
Proof.
  apply (legacy_getOnChainConfig_ignores_chain demo_wallet demo_world_unsupported
           demo_world legacy_resolved demo_config).
  vm_compute. reflexivity.
Defined.

Lemma legacy_sendUserOperation_hash_mismatch_witness :
  fst (Legacy.sendUserOperation demo_wallet demo_JSON_stringify demo_world_mismatch
         (demo_op "0x" (Num 3)) legacy_resolved)
  = Normal (Some (mkUserOpErrors UnknownError "userOpHash !== userOPHashLocal")).
Proof.
  rewrite (legacy_sendUserOperation_hash_mismatch demo_wallet demo_JSON_stringify
             demo_world_mismatch (demo_op "0x" (Num 3)) legacy_resolved demo_config
             "0xabcdef6" "0xabcdef5").
  - reflexivity.
  - vm_compute. reflexivity.
  - reflexivity.
  - reflexivity.
  - vm_compute. discriminate.
Defined.

(** The pinned odd limit 21001 is replaced by the bundler's 0x5209. *)
Lemma legacy_estimateUserOperationGas_overwrites_witness :
  fst legacy_estimate = Normal None /\
  callGasLimit (snd (snd legacy_estimate)) = Str "0x5209".
Proof.
  assert (E : legacy_estimate
    = (Normal None, (fst (snd legacy_estimate), snd (snd legacy_estimate))))
    by (vm_compute; reflexivity).
  split; [vm_compute; reflexivity|].
  destruct (legacy_estimateUserOperationGas_overwrites demo_wallet demo_JSON_stringify
              demo_world demo_state demo_pinned_op _ _ E)
    as (cfg & sent & g & fin & B & G & U).
  rewrite U. cbn in B. injection B as <-.
  cbn in G. injection G as <-. reflexivity.
Defined.

Lemma legacy_estimateUserOperationGas_restores_signature_witness :
  signature (snd (snd legacy_estimate)) = "0x".
Proof.
  apply (legacy_estimateUserOperationGas_restores_signature demo_wallet
           demo_JSON_stringify demo_world demo_state demo_pinned_op
           (fst legacy_estimate) (fst (snd legacy_estimate)));
    [reflexivity | vm_compute; reflexivity].
Defined.

Lemma legacy_getOnChainConfig_failed_check_cached_witness :
  exists t s',
    Legacy.getOnChainConfig demo_wallet demo_world_unsupported demo_state = (Abrupt t, s') /\
    Legacy.getOnChainConfig demo_wallet demo_world_unsupported s' = (Normal demo_config, s').
Proof.
  destruct (legacy_getOnChainConfig_failed_check_cached demo_wallet
              demo_world_unsupported demo_state 5 demo_logic demo_entryPoint)
    as (t & s' & E & C); try reflexivity; try discriminate.
  { right. exists []. split; reflexivity. }
  exists t, s'. split; [exact E|].
  apply legacy_getOnChainConfig_cache_hit. exact C.
Defined.

End LegacyExamples.

Section FurtherExamples.
#[local] Existing Instance demo_tools.

Lemma entryPointContract_is_entryPoint_witness :
  fst (getEntryPointContract demo_wallet demo_world demo_resolved)
  = Normal (Ok demo_entryPoint).
Proof.
  apply (proj2 (entryPointContract_is_entryPoint demo_wallet demo_world demo_state
                  demo_config demo_resolved (fresh_instance_well_formed [])
                  demo_resolution)).
Defined.

Lemma fromTransaction_validates_witness :
  isErr (TypeGuard_onlyAddress demo_sender) = false /\
  Forall (fun tx => isErr (TypeGuard_onlyAddress (to tx)) = false /\
                    isErr (TypeGuard_onlyBytes (tx_data tx)) = false) demo_txs.
Proof.
  apply (proj2 (fromTransaction_validates demo_wallet demo_world "0x10" "1"
                  demo_sender demo_txs None demo_state demo_built (snd demo_build)
                  demo_build_Ok)).
Defined.

Lemma getOnChainConfig_chainId_mismatch_not_cached_witness :
  exists e s',
    getOnChainConfig demo_wallet demo_world_other_chain demo_state
      = (Normal (Err e), s') /\
    StorageCache s' = StorageCache demo_state.
Proof.
  apply (getOnChainConfig_chainId_mismatch_not_cached demo_wallet
           demo_world_other_chain demo_state 5 1 demo_logic demo_entryPoint);
    try reflexivity; lia.
Defined.

Lemma sendUserOperation_hash_match_witness :
  sendUserOperation demo_wallet demo_world (demo_op "0x" (Num 3)) demo_state
  = (Normal (Ok true),
     log (eth_sendUserOperation_request demo_entryPoint (demo_op "0x" (Num 3)))
       demo_resolved).
Proof.
  apply (sendUserOperation_hash_match demo_wallet demo_world (demo_op "0x" (Num 3))
           demo_state demo_config demo_resolved "0xABCDEF5" "0xabcdef5").
  - exact demo_resolution.
  - reflexivity.
  - reflexivity.
  - vm_compute. reflexivity.
Defined.

Lemma estimateUserOperationGas_sends_placeholder_witness :
  trace (fst (snd demo_estimate))
  = (trace demo_resolved ++
     [eth_estimateUserOperationGas_request demo_entryPoint
        (with_signature demo_placeholder (demo_op "0x" (Num 3)))])%list.
Proof.
  destruct (estimateUserOperationGas_sends_placeholder (H:=demo_tools) demo_wallet demo_world
              demo_state (demo_op "0x" (Num 3)) demo_config demo_resolved
              demo_placeholder eq_refl demo_resolution eq_refl)
    as (c & s' & u' & E & -> & _).
  unfold demo_estimate. rewrite E. reflexivity.
Defined.

End FurtherExamples.

(** ** More about the JavaScript primitives *)

Lemma BigInt_hex_negative z : (z < 0)%Z -> BigInt (Str (hex z)) = None.
Proof.
  intros Hz. destruct z as [|p|p]; try lia.
  cbn [BigInt]. unfold StringToBigInt, hex. cbn [toString16].
  rewrite trim_no_space.
  - change ("0x" ++ "-" ++ hex_of_N (N.pos p))
      with (String "0" (String "x" (String "-" (hex_of_N (N.pos p))))).
    cbv beta iota. unfold parse_hex. cbn [toLowerCase].
    unfold HexadecimalString.NilZero.uint_of_string.
    cbn [HexadecimalString.NilEmpty.uint_of_string].
    destruct (HexadecimalString.NilEmpty.uint_of_string _); reflexivity.
  - change ("0x" ++ "-" ++ hex_of_N (N.pos p))
      with (String "0" (String "x" (String "-" (hex_of_N (N.pos p))))).
    cbn [no_space]. rewrite no_space_hex_of_N. reflexivity.
Qed.

Lemma BigInt_hex_sign z :
  BigInt (Str (hex z)) = if (0 <=? z)%Z then Some z else None.
Proof.
  destruct (Z.leb_spec 0 z); [apply BigInt_hex|apply BigInt_hex_negative]; lia.
Qed.

Lemma toLowerCase_app s t : toLowerCase (s ++ t) = toLowerCase s ++ toLowerCase t.
Proof.
  induction s as [|a s IH]; [reflexivity|].
  change (String a s ++ t) with (String a (s ++ t)). cbn [toLowerCase].
  rewrite IH. reflexivity.
Qed.

Lemma lower_ascii_idem c : lower_ascii (lower_ascii c) = lower_ascii c.
Proof.
  destruct c as [[] [] [] [] [] [] [] []]; reflexivity.
Qed.

Lemma toLowerCase_idem s : toLowerCase (toLowerCase s) = toLowerCase s.
Proof.
  induction s as [|a s IH]; [reflexivity|].
  cbn [toLowerCase]. rewrite lower_ascii_idem, IH. reflexivity.
Qed.


(** ** Failures of the node *)

Section Failures.
Context `{Collaborators} `{DeployCollaborators} (this : SoulWallet).

Lemma getOnChainConfig_network_failure w s t :
  _onChainConfig s = None -> provider_getNetwork w = Rejected t ->
  getOnChainConfig this w s = (Abrupt t, log provider_getNetwork_request s).
Proof.
  intros M N. unfold getOnChainConfig. unfold_M. rewrite M, N. reflexivity.
Qed.

(** X13: [preFund] never rejects: whatever the operation holds and whatever
    the node answers, the call returns a [Result]; in particular a node that
    cannot be reached when the configuration has to be resolved gives
    [Err]. *)
Theorem preFund_never_rejects w u s :
  exists r s', preFund this w u s = (Normal r, s') /\
    (forall t, provider_getNetwork w = Rejected t -> _onChainConfig s = None ->
       isErr r = true).
Proof.
  unfold preFund, try_catch.
  match goal with |- context [match ?b s with _ => _ end] => destruct (b s) as [[r|t] s1] eqn:E end.
  - exists r, s1. split; [reflexivity|]. intros t N M.
    revert E. unfold_M.
    repeat case_match; try discriminate; intros [= <- <-]; try reflexivity.
    all: simplify_eq;
      match goal with G : getOnChainConfig _ _ _ = _ |- _ =>
        rewrite (getOnChainConfig_network_failure w _ t M N) in G; discriminate G end.
  - destruct t; eexists _, _; (split; [reflexivity|]); reflexivity.
Qed.

(** X14: on an instance without a memoised configuration, a provider whose
    [getNetwork] rejects makes the [Result]-returning methods
    [getOnChainConfig], [entryPoint], [userOpHash], [packUserOpHash],
    [sendUserOperation], [walletDeployed], [getNonce] and
    [estimateUserOperationGas] reject with the provider's error after that
    one request: none of them guards the resolution of the configuration. *)
Theorem configuration_failure_rejects w s t u a :
  _onChainConfig s = None -> provider_getNetwork w = Rejected t ->
  let s' := log provider_getNetwork_request s in
  getOnChainConfig this w s = (Abrupt t, s') /\
  SoulWallet_entryPoint this w s = (Abrupt t, s') /\
  userOpHash this w u s = (Abrupt t, s') /\
  (forall validAfter validUntil,
     packUserOpHash this w u validAfter validUntil s = (Abrupt t, s')) /\
  sendUserOperation this w u s = (Abrupt t, s') /\
  walletDeployed this w a s = (Abrupt t, s') /\
  (forall k, _entryPointContract s = None ->
     (forall k', k = Some k' -> isErr (TypeGuard_maxToUint192 k') = false) ->
     getNonce this w a k s = (Abrupt t, s')) /\
  estimateUserOperationGas this w None (s, u) = (Abrupt t, (s', u)).
Proof.
  intros M N s'.
  pose proof (getOnChainConfig_network_failure w s t M N) as G. fold s' in G.
  split; [exact G|].
  split. { unfold SoulWallet_entryPoint. unfold_M. rewrite G. reflexivity. }
  assert (U : userOpHash this w u s = (Abrupt t, s')).
  { unfold userOpHash. unfold_M. rewrite G. reflexivity. }
  split; [exact U|].
  split. { intros va vu. unfold packUserOpHash. unfold_M. rewrite U. reflexivity. }
  split. { unfold sendUserOperation. unfold_M. rewrite G. reflexivity. }
  split. { unfold walletDeployed. unfold_M. rewrite G. reflexivity. }
  split.
  { intros k C V. unfold getNonce, getEntryPointContract.
    unfold mbind, M_bind, gets, mret, M_ret.
    destruct k as [k|].
    - specialize (V k eq_refl).
      destruct (TypeGuard_maxToUint192 k); [|discriminate].
      rewrite C, G. reflexivity.
    - rewrite C, G. reflexivity. }
  unfold estimateUserOperationGas. unfold_M. cbn [fst snd]. rewrite G. reflexivity.
Qed.


End Failures.

(** ** The numbers of a built operation *)

Section Numbers.
Context `{Collaborators} (this : SoulWallet).

Lemma getNonce_Ok_inv w a k s r s' :
  getNonce this w a k s = (Normal (Ok r), s') ->
  exists ep n,
    _entryPointContract s' = Some ep /\
    entryPoint_getNonce w ep a (nonce_key k) = Resolved n /\
    r = hex n.
Proof.
  unfold getNonce, nonce_key. cbv zeta. intros E.
  assert (K : exists _key,
    (ep0 ← getEntryPointContract this w;
     match ep0 with
     | Err e => mret (Err e)
     | Ok ep =>
       try_catch
         (_nonce ← await (staticCall_request ep "getNonce" [a; _key])
                         (entryPoint_getNonce w ep a _key);
          mret (Ok ("0x" ++ toString16 _nonce)))
         (fun error =>
            match error with
            | ThrownError e => mret (Err e)
            | _ => mret (Err (mkError "unknown error"))
            end)
     end) s = (Normal (Ok r), s') /\
    _key = match k with
           | Some k => match TypeGuard_maxToUint192 k with
                       | Ok n => hex n | Err _ => "0x0" end
           | None => "0x0"
           end).
  { destruct k as [k|]; [destruct (TypeGuard_maxToUint192 k)|]; eauto.
    discriminate E. }
  clear E. destruct K as (_key & E & ->).
  unfold mbind, M_bind in E.
  destruct (getEntryPointContract this w s) as [[[ep|e]|t] s1] eqn:G;
    try discriminate E.
  assert (C : _entryPointContract s1 = Some ep).
  { revert G. unfold getEntryPointContract. unfold_M.
    destruct (_entryPointContract s) eqn:C0.
    - intros [= <- <-]. exact C0.
    - destruct (getOnChainConfig this w s) as [[[c|e]|t] s2]; try discriminate.
      intros [= <- <-]. reflexivity. }
  revert E. unfold_M.
  match goal with |- context [entryPoint_getNonce w ep a ?k] =>
    destruct (entryPoint_getNonce w ep a k) as [n|t] eqn:N end.
  - intros [= <- <-]. exists ep, n. simpl_state. auto.
  - destruct t; discriminate.
Qed.

Lemma fromTransaction_Ok_record w mf mpf from txs nk s op s' :
  fromTransaction this w mf mpf from txs nk s = (Normal (Ok op), s') ->
  exists s1 nonce_ cd total fee prio,
    getNonce this w from nk s1 = (Normal (Ok nonce_), s') /\
    BigInt (Str mf) = Some fee /\ BigInt (Str mpf) = Some prio /\
    op = {| sender := from; nonce := Str nonce_; initCode := "0x";
            callData := cd; callGasLimit := Str (hex total);
            verificationGasLimit := Num 0; preVerificationGas := Num 0;
            maxFeePerGas := Str (hex fee);
            maxPriorityFeePerGas := Str (hex prio);
            paymasterAndData := "0x"; signature := "0x" |}.
Proof.
  unfold fromTransaction. fold empty_batch. intros E.
  destruct (length txs =? 0)%nat eqn:L in E; [discriminate E|].
  destruct (isErr (TypeGuard_onlyAddress from)); [discriminate|].
  unfold mbind, M_bind, mret, M_ret in E.
  destruct (walletDeployed this w from s) as [[[dep|e]|t] s1]; try discriminate E.
  destruct (sum_gasLimit txs 0 s1) as [[total|t] s1'] eqn:G; try discriminate E.
  pose proof (sum_gasLimit_state _ _ _ _ _ G) as ->.
  destruct (getNonce this w from nk s1) as [[[nonce_|e]|t] s2] eqn:N;
    try discriminate E.
  destruct (collect_batch txs empty_batch s2) as [[[b|e]|t] s2'] eqn:B; try discriminate E.
  destruct (collect_batch_Ok _ _ _ _ _ B) as [-> _].
  destruct (select_call (length txs) b s2) as [[call|t] s3] eqn:Sel; try discriminate E.
  assert (s3 = s2) as ->.
  { revert Sel. unfold select_call. unfold_M.
    repeat case_match; intros [= _ <-]; reflexivity. }
  unfold settle, BigInt_ in E.
  destruct (encodeFunctionData call) as [cd|t] eqn:Enc; try discriminate E.
  destruct (BigInt (Str mf)) as [fee|]; try discriminate E.
  destruct (BigInt (Str mpf)) as [prio|]; try discriminate E.
  injection E as <- <-.
  eexists s1, nonce_, cd, _, fee, prio. repeat split; eauto.
Qed.

(** X16: the fees of the operation that [fromTransaction] returns are the
    caller's fee strings rewritten in hexadecimal; a non-negative fee reads
    back as the same number, a negative one gives a field that [BigInt]
    cannot read. *)
Theorem fromTransaction_fees w mf mpf from txs nk s op s' :
  fromTransaction this w mf mpf from txs nk s = (Normal (Ok op), s') ->
  exists fee prio,
    BigInt (Str mf) = Some fee /\ BigInt (Str mpf) = Some prio /\
    maxFeePerGas op = Str (hex fee) /\
    maxPriorityFeePerGas op = Str (hex prio) /\
    BigInt (maxFeePerGas op) = (if (0 <=? fee)%Z then Some fee else None) /\
    BigInt (maxPriorityFeePerGas op) = (if (0 <=? prio)%Z then Some prio else None).
Proof.
  intros E.
  destruct (fromTransaction_Ok_record _ _ _ _ _ _ _ _ _ E)
    as (s1 & nonce_ & cd & total & fee & prio & _ & F & P & ->).
  exists fee, prio. cbn [maxFeePerGas maxPriorityFeePerGas].
  rewrite !BigInt_hex_sign. auto 6.
Qed.

(** X17: the nonce of the operation that [fromTransaction] returns is the
    answer of the entry point's [getNonce(from, key)], read on the contract
    the instance is bound to, in hexadecimal; it reads back as that number. *)
Theorem fromTransaction_nonce w mf mpf from txs nk s op s' :
  fromTransaction this w mf mpf from txs nk s = (Normal (Ok op), s') ->
  exists ep n,
    _entryPointContract s' = Some ep /\
    entryPoint_getNonce w ep from (nonce_key nk) = Resolved n /\
    nonce op = Str (hex n) /\
    ((0 <= n)%Z -> BigInt (nonce op) = Some n).
Proof.
  intros E.
  destruct (fromTransaction_Ok_record _ _ _ _ _ _ _ _ _ E)
    as (s1 & nonce_ & cd & total & fee & prio & N & _ & _ & ->).
  destruct (getNonce_Ok_inv _ _ _ _ _ _ N) as (ep & n & C & A & ->).
  exists ep, n. cbn [nonce]. auto using BigInt_hex.
Qed.

(** X18: an operation fresh from [fromTransaction] has zero verification
    gas, so [preFund] returns [Err] for it without any request, in any
    world and state: the gas fields must be filled in first. *)
Theorem fromTransaction_then_preFund w mf mpf from txs nk s op s' :
  fromTransaction this w mf mpf from txs nk s = (Normal (Ok op), s') ->
  forall w' s0, exists e,
    preFund this w' op s0 = (Normal (Err e), s0) /\
    (is_Some (BigInt (maxFeePerGas op)) -> is_Some (BigInt (callGasLimit op)) ->
     e = mkError validation_message).
Proof.
  intros E w' s0.
  destruct (fromTransaction_Ok_record _ _ _ _ _ _ _ _ _ E)
    as (s1 & nonce_ & cd & total & fee & prio & _ & _ & _ & ->).
  match goal with |- exists e, preFund _ _ ?u _ = _ /\ _ =>
    destruct (preFund_zero_gas_Err this w' u s0) as (e & P & Msg);
      [right; right; reflexivity|]
  end.
  exists e. split; [exact P|]. intros F C. apply Msg; cbn; eauto.
Qed.

(** X19: [estimateUserOperationGas] called with guard-hook input data
    returns [Err] for every operation that [fromTransaction] built, without
    any request and without touching the operation: such an operation has
    the init code ['0x'], which the check on the hook data refuses. *)
Theorem estimateUserOperationGas_hook_rejects_built w mf mpf from txs nk s op s' :
  fromTransaction this w mf mpf from txs nk s = (Normal (Ok op), s') ->
  forall w' g s0,
    estimateUserOperationGas this w' (Some g) (s0, op)
    = (Normal (Err (mkUserOpErrors UnknownError
         (if String.eqb (toLowerCase (hookSender g)) (toLowerCase from)
          then "cannot set semiValidGuardHookInputData when the contract wallet is not deployed"
          else "invalid sender: " ++ hookSender g))),
       (s0, op)).
Proof.
  intros E w' g s0.
  destruct (fromTransaction_Ok_record _ _ _ _ _ _ _ _ _ E)
    as (s1 & nonce_ & cd & total & fee & prio & _ & _ & _ & ->).
  unfold estimateUserOperationGas. unfold_M. cbn [fst snd sender initCode].
  destruct (String.eqb (toLowerCase (hookSender g)) (toLowerCase from)); reflexivity.
Qed.

End Numbers.

(** ** Construction and the deployment operation *)

Section DeployFacts.
Context `{Collaborators} `{DeployCollaborators} (this : SoulWallet).

(** X20: the constructor returns an instance only if the four addresses
    pass [TypeGuard.onlyAddress] and a provider or bundler given as a URL
    passes [TypeGuard.httpOrHttps]; the instance holds the four addresses as
    given. *)
Theorem new_SoulWallet_validates p b f c k sc (wallet : SoulWallet) :
  new_SoulWallet p b f c k sc = Normal wallet ->
  (forall url, p = ProviderUrl url \/ b = ProviderUrl url ->
     isErr (TypeGuard_httpOrHttps url) = false) /\
  soulWalletFactoryAddress wallet = f /\
  defalutCallbackHandlerAddress wallet = c /\
  keyStoreModuleAddress wallet = k /\
  securityControlModuleAddress wallet = sc /\
  Forall (fun a => isErr (TypeGuard_onlyAddress a) = false) [f; c; k; sc].
Proof.
  unfold new_SoulWallet. intros E.
  destruct (match p with ProviderUrl url => _ | ProviderObject => _ end) eqn:P;
    [discriminate|].
  destruct (match b with ProviderUrl url => _ | ProviderObject => _ end) eqn:B;
    [discriminate|].
  destruct (isErr (TypeGuard_onlyAddress f)) eqn:F; [discriminate|].
  destruct (isErr (TypeGuard_onlyAddress c)) eqn:C; [discriminate|].
  destruct (isErr (TypeGuard_onlyAddress k)) eqn:K; [discriminate|].
  destruct (isErr (TypeGuard_onlyAddress sc)) eqn:SC; [discriminate|].
  injection E as <-. cbn.
  split; [|repeat (split; [reflexivity|]); repeat constructor; assumption].
  intros url [-> | ->]; assumption.
Qed.

Lemma initializeData_Ok w k g p s d s' :
  initializeData this w k g p s = (Normal (Ok d), s') ->
  (exists cfg, _onChainConfig s' = Some cfg) /\
  forall w' s0 cfg, _onChainConfig s0 = Some cfg ->
    initializeData this w' k g p s0 = (Normal (Ok d), s0).
Proof.
  unfold initializeData. unfold settle, mbind, M_bind, mret, M_ret.
  destruct (Hex_paddingZero (Num defalutInitialGuardianSafePeriod) 32) as [pad|];
    [|discriminate].
  destruct (Hex_paddingZero (Str k) 32) as [key|]; [|discriminate].
  destruct (AbiCoder_encode_keyStore key g _) as [ks|]; [|discriminate].
  destruct (getOnChainConfig this w s) as [[[cfg|e]|t] s1] eqn:G; try discriminate.
  destruct (encode_initialize _ _ _ _) as [d'|]; [|discriminate].
  intros [= <- <-]. split.
  - exists cfg. eapply getOnChainConfig_Ok_memo; eauto.
  - intros w' s0 cfg' M. rewrite (getOnChainConfig_memo this w' s0 cfg' M).
    reflexivity.
Qed.

Lemma createUnsignedDeployWalletUserOp_Ok w index k g cd p s op s' :
  createUnsignedDeployWalletUserOp this w index k g cd p s = (Normal (Ok op), s') ->
  exists initializer salt createWallet a,
    Hex_paddingZero (Num index) 32 = Resolved salt /\
    encode_createWallet initializer salt = Resolved createWallet /\
    factory_getWalletAddress w (soulWalletFactoryAddress this) initializer salt
      = Resolved a /\
    isErr (TypeGuard_onlyBytes (default "0x" cd)) = false /\
    op = {| sender := a; nonce := Num 0;
            initCode := toLowerCase
              (soulWalletFactoryAddress this ++ substring 2 createWallet);
            callData := default "0x" cd;
            callGasLimit := Num 0; verificationGasLimit := Num 0;
            preVerificationGas := Num preVerificationGasDeploy;
            maxFeePerGas := Num 0; maxPriorityFeePerGas := Num 0;
            paymasterAndData := "0x"; signature := "0x" |}.
Proof.
  unfold createUnsignedDeployWalletUserOp. cbv zeta.
  destruct (TypeGuard_onlyBytes (default "0x" cd)) as [okb|] eqn:B; [|discriminate].
  unfold mbind, M_bind, mret, M_ret. unfold settle at 1 2.
  destruct (initializeData this w k g p s) as [[[init|e]|t] s1] eqn:I;
    try discriminate.
  destruct (initializeData_Ok _ _ _ _ _ _ _ I) as [[cfg M] Again].
  destruct (Hex_paddingZero (Num index) 32) as [salt|] eqn:P; [|discriminate].
  destruct (encode_createWallet init salt) as [cw|] eqn:CW; [|discriminate].
  unfold calcWalletAddress. unfold mbind, M_bind, mret, M_ret.
  rewrite (Again w s1 cfg M). unfold_M. rewrite P.
  destruct (factory_getWalletAddress w _ init salt) as [a|] eqn:A; [|discriminate].
  intros [= <- <-].
  exists init, salt, cw, a. auto 10.
Qed.

(** X21: in the operation that [createUnsignedDeployWalletUserOp] returns
    the sender is the address that the factory's [getWalletAddress] gave for
    the very initializer and salt that the init code's [createWallet] call
    encodes; the init code is in lower case and starts with the factory
    address; the call data is the caller's (['0x'] by default) and passes
    [TypeGuard.onlyBytes]. *)
Theorem createUnsignedDeployWalletUserOp_consistent w index k g cd p s op s' :
  createUnsignedDeployWalletUserOp this w index k g cd p s = (Normal (Ok op), s') ->
  exists initializer salt createWallet,
    Hex_paddingZero (Num index) 32 = Resolved salt /\
    encode_createWallet initializer salt = Resolved createWallet /\
    initCode op = toLowerCase (soulWalletFactoryAddress this)
                  ++ toLowerCase (substring 2 createWallet) /\
    toLowerCase (initCode op) = initCode op /\
    factory_getWalletAddress w (soulWalletFactoryAddress this) initializer salt
      = Resolved (sender op) /\
    callData op = default "0x" cd /\
    isErr (TypeGuard_onlyBytes (callData op)) = false.
Proof.
  intros E.
  destruct (createUnsignedDeployWalletUserOp_Ok _ _ _ _ _ _ _ _ _ E)
    as (init & salt & cw & a & P & CW & A & B & ->).
  exists init, salt, cw. cbn [initCode sender callData].
  rewrite toLowerCase_idem, toLowerCase_app. auto 10.
Qed.

(** X22: the operation that [createUnsignedDeployWalletUserOp] returns has
    zero fees and zero verification gas: [preFund] returns the validation
    error for it, without any request, in any world and state. *)
Theorem createUnsignedDeployWalletUserOp_then_preFund w index k g cd p s op s' :
  createUnsignedDeployWalletUserOp this w index k g cd p s = (Normal (Ok op), s') ->
  forall w' s0,
    preFund this w' op s0 = (Normal (Err (mkError validation_message)), s0).
Proof.
  intros E w' s0.
  destruct (createUnsignedDeployWalletUserOp_Ok _ _ _ _ _ _ _ _ _ E)
    as (init & salt & cw & a & _ & _ & _ & _ & ->).
  match goal with |- preFund _ _ ?u _ = _ =>
    destruct (preFund_zero_gas_Err this w' u s0) as (e & P & Msg);
      [left; reflexivity|]
  end.
  rewrite P, Msg; cbn; eauto.
Qed.

(** X23: the read of [getWalletAddress] is not guarded: when it fails,
    [calcWalletAddress] and [createUnsignedDeployWalletUserOp] reject with
    the node's error instead of returning [Err]. *)
Theorem calcWalletAddress_rejects (w : DeployEnv) index k g cd p s initializer s1 salt t :
  initializeData this w k g p s = (Normal (Ok initializer), s1) ->
  Hex_paddingZero (Num index) 32 = Resolved salt ->
  factory_getWalletAddress w (soulWalletFactoryAddress this) initializer salt
    = Rejected t ->
  let s' := log (staticCall_request (soulWalletFactoryAddress this)
                   "getWalletAddress" [initializer; salt]) s1 in
  calcWalletAddress this w index k g p s = (Abrupt t, s') /\
  (isErr (TypeGuard_onlyBytes (default "0x" cd)) = false ->
   forall createWallet, encode_createWallet initializer salt = Resolved createWallet ->
   createUnsignedDeployWalletUserOp this w index k g cd p s = (Abrupt t, s')).
Proof.
  intros I P A s'.
  destruct (initializeData_Ok _ _ _ _ _ _ _ I) as [[cfg M] Again].
  split.
  - unfold calcWalletAddress. unfold mbind, M_bind. rewrite I.
    unfold_M. rewrite P, A. reflexivity.
  - intros B cw CW. unfold createUnsignedDeployWalletUserOp. cbv zeta.
    destruct (TypeGuard_onlyBytes (default "0x" cd)); [|discriminate B].
    unfold mbind, M_bind, mret, M_ret. unfold settle at 1 2.
    rewrite I, P, CW.
    unfold calcWalletAddress. unfold mbind, M_bind.
    rewrite (Again w s1 cfg M). unfold_M. rewrite P, A. reflexivity.
Qed.

End DeployFacts.

(** ** What every public call preserves *)

Section PublicPreservation.
Context `{Collaborators} `{DeployCollaborators} (this : SoulWallet).
Context (R : State -> State -> Prop) `{!Stable this R}.

#[local] Hint Resolve respects_getOnChainConfig respects_userOpHash : respects.
#[local] Hint Extern 1 (Stable _ _) => exact _ : respects.
#[local] Hint Extern 1 (respects _ _ (await _ _)) =>
  apply (respects_await this) : respects.

Lemma respects_SoulWallet_entryPoint w :
  respects R id (SoulWallet_entryPoint this w).
Proof. unfold SoulWallet_entryPoint. repeat respects_step. Qed.

Lemma respects_initializeData w k g p : respects R id (initializeData this w k g p).
Proof. unfold initializeData. repeat respects_step. Qed.

#[local] Hint Resolve respects_initializeData : respects.

Lemma respects_calcWalletAddress (w : DeployEnv) i k g p :
  respects R id (calcWalletAddress this w i k g p).
Proof. unfold calcWalletAddress. repeat respects_step. Qed.

#[local] Hint Resolve respects_calcWalletAddress : respects.

Lemma respects_createUnsignedDeployWalletUserOp (w : DeployEnv) i k g cd p :
  respects R id (createUnsignedDeployWalletUserOp this w i k g cd p).
Proof. unfold createUnsignedDeployWalletUserOp. repeat respects_step. Qed.

Lemma respects_packUserOpHash w u va vu :
  respects R id (packUserOpHash this w u va vu).
Proof. unfold packUserOpHash. repeat respects_step. Qed.

(** Whatever a caller does next with any of the public methods, and however
    the outside world answers, the state moves along every stable
    relation. *)
Lemma run_public_calls_stable calls s : R s (run_public_calls this calls s).
Proof.
  revert s. induction calls as [|[c w] calls IH]; intros s; cbn.
  - reflexivity.
  - etransitivity; [|apply IH].
    destruct c; cbn.
    + apply (run_calls_stable this R [(c, node w)] s).
    + apply (respects_SoulWallet_entryPoint w s).
    + apply (respects_initializeData w _ _ _ s).
    + apply (respects_calcWalletAddress w _ _ _ _ s).
    + apply (respects_createUnsignedDeployWalletUserOp w _ _ _ _ _ s).
    + apply (respects_packUserOpHash w _ _ _ s).
Qed.

End PublicPreservation.

Section PublicInvariants.
Context `{Collaborators} `{DeployCollaborators} (this : SoulWallet).

Lemma run_public_calls_extends calls s : extends s (run_public_calls this calls s).
Proof. apply run_public_calls_stable. exact _. Qed.

(** X1: the configuration of an instance is immutable once resolved: no later
    call of any public method replaces it. *)
Theorem configuration_write_once calls s c :
  _onChainConfig s = Some c ->
  _onChainConfig (run_public_calls this calls s) = Some c /\
  forall w, fst (getOnChainConfig this w (run_public_calls this calls s)) = Normal (Ok c).
Proof.
  intros M. destruct (run_public_calls_extends calls s) as (Keep & _).
  split; [auto|]. intros w. now rewrite (getOnChainConfig_memo this w _ c (Keep c M)).
Qed.

(** X2: every configuration that [getOnChainConfig] returns, after any calls
    of the public methods from a well-formed state, is valid: its chain id
    is a non-zero safe integer; and the state stays well formed. *)
Theorem returned_configuration_valid calls s w c s' :
  well_formed s ->
  getOnChainConfig this w (run_public_calls this calls s) = (Normal (Ok c), s') ->
  valid_config c /\ well_formed s'.
Proof.
  intros W E.
  assert (W' : well_formed (run_public_calls this calls s))
    by (apply (run_public_calls_stable this keeps_well_formed calls s); exact W).
  destruct (getOnChainConfig_well_formed this w _ _ _ W' E) as [Ws V]. auto.
Qed.

(** X24: [initializeData] is repeatable: once it has returned the data, it
    returns the same data after any calls of the public methods, in any
    world, without a request. *)
Theorem initializeData_repeatable w k g p s d s1 calls w' :
  initializeData this w k g p s = (Normal (Ok d), s1) ->
  let s2 := run_public_calls this calls s1 in
  initializeData this w' k g p s2 = (Normal (Ok d), s2).
Proof.
  intros I s2.
  destruct (initializeData_Ok this _ _ _ _ _ _ _ I) as [[cfg M] Again].
  destruct (run_public_calls_extends calls s1) as (Keep & _).
  apply (Again w' s2 cfg). apply Keep, M.
Qed.

End PublicInvariants.


(** ** The older generation: [preFund] *)

Section LegacyMore.
Context `{Collaborators} (this : SoulWallet).

(** X25: in the older exception-throwing soulWallet.ts, [preFund] throws
    the validation error for an operation whose [maxFeePerGas],
    [preVerificationGas] or [verificationGasLimit] is zero, before any
    request. *)
Theorem legacy_preFund_zero_gas_throws w u s mf pvg vgl cgl :
  BigInt (maxFeePerGas u) = Some mf ->
  BigInt (preVerificationGas u) = Some pvg ->
  BigInt (verificationGasLimit u) = Some vgl ->
  BigInt (callGasLimit u) = Some cgl ->
  mf = 0%Z \/ pvg = 0%Z \/ vgl = 0%Z ->
  Legacy.preFund this w u s = (Abrupt (ThrownError (mkError validation_message)), s).
Proof.
  intros P1 P2 P3 P4 Z0. unfold Legacy.preFund. unfold_M.
  rewrite P1, P2, P3, P4.
  assert (Hz : ((mf =? 0)%Z || (pvg =? 0)%Z || (vgl =? 0)%Z) = true).
  { destruct Z0 as [-> | [-> | ->]]; cbn; rewrite ?orb_true_r; reflexivity. }
  rewrite Hz. reflexivity.
Qed.

End LegacyMore.

(** ** [DeployFactory] *)

Module DeployFactoryFacts.
Import DeployFactory.

Section Facts.
Context `{Ethers} (_singletonFactory : string).

Lemma hex_digits_length n s : hex_digits n s = true -> String.length s = n.
Proof.
  revert s. induction n as [|n IH]; intros [|c r]; cbn; try discriminate; auto.
  intros E. apply andb_true_iff in E as [_ E]. f_equal. auto.
Qed.

Lemma is_bytes32_length s : is_bytes32 s = true -> String.length s = 66%nat.
Proof.
  unfold is_bytes32. intros B.
  destruct s as [|a0 [|a1 r]]; try discriminate B;
    destruct a0 as [[] [] [] [] [] [] [] []]; try discriminate B.
  destruct a1 as [[] [] [] [] [] [] [] []]; try discriminate B.
  apply hex_digits_length in B. cbn [String.length]. rewrite B. reflexivity.
Qed.

Lemma getFactory_inv {S} logic salt ver (s : S) f s' :
  getFactory _singletonFactory logic salt ver s = (Normal f, s') ->
  s' = s /\ default 1%Z ver = 1%Z /\ is_bytes32 (salt_or_zero salt) = true /\
  exists h,
    getDeployTransaction_data logic _singletonFactory = Resolved (initCodeWithArgs f) /\
    keccak256 (initCodeWithArgs f) = Resolved h /\
    getCreate2Address _singletonFactory (salt_or_zero salt) h
      = Resolved (factoryAddress f).
Proof.
  unfold getFactory. unfold_M. cbv zeta.
  destruct (Z.eqb_spec (default 1%Z ver) 1); [|discriminate].
  destruct (is_bytes32 (salt_or_zero salt)); [|discriminate]. cbn.
  destruct (getDeployTransaction_data _ _) as [i|] eqn:I; [|discriminate].
  destruct (keccak256 i) as [h|] eqn:K; [|discriminate].
  destruct (getCreate2Address _ _ h) as [a|] eqn:A; [|discriminate].
  intros [= <- <-]. cbn. eauto 10.
Qed.

Lemma getFactory_state {S} logic salt ver (s : S) :
  snd (getFactory _singletonFactory logic salt ver s) = s.
Proof.
  unfold getFactory. unfold_M. cbv zeta.
  repeat case_match; simplify_eq; reflexivity.
Qed.

(** X26: [deploy] returns only the address that [getAddress] computes for
    the same arguments, only for a salt of 32 bytes, and only after its last
    read of the code at that address gave something other than ['0x']. *)
Theorem deploy_returns_getAddress c logic salt ver t a t' :
  deploy _singletonFactory c logic salt ver t = (Normal a, t') ->
  getAddress _singletonFactory logic salt ver t = (Normal a, t) /\
  String.length (salt_or_zero salt) = 66%nat /\
  exists reqs code,
    t' = (t ++ reqs ++ [getCode_request a])%list /\
    etherProvider_getCode c (t ++ reqs)%list a = Resolved code /\
    code <> "0x".
Proof.
  unfold deploy. unfold mbind at 1, M_bind at 1. intros E.
  destruct (getFactory _singletonFactory logic salt ver t) as [[f|x] t0] eqn:F;
    [|discriminate E].
  destruct (getFactory_inv _ _ _ _ _ _ F) as (-> & V & B & _).
  assert (GA : getAddress _singletonFactory logic salt ver t
               = (Normal (factoryAddress f), t)).
  { unfold getAddress. unfold mbind, M_bind. rewrite F. reflexivity. }
  assert (L : String.length (salt_or_zero salt) = 66%nat).
  { apply is_bytes32_length, B. }
  revert E. unfold request. unfold_M.
  destruct (etherProvider_getCode c t (factoryAddress f)) as [code|] eqn:C1;
    [|discriminate].
  destruct (String.eqb_spec code "0x") as [->|Ne]; cbn [negb].
  - destruct (encodeFunctionData_deploy _ _) as [cd|]; [|discriminate].
    destruct (signer_sendTransaction c _ _) as [[[]|]|]; try discriminate.
    match goal with |- context [etherProvider_getCode c ?h (factoryAddress f)] =>
      destruct (etherProvider_getCode c h (factoryAddress f)) as [code2|] eqn:C2 end;
      [|discriminate].
    destruct (String.eqb_spec code2 "0x") as [->|Ne]; [discriminate|].
    intros [= <- <-]. split; [exact GA|]. split; [exact L|].
    eexists [_; _; _], code2. rewrite <- !app_assoc in *. cbn [app] in *.
    split; [reflexivity|]. split; [exact C2|exact Ne].
  - intros [= <- <-]. split; [exact GA|]. split; [exact L|].
    exists [], code. rewrite app_nil_r. auto.
Qed.

(** X27: however [deploy] ends, it sends at most one transaction, and only
    after reading empty code at the factory address; the transaction goes to
    the singleton factory with the gas limit 2000000 and carries the encoded
    [deploy(initCode, salt)]. *)
Theorem deploy_sends_at_most_once c logic salt ver t r t' :
  deploy _singletonFactory c logic salt ver t = (r, t') ->
  exists reqs,
    t' = (t ++ reqs)%list /\
    (length (sent reqs) <= 1)%nat /\
    (forall tx, In tx (sent reqs) ->
       deploy_to tx = _singletonFactory /\
       deploy_gasLimit tx = BigNumber_toHexString 2000000 /\
       exists f, getFactory _singletonFactory logic salt ver t = (Normal f, t) /\
         etherProvider_getCode c t (factoryAddress f) = Resolved "0x" /\
         encodeFunctionData_deploy (initCodeWithArgs f) (salt_or_zero salt)
           = Resolved (deploy_data tx)).
Proof.
  unfold deploy. unfold mbind at 1, M_bind at 1. intros E.
  destruct (getFactory _singletonFactory logic salt ver t) as [[f|x] t0] eqn:F.
  2:{ pose proof (getFactory_state logic salt ver t) as P.
      rewrite F in P. cbn in P. subst t0. injection E as <- <-.
      exists []. rewrite app_nil_r. split; [reflexivity|]. cbn. split; [lia|tauto]. }
  destruct (getFactory_inv _ _ _ _ _ _ F) as (-> & _).
  revert E. unfold request. unfold_M.
  destruct (etherProvider_getCode c t (factoryAddress f)) as [code|] eqn:C1.
  2:{ intros [= <- <-]. eexists [_]. split; [reflexivity|]. cbn. split; [lia|tauto]. }
  destruct (String.eqb_spec code "0x") as [->|Ne]; cbn [negb].
  2:{ intros [= <- <-]. eexists [_]. split; [reflexivity|]. cbn. split; [lia|tauto]. }
  destruct (encodeFunctionData_deploy _ _) as [cd|] eqn:Enc.
  2:{ intros [= <- <-]. eexists [_]. split; [reflexivity|]. cbn. split; [lia|tauto]. }
  assert (Tx : forall tx,
    {| deploy_to := _singletonFactory; deploy_data := cd;
       deploy_gasLimit := BigNumber_toHexString 2000000 |} = tx \/ False ->
    deploy_to tx = _singletonFactory /\
    deploy_gasLimit tx = BigNumber_toHexString 2000000 /\
    exists f0, (Normal f, t) = (Normal f0, t) /\
      etherProvider_getCode c t (factoryAddress f0) = Resolved "0x" /\
      encodeFunctionData_deploy (initCodeWithArgs f0) (salt_or_zero salt)
        = Resolved (deploy_data tx)).
  { intros tx [<- | []]. cbn. eauto 10. }
  destruct (signer_sendTransaction c _ _) as [[[]|]|].
  - match goal with |- context [etherProvider_getCode c ?h (factoryAddress f)] =>
      destruct (etherProvider_getCode c h (factoryAddress f)) as [code2|] end.
    + destruct (String.eqb code2 "0x"); intros [= <- <-];
        eexists [_; _; _; _]; rewrite <- !app_assoc;
        (split; [reflexivity|]); cbn; (split; [lia|exact Tx]).
    + intros [= <- <-]. eexists [_; _; _; _]. rewrite <- !app_assoc.
    split; [reflexivity|]. cbn. split; [lia|exact Tx].
  - intros [= <- <-]. eexists [_; _; _]. rewrite <- !app_assoc.
    split; [reflexivity|]. cbn. split; [lia|exact Tx].
  - intros [= <- <-]. eexists [_; _]. rewrite <- !app_assoc.
    split; [reflexivity|]. cbn. split; [lia|exact Tx].
Qed.

End Facts.
End DeployFactoryFacts.

(** ** The deployment check of [fromTransaction] *)

Section DeploymentCheck.
Context `{Collaborators} (this : SoulWallet).

Lemma sum_gasLimit_pure txs acc s t :
  sum_gasLimit txs acc t = (fst (sum_gasLimit txs acc s), t).
Proof.
  revert acc. induction txs as [|tx rest IH]; intros acc; cbn; [reflexivity|].
  destruct (gasLimit tx) as [g|]; [|reflexivity].
  unfold mbind, M_bind, BigInt_. destruct (BigInt g); [apply IH|reflexivity].
Qed.

Lemma collect_batch_pure txs b s t :
  collect_batch txs b t = (fst (collect_batch txs b s), t).
Proof.
  revert b. induction txs as [|tx rest IH]; intros b; cbn; [reflexivity|].
  destruct (isErr (TypeGuard_onlyAddress (to tx))); [reflexivity|].
  unfold mbind, M_bind, mret, M_ret, BigInt_.
  destruct (value tx) as [v|].
  - destruct (BigInt v); [|reflexivity].
    destruct (isErr (TypeGuard_onlyBytes _)); [reflexivity|apply IH].
  - destruct (isErr (TypeGuard_onlyBytes _)); [reflexivity|apply IH].
Qed.

Lemma select_call_pure n b s t :
  select_call n b t = (fst (select_call n b s), t).
Proof.
  unfold select_call. unfold_M. repeat case_match; reflexivity.
Qed.

Lemma getNonce_bound w w' a k s s' cfg :
  entryPoint_getNonce w' = entryPoint_getNonce w ->
  _onChainConfig s = Some cfg -> _onChainConfig s' = Some cfg ->
  _entryPointContract s' = _entryPointContract s ->
  fst (getNonce this w' a k s') = fst (getNonce this w a k s).
Proof.
  intros N M M' C. unfold getNonce, getEntryPointContract.
  unfold mbind, M_bind, gets, mret, M_ret. cbv zeta.
  destruct k as [k|]; [destruct (TypeGuard_maxToUint192 k); [|reflexivity]|];
    rewrite C; (destruct (_entryPointContract s);
      rewrite ?(getOnChainConfig_memo this w s cfg M),
              ?(getOnChainConfig_memo this w' s' cfg M');
      unfold_M; rewrite N; repeat case_match; simplify_eq; reflexivity).
Qed.

Lemma walletDeployed_with_code w code a s d s1 :
  walletDeployed this w a s = (Normal (Ok d), s1) ->
  exists cfg d' s1',
    walletDeployed this (with_code code w) a s = (Normal (Ok d'), s1') /\
    _onChainConfig s1 = Some cfg /\ _onChainConfig s1' = Some cfg /\
    _entryPointContract s1' = _entryPointContract s1.
Proof.
  unfold walletDeployed. unfold mbind, M_bind.
  change (getOnChainConfig this (with_code code w) s)
    with (getOnChainConfig this w s).
  destruct (getOnChainConfig this w s) as [[[cfg|e]|t] s0] eqn:G; try discriminate.
  pose proof (getOnChainConfig_Ok_memo this _ _ _ _ G) as M.
  unfold_M. cbn [provider_getCode with_code].
  destruct (truthy (StorageCache s0 !! _)).
  - intros [= <- <-]. exists cfg, true, s0. split; [reflexivity|auto].
  - destruct (provider_getCode w a) as [c|[e|e]]; try discriminate.
    destruct (negb (c =? "0x")); intros [= <- <-]; exists cfg;
      destruct (negb (code =? "0x")); eexists _, _;
      (split; [reflexivity|]); simpl_state; auto.
Qed.

(** X28: the operation that [fromTransaction] returns does not depend on
    the code at the wallet's address: the answer of [walletDeployed] is not
    used, so a wallet without code gets the same operation, empty init code
    included. *)
Theorem fromTransaction_ignores_deployment w mf mpf from txs nk s op s' code :
  fromTransaction this w mf mpf from txs nk s = (Normal (Ok op), s') ->
  exists s'',
    fromTransaction this (with_code code w) mf mpf from txs nk s
    = (Normal (Ok op), s'').
Proof.
  unfold fromTransaction. intros E.
  destruct (length txs =? 0)%nat eqn:L in E; [discriminate E|]. rewrite L.
  destruct (isErr (TypeGuard_onlyAddress from)); [discriminate|].
  unfold mbind, M_bind, mret, M_ret in *.
  destruct (walletDeployed this w from s) as [[[dep|e]|t] s1] eqn:W;
    try discriminate E.
  destruct (walletDeployed_with_code w code _ _ _ _ W)
    as (cfg & d' & s1' & -> & M & M' & C).
  rewrite (sum_gasLimit_pure txs 0 s1 s1').
  destruct (sum_gasLimit txs 0 s1) as [[total|t] s1a] eqn:G; try discriminate E.
  pose proof (sum_gasLimit_state _ _ _ _ _ G) as ->. cbn [fst].
  pose proof (getNonce_bound w (with_code code w) from nk s1 s1' cfg
                eq_refl M M' C) as N.
  destruct (getNonce this w from nk s1) as [[[nonce_|e]|t] s2] eqn:N1;
    try discriminate E.
  destruct (getNonce this (with_code code w) from nk s1') as [c2 s2'].
  cbn [fst] in N. subst c2.
  rewrite (collect_batch_pure txs _ s2 s2').
  destruct (collect_batch txs _ s2) as [[[b|e]|t] s2a] eqn:B; try discriminate E.
  cbn [fst]. rewrite (select_call_pure _ b s2a s2').
  destruct (select_call (length txs) b s2a) as [[call|t] s3]; try discriminate E.
  cbn [fst]. unfold settle, BigInt_ in *.
  destruct (encodeFunctionData call); try discriminate E.
  destruct (BigInt (Str mf)); try discriminate E.
  destruct (BigInt (Str mpf)); try discriminate E.
  injection E as <- _. eauto.
Qed.

End DeploymentCheck.

(** ** A hook sender that is not an address *)

Section HookSender.
Context `{Collaborators} (this : SoulWallet).

(** X29: a hook sender that fails [TypeGuard.onlyAddress] is thrown, not
    returned: [packUserOpSignature] throws before any request, and
    [estimateUserOperationGas], entered with the empty signature and such a
    sender, rejects with that error, leaving the operation as it was. *)
Theorem estimateUserOperationGas_invalid_hook_sender_throws w g s u cfg :
  _onChainConfig s = Some cfg ->
  toLowerCase (hookSender g) = toLowerCase (sender u) ->
  initCode u <> "0x" ->
  signature u = "0x" ->
  isErr (TypeGuard_onlyAddress (hookSender g)) = true ->
  packUserOpSignature w semiValid_signature (hex semiValid_validationData) (Some g) s
    = (Abrupt (ThrownError (mkError ("invalid sender: " ++ hookSender g))), s) /\
  estimateUserOperationGas this w (Some g) (s, u)
    = (Abrupt (ThrownError (mkError ("invalid sender: " ++ hookSender g))), (s, u)).
Proof.
  intros M Snd Init Sig Bad.
  assert (P : packUserOpSignature w semiValid_signature
                (hex semiValid_validationData) (Some g) s
              = (Abrupt (ThrownError (mkError ("invalid sender: " ++ hookSender g))), s)).
  { unfold packUserOpSignature. rewrite Bad. reflexivity. }
  split; [exact P|].
  unfold estimateUserOperationGas.
  unfold mbind at 1, M_bind at 1, read_userOp, gets. cbn [fst snd].
  rewrite Snd, String.eqb_refl. cbn [negb].
  apply String.eqb_neq in Init. rewrite Init, Sig.
  unfold mbind at 1, M_bind at 1, zoom at 1. cbn [fst snd].
  rewrite (getOnChainConfig_memo this w s cfg M).
  change ("0x" =? "0x") with true. cbv iota.
  unfold try_finally, mbind, M_bind, zoom. cbn [fst snd].
  fold (hex semiValid_validationData). rewrite P.
  unfold update_userOp, modify. cbn [fst snd].
  destruct u; cbn in *; subst; reflexivity.
Qed.

End HookSender.

(** ** The new facts on the concrete world *)

Section MoreExamples.
#[local] Existing Instance demo_tools.
#[local] Existing Instance demo_deploy_tools.

Lemma configuration_failure_rejects_witness :
  walletDeployed demo_wallet demo_world_offline demo_sender demo_state
  = (Abrupt (ThrownError (mkError "could not detect network")),
     log provider_getNetwork_request demo_state).
Proof.
  destruct (configuration_failure_rejects demo_wallet demo_world_offline demo_state
              (ThrownError (mkError "could not detect network"))
              (demo_op "0x" (Num 3)) demo_sender eq_refl eq_refl)
    as (_ & _ & _ & _ & _ & W & _).
  exact W.
Defined.


(** The fee ['0x10'] reads back as 16. *)
Lemma fromTransaction_fees_witness :
  BigInt (maxFeePerGas demo_built) = Some 16%Z.
Proof.
  destruct (fromTransaction_fees demo_wallet demo_world "0x10" "1" demo_sender
              demo_txs None demo_state demo_built (snd demo_build) demo_build_Ok)
    as (fee & prio & F & _ & _ & _ & B & _).
  vm_compute in F. injection F as <-. exact B.
Defined.

(** The entry point answers 3. *)
Lemma fromTransaction_nonce_witness :
  nonce demo_built = Str "0x3".
Proof.
  destruct (fromTransaction_nonce demo_wallet demo_world "0x10" "1" demo_sender
              demo_txs None demo_state demo_built (snd demo_build) demo_build_Ok)
    as (ep & n & _ & A & N & _).
  cbn in A. injection A as <-. exact N.
Defined.

Lemma fromTransaction_then_preFund_witness :
  preFund demo_wallet demo_world demo_built demo_state
  = (Normal (Err (mkError validation_message)), demo_state).
Proof.
  destruct (fromTransaction_then_preFund demo_wallet demo_world "0x10" "1" demo_sender
              demo_txs None demo_state demo_built (snd demo_build) demo_build_Ok
              demo_world demo_state)
    as (e & P & Msg).
  rewrite P, Msg; [reflexivity| |]; vm_compute; eauto.
Defined.

Lemma estimateUserOperationGas_hook_rejects_built_witness :
  estimateUserOperationGas demo_wallet demo_world
    (Some {| hookSender := demo_sender; hookInputData := "0x" |})
    (demo_state, demo_built)
  = (Normal (Err (mkUserOpErrors UnknownError
       "cannot set semiValidGuardHookInputData when the contract wallet is not deployed")),
     (demo_state, demo_built)).
Proof.
  exact (estimateUserOperationGas_hook_rejects_built demo_wallet demo_world "0x10" "1"
           demo_sender demo_txs None demo_state demo_built (snd demo_build)
           demo_build_Ok demo_world
           {| hookSender := demo_sender; hookInputData := "0x" |} demo_state).
Defined.

Lemma new_SoulWallet_validates_witness :
  isErr (TypeGuard_httpOrHttps "https://rpc.example.org") = false /\
  Forall (fun a => isErr (TypeGuard_onlyAddress a) = false)
    [demo_factory; defalutCallbackHandlerAddress demo_wallet;
     keyStoreModuleAddress demo_wallet; securityControlModuleAddress demo_wallet].
Proof.
  assert (E : new_SoulWallet (ProviderUrl "https://rpc.example.org")
                ProviderObject demo_factory
                (defalutCallbackHandlerAddress demo_wallet)
                (keyStoreModuleAddress demo_wallet)
                (securityControlModuleAddress demo_wallet) = Normal demo_wallet)
    by (vm_compute; reflexivity).
  destruct (new_SoulWallet_validates _ _ _ _ _ _ _ E) as (U & _ & _ & _ & _ & A).
  split; [apply U; left; reflexivity | exact A].
Defined.

(** The wallet of index 1 deploys. *)
Lemma demo_create_Ok : demo_create = (Normal (Ok demo_created), snd demo_create).
Proof. vm_compute. reflexivity. Qed.

Lemma createUnsignedDeployWalletUserOp_consistent_witness :
  toLowerCase (initCode demo_created) = initCode demo_created /\
  callData demo_created = "0x".
Proof.
  destruct (createUnsignedDeployWalletUserOp_consistent demo_wallet demo_deploy_world 1
              demo_key demo_guardianHash None None demo_state demo_created
              (snd demo_create) demo_create_Ok)
    as (init & salt & cw & _ & _ & _ & L & _ & C & _).
  split; [exact L | exact C].
Defined.

Lemma createUnsignedDeployWalletUserOp_then_preFund_witness :
  preFund demo_wallet demo_world demo_created demo_state
  = (Normal (Err (mkError validation_message)), demo_state).
Proof.
  apply (createUnsignedDeployWalletUserOp_then_preFund demo_wallet demo_deploy_world 1
           demo_key demo_guardianHash None None demo_state demo_created
           (snd demo_create) demo_create_Ok).
Defined.

Lemma demo_initializeData_Ok :
  demo_initializeData = (Normal (Ok demo_initializer), demo_resolved).
Proof. vm_compute. reflexivity. Qed.

Lemma calcWalletAddress_rejects_witness :
  fst (calcWalletAddress demo_wallet demo_deploy_world_failing 1 demo_key
         demo_guardianHash None demo_state)
  = Abrupt (ThrownError (mkError "call revert exception")).
Proof.
  destruct (calcWalletAddress_rejects demo_wallet demo_deploy_world_failing 1 demo_key
              demo_guardianHash None None demo_state demo_initializer demo_resolved
              ("0x" ++ zeros 63 ++ "1")
              (ThrownError (mkError "call revert exception"))
              demo_initializeData_Ok eq_refl eq_refl)
    as [W _].
  rewrite W. reflexivity.
Defined.

Lemma initializeData_repeatable_witness :
  fst (initializeData demo_wallet demo_world_offline demo_key demo_guardianHash None
         (run_public_calls demo_wallet demo_public_calls demo_resolved))
  = Normal (Ok demo_initializer).
Proof.
  rewrite (initializeData_repeatable demo_wallet demo_world demo_key demo_guardianHash
             None demo_state demo_initializer demo_resolved demo_public_calls
             demo_world_offline demo_initializeData_Ok).
  reflexivity.
Defined.

Lemma configuration_write_once_witness :
  _onChainConfig (run_public_calls demo_wallet demo_public_calls demo_resolved)
  = Some demo_config.
Proof.
  apply (proj1 (configuration_write_once demo_wallet demo_public_calls demo_resolved
                  demo_config eq_refl)).
Defined.

Lemma returned_configuration_valid_witness :
  valid_config demo_config /\
  well_formed (run_public_calls demo_wallet demo_public_calls demo_resolved).
Proof.
  apply (returned_configuration_valid demo_wallet demo_public_calls demo_resolved
           demo_world demo_config).
  - destruct (returned_configuration_valid demo_wallet [] demo_state demo_world
                demo_config demo_resolved (fresh_instance_well_formed [])
                demo_resolution) as [_ W].
    exact W.
  - vm_compute. reflexivity.
Defined.

Lemma legacy_preFund_zero_gas_throws_witness :
  Legacy.preFund demo_wallet demo_world demo_zero_fee demo_state
  = (Abrupt (ThrownError (mkError validation_message)), demo_state).
Proof.
  apply (legacy_preFund_zero_gas_throws demo_wallet demo_world demo_zero_fee demo_state
           0 1 1 0); try reflexivity.
  left. reflexivity.
Defined.

(** The same operation on a chain without code. *)
Lemma fromTransaction_ignores_deployment_witness :
  exists s,
    fromTransaction demo_wallet (with_code "0x" demo_world) "0x10" "1" demo_sender
      demo_txs None demo_state
    = (Normal (Ok demo_built), s).
Proof.
  apply (fromTransaction_ignores_deployment demo_wallet demo_world "0x10" "1"
           demo_sender demo_txs None demo_state demo_built (snd demo_build) "0x"
           demo_build_Ok).
Defined.

Lemma estimateUserOperationGas_invalid_hook_sender_throws_witness :
  estimateUserOperationGas demo_wallet demo_world (Some demo_bad_hook)
    (demo_resolved, demo_bad_op)
  = (Abrupt (ThrownError (mkError "invalid sender: 0xnot-an-address")),
     (demo_resolved, demo_bad_op)).
Proof.
  apply (estimateUserOperationGas_invalid_hook_sender_throws demo_wallet demo_world
           demo_bad_hook demo_resolved demo_bad_op demo_config).
  - reflexivity.
  - reflexivity.
  - discriminate.
  - reflexivity.
  - reflexivity.
Defined.

End MoreExamples.

Section DeployFactoryExamples.
#[local] Existing Instance demo_ethers.

(** The factory is deployed by the one transaction. *)
Lemma demo_deploy_factory_Ok :
  demo_deploy_factory [] = (Normal demo_factory, snd (demo_deploy_factory [])).
Proof. vm_compute. reflexivity. Qed.

Lemma deploy_returns_getAddress_witness :
  DeployFactory.getAddress demo_singleton demo_logic None None
    ([] : list DeployFactory.Request)
  = (Normal demo_factory, []).
Proof.
  apply (proj1 (DeployFactoryFacts.deploy_returns_getAddress demo_singleton demo_chain
                  demo_logic None None [] demo_factory (snd (demo_deploy_factory []))
                  demo_deploy_factory_Ok)).
Defined.

Lemma deploy_sends_at_most_once_witness :
  (length (DeployFactory.sent (snd (demo_deploy_factory []))) <= 1)%nat.
Proof.
  destruct (DeployFactoryFacts.deploy_sends_at_most_once demo_singleton demo_chain
              demo_logic None None [] (Normal demo_factory)
              (snd (demo_deploy_factory [])) demo_deploy_factory_Ok)
    as (reqs & E & L & _).
  cbn [app] in E. rewrite E. exact L.
Defined.

End DeployFactoryExamples.
